(** * Fig-Reporting-App: ingestion, store and weather stitching

    A shallow embedding of [src/services/storageService.ts] and
    [src/services/weatherService.ts], and the properties of the specification
    that are stated about them; then the code around them (the helpers of
    [src/services/geminiService.ts], the start-up effect and the derived
    values of the application shell, the handlers of the import panel, the
    earlier weather service) and further properties of the whole.

    Conventions of the embedding.
    - A JavaScript string is a [string]: a sequence of 8-bit code units
      (strings whose UTF-16 code units are all below 256).
    - [null] / a failed [match] is [None].
    - The host's [Date] parser, [Math.random] and the network are parameters
      of the functions that use them. *)

From Stdlib Require Import Bool Arith ZArith QArith Qround Lia List.
From Stdlib Require Import Ascii String DecimalString DecimalN DecimalPos.
From Stdlib Require Import Permutation Sorted.
From Stdlib Require OrderedTypeEx.
Import ListNotations.

Close Scope Q_scope.
Open Scope string_scope.
Open Scope nat_scope.

(** ** Text: the string primitives of the host that the services call *)

Module Text.

Definition LF : ascii := ascii_of_nat 10.
Definition CR : ascii := ascii_of_nat 13.
Definition TAB : ascii := ascii_of_nat 9.

(** [WhiteSpace] and [LineTerminator] code units below 256: what
    [String.prototype.trim] strips. *)
Definition isWhiteSpace (c : ascii) : bool :=
  let n := nat_of_ascii c in
  ((9 <=? n) && (n <=? 13)) || (n =? 32) || (n =? 160).

(** [\d] *)
Definition isDigit (c : ascii) : bool :=
  let n := nat_of_ascii c in (48 <=? n) && (n <=? 57).

Fixpoint trimStart (s : string) : string :=
  match s with
  | EmptyString => EmptyString
  | String c r => if isWhiteSpace c then trimStart r else s
  end.

Fixpoint trimEnd (s : string) : string :=
  match s with
  | EmptyString => EmptyString
  | String c r =>
      match trimEnd r with
      | EmptyString => if isWhiteSpace c then EmptyString else String c EmptyString
      | t => String c t
      end
  end.

(** [s.trim()] *)
Definition trim (s : string) : string := trimEnd (trimStart s).

(** Puts a code unit in front of the first piece of a split. *)
Definition consHead (c : ascii) (l : list string) : list string :=
  match l with
  | h :: t => String c h :: t
  | [] => [String c EmptyString]
  end.

(** [s.split(d)] for a one-character separator [d]. *)
Fixpoint split (d : ascii) (s : string) : list string :=
  match s with
  | EmptyString => [EmptyString]
  | String c r => if Ascii.eqb c d then EmptyString :: split d r
                  else consHead c (split d r)
  end.

(** [s.split(/\r\n|\n/)] *)
Fixpoint splitLines (s : string) : list string :=
  match s with
  | EmptyString => [EmptyString]
  | String c r =>
      if Ascii.eqb c LF then EmptyString :: splitLines r
      else match r with
           | String c2 r2 =>
               if Ascii.eqb c CR && Ascii.eqb c2 LF
               then EmptyString :: splitLines r2
               else consHead c (splitLines r)
           | EmptyString => [String c EmptyString]
           end
  end.

(** [s.includes(c)] for a one-character needle. *)
Fixpoint includesChar (c : ascii) (s : string) : bool :=
  match s with
  | EmptyString => false
  | String a r => Ascii.eqb a c || includesChar c r
  end.

(** [s.includes(t)] *)
Fixpoint includes (t s : string) : bool :=
  prefix t s || match s with
                | EmptyString => false
                | String _ r => includes t r
                end.

(** [s.padStart(2, '0')] *)
Definition padStart2 (s : string) : string :=
  match length s with
  | 0 => "00" ++ s
  | 1 => "0" ++ s
  | _ => s
  end.

(** [xs.join('\n')] and friends. *)
Definition join (sep : string) (l : list string) : string := concat sep l.

(** The longest prefix of [s] made of characters satisfying [p], and the
    rest. *)
Fixpoint span (p : ascii -> bool) (s : string) : string * string :=
  match s with
  | EmptyString => (EmptyString, EmptyString)
  | String c r =>
      if p c then let '(a, b) := span p r in (String c a, b)
      else (EmptyString, s)
  end.

Fixpoint allChars (p : ascii -> bool) (s : string) : bool :=
  match s with
  | EmptyString => true
  | String c r => p c && allChars p r
  end.

(** The value of a run of decimal digits (0 for the empty run), read by the
    standard library's decimal reader. *)
Definition digitsN (s : string) : N :=
  match NilEmpty.uint_of_string s with
  | Some u => N.of_uint u
  | None => 0%N
  end.

End Text.

(** ** Dates *)

Module DateText.
Import Text.

(** [[-\/]] *)
Definition isSep (c : ascii) : bool :=
  Ascii.eqb c "-"%char || Ascii.eqb c "/"%char.

(** Digits, a separator, digits, a separator, digits, end of input: the
    common skeleton of the two anchored patterns with separators.  Digits
    and separators are disjoint, so each [\d{m,n}] group of the pattern can
    only match a maximal run of digits; the bounds on the lengths of the
    runs are checked by the callers. *)
Definition digitRuns3 (s : string) : option (string * string * string) :=
  let '(a, r1) := span isDigit s in
  match r1 with
  | String c1 r2 =>
      if isSep c1 then
        let '(b, r3) := span isDigit r2 in
        match r3 with
        | String c2 r4 =>
            if isSep c2 then
              let '(c, r5) := span isDigit r4 in
              match r5 with
              | EmptyString => Some (a, b, c)
              | _ => None
              end
            else None
        | EmptyString => None
        end
      else None
  | EmptyString => None
  end.

Definition between (lo hi n : nat) : bool := (lo <=? n) && (n <=? hi).

(** [datePart.match(/^(\d{4})[-\/](\d{1,2})[-\/](\d{1,2})$/)], the three
    groups. *)
Definition isoMatch (s : string) : option (string * string * string) :=
  match digitRuns3 s with
  | Some (y, m, d) =>
      if (length y =? 4) && between 1 2 (length m) && between 1 2 (length d)
      then Some (y, m, d) else None
  | None => None
  end.

(** [datePart.match(/^(\d{1,2})[\/\-](\d{1,2})[\/\-](\d{2,4})$/)] *)
Definition slashMatch (s : string) : option (string * string * string) :=
  match digitRuns3 s with
  | Some (d, m, y) =>
      if between 1 2 (length d) && between 1 2 (length m) && between 2 4 (length y)
      then Some (d, m, y) else None
  | None => None
  end.

(** [datePart.match(/^(\d{2})(\d{2})(\d{4})$/)] *)
Definition compactMatch (s : string) : option (string * string * string) :=
  if (length s =? 8) && allChars isDigit s
  then Some (substring 0 2 s, substring 2 2 s, substring 4 4 s)
  else None.

(** [rawDate.split(' ')[0]] *)
Definition datePartOf (s : string) : string :=
  hd EmptyString (split " "%char s).

(** The canonical shape: four digits, [-], two digits, [-], two digits. *)
Definition isYMD (s : string) : bool :=
  match digitRuns3 s with
  | Some (y, m, d) =>
      (length y =? 4) && (length m =? 2) && (length d =? 2) &&
      allChars (fun c => negb (Ascii.eqb c "/"%char)) s
  | None => false
  end.

Section Normalizer.

(** [new Date(s).getTime()]: milliseconds since the epoch, [None] for
    [NaN] (an invalid date).  What the host accepts as a date string is
    left to the host. *)
Variable getTime : string -> option Z.

Definition isValidDate (s : string) : bool :=
  match getTime s with Some _ => true | None => false end.

(** [parseDate] of storageService.ts. *)
Definition parseDate (rawDate : string) : option string :=
  match rawDate with
  | EmptyString => None
  | _ =>
      let rawDate := trim rawDate in
      let datePart := datePartOf rawDate in
      match isoMatch datePart with
      | Some (year, m, d) =>
          let month := padStart2 m in
          let day := padStart2 d in
          let isoString := year ++ "-" ++ month ++ "-" ++ day in
          if isValidDate isoString then Some isoString else None
      | None =>
          match slashMatch datePart with
          | Some (d, m, y) =>
              let day := padStart2 d in
              let month := padStart2 m in
              let year := if length y =? 2 then "20" ++ y else y in
              Some (year ++ "-" ++ month ++ "-" ++ day)
          | None =>
              match compactMatch datePart with
              | Some (day, month, year) =>
                  Some (year ++ "-" ++ month ++ "-" ++ day)
              | None => None
              end
          end
      end
  end.

End Normalizer.

End DateText.

(** ** A host [Date] for canonical strings

    [new Date("YYYY-MM-DD")] as ECMAScript's date-time string format defines
    it: UTC midnight of that day, and an invalid date when the month or the
    day is out of range.  Hosts differ on strings outside the format (and some
    accept a day up to 31 in every month); the development is parametric in
    the host's parser and uses this one for concrete runs. *)

Module HostDate.
Import Text DateText.
Local Open Scope Z_scope.

Definition digitsVal (s : string) : Z := Z.of_N (digitsN s).

Definition isLeap (y : Z) : bool :=
  ((y mod 4 =? 0) && negb (y mod 100 =? 0)) || (y mod 400 =? 0).

Definition daysInMonth (y m : Z) : Z :=
  if m =? 2 then (if isLeap y then 29 else 28)
  else if (m =? 4) || (m =? 6) || (m =? 9) || (m =? 11) then 30
  else 31.

(** Days from 1970-01-01 to the civil date [y]-[m]-[d]. *)
Definition daysFromCivil (y m d : Z) : Z :=
  let y' := if m <=? 2 then y - 1 else y in
  let era := y' / 400 in
  let yoe := y' - era * 400 in
  let mp := (m + 9) mod 12 in
  let doy := (153 * mp + 2) / 5 + d - 1 in
  let doe := yoe * 365 + yoe / 4 - yoe / 100 + doy in
  era * 146097 + doe - 719468.

Definition msPerDay : Z := 86400000.

Definition getTime (s : string) : option Z :=
  match digitRuns3 s with
  | Some (ys, ms, ds) =>
      if isYMD s then
        let y := digitsVal ys in
        let m := digitsVal ms in
        let d := digitsVal ds in
        if (1 <=? m) && (m <=? 12) && (1 <=? d) && (d <=? daysInMonth y m)
        then Some (daysFromCivil y m d * msPerDay)
        else None
      else None
  | None => None
  end.

End HostDate.

(** ** Numbers

    A JavaScript number is [NaN], an infinity, or a finite value.  A finite
    value is kept as the exact rational it denotes: the rounding of a decimal
    literal to the nearest binary64 value is not part of the model (it is
    exact for the integers up to 2^53 and the short decimals that spreadsheet
    cells hold), and neither is the sign of zero. *)

Module Num.
Import Text.

Inductive number : Type :=
| NaN
| Inf (negative : bool)
| Fin (q : Q).

Definition zero : number := Fin 0%Q.

Definition ofZ (z : Z) : number := Fin (inject_Z z).

(** [isNaN(n)] *)
Definition isNaN (n : number) : bool :=
  match n with NaN => true | _ => false end.

(** [Math.round(n)]: the nearest integer, a tie going up; [NaN] and the
    infinities are returned as they are. *)
Definition round (n : number) : number :=
  match n with
  | Fin q => ofZ (Qfloor (q + (1 # 2))%Q)
  | _ => n
  end.

(** An optional sign in front of a literal. *)
Definition stripSign (s : string) : bool * string :=
  match s with
  | String c r =>
      if Ascii.eqb c "-"%char then (true, r)
      else if Ascii.eqb c "+"%char then (false, r)
      else (false, s)
  | EmptyString => (false, s)
  end.

(** [ExponentPart] at the head of [s]: [e] or [E], an optional sign and at
    least one digit.  0 when there is none. *)
Definition exponentOf (s : string) : Z :=
  match s with
  | String c r =>
      if Ascii.eqb c "e"%char || Ascii.eqb c "E"%char then
        let '(neg, r') := stripSign r in
        let '(ds, _) := span isDigit r' in
        match ds with
        | EmptyString => 0%Z
        | _ => if neg then (- Z.of_N (digitsN ds))%Z else Z.of_N (digitsN ds)
        end
      else 0%Z
  | EmptyString => 0%Z
  end.

(** [m * 10^e] *)
Definition scale10 (m : Z) (e : Z) : Q :=
  if (0 <=? e)%Z then inject_Z (m * 10 ^ e)
  else Qmake m (Z.to_pos (10 ^ (- e))).

(** [parseFloat(s)]: skip leading white space, then take the longest prefix
    that is a [StrDecimalLiteral] (a sign, then [Infinity] or digits with an
    optional fraction and exponent); [NaN] when there is none. *)
Definition parseFloat (s : string) : number :=
  let '(neg, u) := stripSign (trimStart s) in
  if prefix "Infinity" u then Inf neg
  else
    let '(ip, r1) := span isDigit u in
    let '(fp, r2) :=
      match r1 with
      | String c r =>
          if Ascii.eqb c "."%char then span isDigit r else (EmptyString, r1)
      | EmptyString => (EmptyString, r1)
      end in
    match ip ++ fp with
    | EmptyString => NaN
    | ds =>
        let m := Z.of_N (digitsN ds) in
        let e := (exponentOf r2 - Z.of_nat (length fp))%Z in
        Fin (scale10 (if neg then - m else m)%Z e)
    end.

(** Decimal digits of a natural number. *)
Definition showN (n : N) : string := NilEmpty.string_of_uint (N.to_uint n).

Definition showZ (z : Z) : string :=
  if (z <? 0)%Z then "-" ++ showN (Z.to_N (- z)) else showN (Z.to_N z).

Definition isInteger (q : Q) : bool := Qeq_bool (inject_Z (Qfloor q)) q.

Section Printing.

(** [Number::toString] on the finite values that are not integers below
    10^21 in magnitude (shortest round-trip digits, exponent notation) is
    left to the host. *)
Variable showOther : Q -> string.

(** [`${n}`] *)
Definition toString (n : number) : string :=
  match n with
  | NaN => "NaN"
  | Inf false => "Infinity"
  | Inf true => "-Infinity"
  | Fin q =>
      if isInteger q && (Z.abs (Qfloor q) <? 10 ^ 21)%Z
      then showZ (Qfloor q) else showOther q
  end.

End Printing.

End Num.

(** ** storageService.ts *)

Module Storage.
Import Text DateText Num.

(** [Observation] of types.ts (the optional display-only [rain] and
    [tempMax] are never set by the services). *)
Record Observation : Type := mkObservation {
  id : string;
  date : string;
  bats : number;
  figs : number;
  leaves : number
}.

(** The persisted slot [fig_bat_data_v1] of [localStorage]: [None] when the
    key is absent, empty or holds text that [JSON.parse] rejects, [Some l]
    when it holds the array [l] written by [JSON.stringify].  The slot is
    only written by this module, and the array is kept as it is: that JSON
    writes [NaN] and the infinities as [null] is not followed. *)
Definition Slot : Type := option (list Observation).

(** [xs.findIndex(p)], [None] for -1. *)
Fixpoint findIndex {A : Type} (p : A -> bool) (l : list A) : option nat :=
  match l with
  | [] => None
  | x :: t => if p x then Some 0
              else match findIndex p t with
                   | Some i => Some (S i)
                   | None => None
                   end
  end.

(** [xs[i] = v] on a copy, for [i] within the array. *)
Fixpoint setAt {A : Type} (i : nat) (v : A) (l : list A) : list A :=
  match l, i with
  | [], _ => []
  | _ :: t, 0 => v :: t
  | x :: t, S j => x :: setAt j v t
  end.

Section WithHost.

(** [new Date(s).getTime()], [None] for [NaN]. *)
Variable getTime : string -> option Z.

(** The successive values of [Math.random().toString(36).substr(2, 9)]. *)
Variable rand : nat -> string.

(** [Number::toString] outside the integers (see [Num.toString]). *)
Variable showOther : Q -> string.

(** [(a, b) => new Date(b.date).getTime() - new Date(a.date).getTime()],
    [None] for [NaN]. *)
Definition byDateDesc (a b : Observation) : option Z :=
  match getTime (date b), getTime (date a) with
  | Some tb, Some ta => Some (tb - ta)%Z
  | _, _ => None
  end.

(** The comparator puts [a] after [b]: its value is positive.  A [NaN] is
    taken for 0 by [Array.prototype.sort]. *)
Definition goesAfter (a b : Observation) : bool :=
  match byDateDesc a b with
  | Some v => (0 <? v)%Z
  | None => false
  end.

Fixpoint insertSorted (x : Observation) (l : list Observation) : list Observation :=
  match l with
  | [] => [x]
  | y :: t => if goesAfter x y then y :: insertSorted x t else x :: l
  end.

(** [xs.sort(byDateDesc)]: a stable sort.  With a consistent comparator (all
    dates valid) its result is determined by the comparator alone; when a
    date is invalid the order is left to the host by ECMAScript and only
    "a permutation of the input" can be relied on. *)
Fixpoint sortByDate (l : list Observation) : list Observation :=
  match l with
  | [] => []
  | x :: t => insertSorted x (sortByDate t)
  end.

(** [getObservations] *)
Definition getObservations (st : Slot) : list Observation :=
  match st with
  | None => []
  | Some parsed => sortByDate parsed
  end.

Definition withId (o : Observation) (i : string) : Observation :=
  mkObservation i (date o) (bats o) (figs o) (leaves o).

(** [saveObservation]: the returned array and the slot after the single
    [setItem]. *)
Definition saveObservation (obs : Observation) (st : Slot)
  : list Observation * Slot :=
  let current := getObservations st in
  let updated :=
    match findIndex (fun o => String.eqb (date o) (date obs)) current with
    | Some existingIndex =>
        setAt existingIndex
              (withId obs (id (nth existingIndex current obs))) current
    | None => obs :: current
    end in
  let updated := sortByDate updated in
  (updated, Some updated).

(** [deleteObservation] *)
Definition deleteObservation (i : string) (st : Slot)
  : list Observation * Slot :=
  let current := getObservations st in
  let updated := filter (fun o => negb (String.eqb (id o) i)) current in
  (updated, Some updated).

Definition exportRow (d : Observation) : string :=
  date d ++ "," ++ toString showOther (figs d) ++ ","
         ++ toString showOther (bats d) ++ ","
         ++ toString showOther (leaves d).

(** [exportToCSV] *)
Definition exportToCSV (data : list Observation) : string :=
  join (String LF "") ("Date,Figs,Bats,Leaves" :: map exportRow data).

(** [parseValue] inside [importFromCSV]. *)
Definition parseValue (val : string) : number :=
  if String.eqb val "" then zero else parseFloat val.

(** A string in a condition: [null] and [""] are falsy. *)
Definition truthy (o : option string) : bool :=
  match o with
  | Some s => negb (String.eqb s "")
  | None => false
  end.

(** The body of the loop of [importFromCSV] on the line [rawLine], with the
    records collected so far. *)
Definition importLine (delimiter : ascii) (observations : list Observation)
    (rawLine : string) : list Observation :=
  let line := trim rawLine in
  if String.eqb line "" then observations
  else
    let parts := map trim (split delimiter line) in
    if 3 <=? List.length parts then
      let rawDate := nth 0 parts "" in
      let formattedDate := parseDate getTime rawDate in
      let figsVal := parseValue (nth 1 parts "") in
      let batsVal := parseValue (nth 2 parts "") in
      let leavesVal :=
        if 4 <=? List.length parts then parseValue (nth 3 parts "") else zero in
      if truthy formattedDate && negb (isNaN figsVal) && negb (isNaN batsVal)
      then
        observations ++
          [ {| id := rand (List.length observations);
               date := match formattedDate with Some d => d | None => "" end;
               figs := round figsVal;
               bats := round batsVal;
               leaves := if isNaN leavesVal then zero else round leavesVal |} ]
      else observations
    else observations.

(** [lines.find(l => l.trim().length > 0) || ""] *)
Definition firstNonBlank (lines : list string) : string :=
  match find (fun l => 0 <? length (trim l)) lines with
  | Some l => l
  | None => ""
  end.

Definition detectDelimiter (lines : list string) : ascii :=
  if includesChar TAB (firstNonBlank lines) then TAB else ","%char.

(** The records pushed by the loop of [importFromCSV], before sorting. *)
Definition parseRows (input : string) : list Observation :=
  let lines := splitLines (trim input) in
  fold_left (importLine (detectDelimiter lines)) lines [].

(** [importFromCSV] *)
Definition importFromCSV (input : string) (st : Slot)
  : list Observation * Slot :=
  if String.eqb input "" || String.eqb (trim input) "" then ([], st)
  else
    let observations := parseRows input in
    if 0 <? List.length observations then
      let observations := sortByDate observations in
      (observations, Some observations)
    else (observations, st).

End WithHost.

End Storage.

(** ** weatherService.ts *)

Module Weather.
Import Text.

(** [WeatherData] of types.ts. *)
Record WeatherData : Type := mkWeather {
  date : string;
  rain : Q;
  tempMax : Q
}.

(** The [daily] object of a response, as far as [parseMeteoResponse] looks at
    it.  [time] is [None] when it is missing or falsy, and an array of
    strings otherwise; a series is [None] when it is missing (reading an
    element of it throws); an element of a series is [None] when it is
    [null] or beyond the end of the series. *)
Record Daily : Type := mkDaily {
  time : option (list string);
  temperature_2m_max : option (list (option Q));
  precipitation_sum : option (list (option Q))
}.

(** The parsed body of a response: [null], or a value whose [daily]
    property is missing ([None]) or an object. *)
Inductive Json : Type :=
| JNull
| JValue (daily : option Daily).

(** [xs[index] || 0] *)
Definition orZero (xs : list (option Q)) (index : nat) : Q :=
  match nth index xs None with
  | Some q => if Qeq_bool q 0 then 0%Q else q
  | None => 0%Q
  end.

Fixpoint mapIndexed {A B : Type} (f : A -> nat -> B) (index : nat) (l : list A)
  : list B :=
  match l with
  | [] => []
  | x :: t => f x index :: mapIndexed f (S index) t
  end.

(** [parseMeteoResponse]; [None] when it throws a [TypeError]. *)
Definition parseMeteoResponse (json : Json) : option (list WeatherData) :=
  match json with
  | JNull => None
  | JValue None => Some []
  | JValue (Some daily) =>
      match time daily with
      | None => Some []
      | Some [] => Some []
      | Some times =>
          match temperature_2m_max daily, precipitation_sum daily with
          | Some temps, Some rains =>
              Some (mapIndexed
                      (fun d index =>
                         {| date := d;
                            tempMax := orZero temps index;
                            rain := orZero rains index |})
                      0 times)
          | _, _ => None
          end
      end
  end.

Inductive Endpoint : Type := Archive | Forecast.

(** A request: the endpoint and the two dates of the URL; latitude,
    longitude, the daily series and the time zone are constants. *)
Record Request : Type := mkRequest {
  endpoint : Endpoint;
  start_date : string;
  end_date : string
}.

(** What [fetch] gives: a rejection (transport error), or a response with
    its [ok] flag and the outcome of [res.json()] ([None]: it rejects). *)
Inductive Fetched : Type :=
| Rejected
| Response (ok : bool) (body : option Json).

(** [a > b] and [a <= b] on timestamps, false when one is [NaN]. *)
Definition gtTime (a b : option Z) : bool :=
  match a, b with
  | Some x, Some y => (y <? x)%Z
  | _, _ => false
  end.

Definition leTime (a b : option Z) : bool :=
  match a, b with
  | Some x, Some y => (x <=? y)%Z
  | _, _ => false
  end.

(** [x >>= f] for a computation that may throw. *)
Definition andThen {A B : Type} (x : option A) (f : A -> option B) : option B :=
  match x with
  | Some a => f a
  | None => None
  end.

Section WithHost.

(** [new Date(s).getTime()], [None] for [NaN]. *)
Variable getTime : string -> option Z.

(** [new Date(t).toISOString().split('T')[0]]: the UTC date of a
    timestamp. *)
Variable toISODate : Z -> string.

(** [d.setDate(d.getDate() + 1)]: the timestamp one day later on the local
    calendar. *)
Variable nextLocalDay : Z -> Z.

(** [new Date().valueOf()] *)
Variable now : Z.

(** The network. *)
Variable fetch : Request -> Fetched.

(** [await res.json()] then [parseMeteoResponse(json)]. *)
Definition readBody (body : option Json) : option (list WeatherData) :=
  andThen body parseMeteoResponse.

(** The single-query cases: [fetch], [if (!res.ok) return []], parse. *)
Definition singleQuery (req : Request) : option (list WeatherData) :=
  match fetch req with
  | Rejected => None
  | Response ok body => if negb ok then Some [] else readBody body
  end.

(** [if (res.ok) results = [...results, ...parse(await res.json())]] *)
Definition addLeg (results : list WeatherData) (res : option Fetched)
  : option (list WeatherData) :=
  match res with
  | Some (Response true body) =>
      andThen (readBody body) (fun parsed => Some (results ++ parsed)%list)
  | _ => Some results
  end.

Definition cutoffOf : Z := (now - 7 * 24 * 60 * 60 * 1000)%Z.

(** The body of the [try] block of [fetchWeatherHistory]: the requests
    issued, in the order of the calls to [fetch], and the value returned,
    [None] when an exception is thrown. *)
Definition tryFetch (startDate endDate : string)
  : list Request * option (list WeatherData) :=
  let start := getTime startDate in
  let end_ := getTime endDate in
  let cutoffDate := cutoffOf in
  let cutoffStr := toISODate cutoffDate in
  if gtTime start (Some cutoffDate) then
    let req := mkRequest Forecast startDate endDate in
    ([req], singleQuery req)
  else if leTime end_ (Some cutoffDate) then
    let req := mkRequest Archive startDate endDate in
    ([req], singleQuery req)
  else
    let archiveReq := mkRequest Archive startDate cutoffStr in
    let nextDayStr := toISODate (nextLocalDay cutoffDate) in
    let forecastReq :=
      if leTime (getTime nextDayStr) end_
      then Some (mkRequest Forecast nextDayStr endDate) else None in
    let issued :=
      (match forecastReq with Some r => [r] | None => [] end ++ [archiveReq])%list in
    (* Promise.all: rejects when one of the two promises rejects *)
    match fetch archiveReq, option_map fetch forecastReq with
    | Rejected, _ => (issued, None)
    | _, Some Rejected => (issued, None)
    | archiveRes, forecastRes =>
        (issued,
         andThen (addLeg [] (Some archiveRes)) (fun results =>
         addLeg results forecastRes))
    end.

(** The requests that a call issues. *)
Definition requestsOf (startDate endDate : string) : list Request :=
  fst (tryFetch startDate endDate).

(** [fetchWeatherHistory]: the [catch] turns every exception into []. *)
Definition fetchWeatherHistory (startDate endDate : string) : list WeatherData :=
  match snd (tryFetch startDate endDate) with
  | Some results => results
  | None => []
  end.

End WithHost.

End Weather.

(** A host clock for concrete runs: UTC dates, and a local calendar without
    daylight saving (as in Queensland). *)

Module HostClock.
Import Text Num.
Local Open Scope Z_scope.

(** The civil date of a day number counted from 1970-01-01. *)
Definition civilFromDays (days : Z) : Z * Z * Z :=
  let z := days + 719468 in
  let era := z / 146097 in
  let doe := z - era * 146097 in
  let yoe := (doe - doe / 1460 + doe / 36524 - doe / 146096) / 365 in
  let doy := doe - (365 * yoe + yoe / 4 - yoe / 100) in
  let mp := (5 * doy + 2) / 153 in
  let d := doy - (153 * mp + 2) / 5 + 1 in
  let m := if mp <? 10 then mp + 3 else mp - 9 in
  let y := yoe + era * 400 + (if m <=? 2 then 1 else 0) in
  (y, m, d).

Definition pad (width : nat) (s : string) : string :=
  String.concat "" (repeat "0"%string (width - String.length s)) ++ s.

Definition toISODate (t : Z) : string :=
  let '(y, m, d) := civilFromDays (t / HostDate.msPerDay) in
  pad 4 (showZ y) ++ "-" ++ pad 2 (showZ m) ++ "-" ++ pad 2 (showZ d).

Definition nextLocalDay (t : Z) : Z := t + HostDate.msPerDay.

End HostClock.

(** ** The sheet import adapter: [fetchGoogleSheet] of storageService.ts *)

Module Sheet.
Import Text Num Storage.

Definition isLetter (c : ascii) : bool :=
  let n := nat_of_ascii c in
  ((65 <=? n) && (n <=? 90)) || ((97 <=? n) && (n <=? 122)).

(** [[a-zA-Z0-9-_]] *)
Definition isIdChar (c : ascii) : bool :=
  isLetter c || isDigit c || Ascii.eqb c "-"%char || Ascii.eqb c "_"%char.

(** [[#&?]] *)
Definition isGidLead (c : ascii) : bool :=
  Ascii.eqb c "#"%char || Ascii.eqb c "&"%char || Ascii.eqb c "?"%char.

(** What follows [p] at the head of [s], when [s] starts with [p]. *)
Fixpoint dropPrefix (p s : string) : option string :=
  match p, s with
  | EmptyString, _ => Some s
  | String a p', String b s' => if Ascii.eqb a b then dropPrefix p' s' else None
  | String _ _, EmptyString => None
  end.

(** A non-empty run of characters satisfying [p] at the head of [s]. *)
Definition runOf (p : ascii -> bool) (s : string) : option string :=
  match fst (span p s) with
  | EmptyString => None
  | run => Some run
  end.

(** [url.match(/\/d\/([a-zA-Z0-9-_]+)/)], the group of the leftmost
    match. *)
Fixpoint idMatch (url : string) : option string :=
  match url with
  | EmptyString => None
  | String _ r =>
      let here :=
        match dropPrefix "/d/" url with
        | Some rest => runOf isIdChar rest
        | None => None
        end in
      match here with
      | Some i => Some i
      | None => idMatch r
      end
  end.

(** [url.match(/[#&?]gid=(\d+)/)], the group of the leftmost match. *)
Fixpoint gidMatch (url : string) : option string :=
  match url with
  | EmptyString => None
  | String c r =>
      let here :=
        if isGidLead c then
          match dropPrefix "gid=" r with
          | Some rest => runOf isDigit rest
          | None => None
          end
        else None in
      match here with
      | Some g => Some g
      | None => gidMatch r
      end
  end.

(** A response of the network, as far as the adapter reads it: the
    [content-type] header, [ok], [status], and the outcome of
    [response.text()] (the text, or the message of the rejection). *)
Record SheetResponse : Type := mkSheetResponse {
  contentType : option string;
  ok : bool;
  status : N;
  text : string + string
}.

Inductive SheetFetched : Type :=
| FetchRejected (message : string)
| FetchResponse (r : SheetResponse).

(** The promise settles with the observations or rejects with an [Error]
    of the given message. *)
Inductive Outcome : Type :=
| Resolved (obs : list Observation)
| Failed (message : string).

Definition invalidUrl : string :=
  "Invalid Google Sheet URL. Could not find Spreadsheet ID.".

Definition accessDenied : string :=
  "Access denied. The sheet must be 'Published to the web' or have 'Anyone with the link' access.".

Definition noRows : string :=
  "No valid data rows found. Ensure columns are A=Date, B=Figs, C=Bats.".

(** [new Error(error.message || "Failed to fetch data.")] *)
Definition rethrow (message : string) : Outcome :=
  Failed (if String.eqb message "" then "Failed to fetch data." else message).

Section WithHost.

Variable getTime : string -> option Z.
Variable rand : nat -> string.
Variable fetch : string -> SheetFetched.

(** The export URL, or the message of the error thrown before the [try]. *)
Definition exportUrl (url : string) : string + string :=
  if includes "output=csv" url then inl url
  else
    match idMatch url with
    | None => inr invalidUrl
    | Some i =>
        let gid := match gidMatch url with Some g => g | None => "0" end in
        inl ("https://docs.google.com/spreadsheets/d/" ++ i
             ++ "/export?format=csv&gid=" ++ gid)
    end.

(** [fetchGoogleSheet]: the URLs requested from the network, the outcome,
    and the persisted slot afterwards. *)
Definition fetchGoogleSheet (url : string) (st : Slot)
  : list string * Outcome * Slot :=
  match exportUrl url with
  | inr message => ([], Failed message, st)
  | inl fetchUrl =>
      match fetch fetchUrl with
      | FetchRejected message => ([fetchUrl], rethrow message, st)
      | FetchResponse response =>
          if match contentType response with
             | Some ct => includes "text/html" ct
             | None => false
             end
          then ([fetchUrl], rethrow accessDenied, st)
          else if negb (ok response)
          then ([fetchUrl],
                rethrow ("Google Sheets returned status "
                         ++ showN (status response) ++ "."), st)
          else
            match text response with
            | inr message => ([fetchUrl], rethrow message, st)
            | inl csvText =>
                let '(obs, st') := importFromCSV getTime rand csvText st in
                if List.length obs =? 0
                then ([fetchUrl], rethrow noRows, st')
                else ([fetchUrl], Resolved obs, st')
            end
      end
  end.

End WithHost.

End Sheet.


(** ** geminiService.ts: what is sent along with a question

    The two helpers that prepare the observations for the language model,
    and the part of [analyzeData] that uses them.  The request to the model
    itself is not modelled. *)

Module Gemini.
Import Text Num Storage.

(** The two code units (194 and 176) that the source holds in front of
    the [C] of the temperature. *)
Definition degree : string :=
  String (ascii_of_nat 194) (String (ascii_of_nat 176) "").

Section WithHost.

(** [new Date(s).getTime()], [None] for [NaN]. *)
Variable getTime : string -> option Z.

(** [Number::toString] outside the integers (see [Num.toString]). *)
Variable showOther : Q -> string.

(** [new Date().toISOString().split('T')[0]]; the clock does not pass
    midnight between two readings of one call. *)
Variable today : string.

(** [(a, b) => new Date(a.date).getTime() - new Date(b.date).getTime()],
    [None] for [NaN]. *)
Definition byDateAsc (a b : Observation) : option Z :=
  match getTime (date a), getTime (date b) with
  | Some ta, Some tb => Some (ta - tb)%Z
  | _, _ => None
  end.

(** The comparator puts [a] after [b] (see [Storage.goesAfter]). *)
Definition goesAfterAsc (a b : Observation) : bool :=
  match byDateAsc a b with
  | Some v => (0 <? v)%Z
  | None => false
  end.

Fixpoint insertAsc (x : Observation) (l : list Observation) : list Observation :=
  match l with
  | [] => [x]
  | y :: t => if goesAfterAsc x y then y :: insertAsc x t else x :: l
  end.

(** [xs.sort(byDateAsc)], as [Storage.sortByDate]. *)
Fixpoint sortAsc (l : list Observation) : list Observation :=
  match l with
  | [] => []
  | x :: t => insertAsc x (sortAsc t)
  end.

(** [new Map(weather.map(w => [w.date, w])).get(d)]: of several entries of
    one date the last one is kept. *)
Fixpoint weatherOf (weather : list Weather.WeatherData) (d : string)
  : option Weather.WeatherData :=
  match weather with
  | [] => None
  | w :: t =>
      match weatherOf t d with
      | Some w' => Some w'
      | None => if String.eqb (Weather.date w) d then Some w else None
      end
  end.

(** The line of one observation in [getContextString]. *)
Definition contextLine (weather : list Weather.WeatherData) (d : Observation)
  : string :=
  let weatherStr :=
    match weatherOf weather (date d) with
    | Some w =>
        " | Weather: " ++ toString showOther (Fin (Weather.tempMax w))
          ++ degree ++ "C, " ++ toString showOther (Fin (Weather.rain w))
          ++ "mm Rain"
    | None => ""
    end in
  date d ++ ": Bats=" ++ toString showOther (bats d)
         ++ "%, Figs=" ++ toString showOther (figs d)
         ++ "%, Leaves=" ++ toString showOther (leaves d) ++ "%" ++ weatherStr.

(** [getContextString]: the text, and the array [data] of the caller as the
    call leaves it ([data.sort] sorts in place). *)
Definition getContextString (data : list Observation)
    (weather : list Weather.WeatherData) : string * list Observation :=
  let sortedData := sortAsc data in
  (join (String LF "") (map (contextLine weather) sortedData), sortedData).

(** [getRange]: [start] and [end]; the sort is made on a copy. *)
Definition getRange (data : list Observation) : string * string :=
  match data with
  | [] => (today, today)
  | first :: _ =>
      let sorted := sortAsc data in
      (date (hd first sorted), date (last sorted first))
  end.

(** The beginning of [analyzeData], after the check of the API key:
    [recentData] and [latestDate], the two values that are written into the
    prompt, and the array [data] of the caller afterwards.  [history] is
    [fetchWeatherHistory]. *)
Definition promptData (history : string -> string -> list Weather.WeatherData)
    (data : list Observation) : string * string * list Observation :=
  let '(start, end_) := getRange data in
  let weatherData := history start end_ in
  let '(recentData, data) := getContextString data weatherData in
  let latestDate :=
    match data with
    | d :: _ => date d
    | [] => today
    end in
  (recentData, latestDate, data).

End WithHost.

End Gemini.

(** ** The earlier weather service (src/unnamed/part_002)

    [fetchWeatherHistory] as it was before the forecast endpoint was added:
    one request to the archive endpoint, whatever the range. *)

Module ArchiveWeather.
Import Text Weather.

Section WithHost.

Variable fetch : Request -> Fetched.

(** [fetchWeatherHistory]: the requests issued and the list returned.  The
    body of the response is read by the same expressions as in
    [Weather.parseMeteoResponse]; a status that is not ok throws, and every
    exception ends in the [catch]. *)
Definition fetchWeatherHistory (startDate endDate : string)
  : list Request * list WeatherData :=
  let req := mkRequest Archive startDate endDate in
  ([req],
   match fetch req with
   | Rejected => []
   | Response ok body =>
       if negb ok then []
       else match andThen body parseMeteoResponse with
            | Some weatherList => weatherList
            | None => []
            end
   end).

End WithHost.

End ArchiveWeather.

(** ** The application shell (src/unnamed/part_000)

    The start-up effect and the two derived values of the dashboard, on the
    part of the component state that they read and write. *)

Module App.
Import Text Num Storage Sheet.

Definition DEFAULT_SHEET_URL : string :=
  "https://docs.google.com/spreadsheets/d/1yyWzM30TzFoMyt14Vi6MpkE__SA2qlTDE-8rbL2dyxE/edit?usp=sharing".

(** The state variables [data], [weatherHistory] and [isLoading]. *)
Record View : Type := mkView {
  data : list Observation;
  weatherHistory : list Weather.WeatherData;
  isLoading : bool
}.

Definition setData (d : list Observation) (v : View) : View :=
  mkView d (weatherHistory v) (isLoading v).

Definition setWeatherHistory (w : list Weather.WeatherData) (v : View) : View :=
  mkView (data v) w (isLoading v).

Definition setIsLoading (b : bool) (v : View) : View :=
  mkView (data v) (weatherHistory v) b.

(** The timestamps of a list when none of them is [NaN]. *)
Fixpoint finiteTimes (dates : list (option Z)) : option (list Z) :=
  match dates with
  | [] => Some []
  | Some t :: rest =>
      match finiteTimes rest with
      | Some ts => Some (t :: ts)
      | None => None
      end
  | None :: _ => None
  end.

(** [Math.min(...dates)] and [Math.max(...dates)]: [None] when the result
    is [NaN] (one of the dates is) or infinite (there is no date), the
    values of which [new Date(..).toISOString()] throws a [RangeError]. *)
Definition mathMin (dates : list (option Z)) : option Z :=
  match finiteTimes dates with
  | Some (t :: ts) => Some (fold_left Z.min ts t)
  | _ => None
  end.

Definition mathMax (dates : list (option Z)) : option Z :=
  match finiteTimes dates with
  | Some (t :: ts) => Some (fold_left Z.max ts t)
  | _ => None
  end.

(** [years.add(y)] on a [Set], its elements in insertion order. *)
Definition setAdd (years : list string) (y : string) : list string :=
  if existsb (String.eqb y) years then years else (years ++ [y])%list.

(** [xs.sort()] on strings: by code units, stable. *)
Fixpoint insertString (x : string) (l : list string) : list string :=
  match l with
  | [] => [x]
  | y :: t => if String.ltb y x then y :: insertString x t else x :: l
  end.

Fixpoint sortStrings (l : list string) : list string :=
  match l with
  | [] => []
  | x :: t => insertString x (sortStrings t)
  end.

(** A point of the chart: the observation, and [dateNum], [rain] and [temp]
    ([None] for [NaN] and for [null]). *)
Record ChartPoint : Type := mkChartPoint {
  observation : Observation;
  dateNum : option Z;
  rain : Q;
  temp : option Q
}.

Section WithHost.

Variable getTime : string -> option Z.
Variable rand : nat -> string.

(** [new Date(t).toISOString().split('T')[0]] *)
Variable toISODate : Z -> string.

Variable nextLocalDay : Z -> Z.
Variable now : Z.

(** [new Date().getFullYear().toString()] *)
Variable currentYear : string.

(** The network, for the sheet and for the weather. *)
Variable fetchSheet : string -> SheetFetched.
Variable fetchWeather : Weather.Request -> Weather.Fetched.

(** [initData] of the start-up effect: the state, the slot, the URLs asked
    of the sheet host, and the range given to [fetchWeatherHistory] when it
    is called.  A [RangeError] of [toISOString] is outside the [try]: the
    promise rejects and the state stays as it is. *)
Definition initData (st : Slot) (view : View)
  : View * Slot * list string * option (string * string) :=
  let stored := getObservations getTime st in
  let '(view, currentData, st, requests) :=
    if 0 <? List.length stored then (setData stored view, stored, st, [])
    else
      match fetchGoogleSheet getTime rand fetchSheet DEFAULT_SHEET_URL st with
      | (requests, Resolved defaultData, st') =>
          (setIsLoading false (setData defaultData (setIsLoading true view)),
           defaultData, st', requests)
      | (requests, Failed _, st') =>
          (setIsLoading false (setIsLoading true view), stored, st', requests)
      end in
  if 0 <? List.length currentData then
    let dates := map (fun d => getTime (date d)) currentData in
    match mathMin dates, mathMax dates with
    | Some lo, Some hi =>
        let minDate := toISODate lo in
        let maxDate := toISODate hi in
        let weather :=
          Weather.fetchWeatherHistory getTime toISODate nextLocalDay now
            fetchWeather minDate maxDate in
        (setWeatherHistory weather view, st, requests, Some (minDate, maxDate))
    | _, _ => (view, st, requests, None)
    end
  else (view, st, requests, None).

(** [d.date.split('-')[0]] *)
Definition yearOf (d : Observation) : string :=
  hd "" (split "-"%char (date d)).

(** [availableYears] *)
Definition availableYears (data : list Observation) : list string :=
  let years := fold_left setAdd (map yearOf data) [] in
  let years := setAdd years currentYear in
  rev (sortStrings years).

(** The [data] of [chartConfig]: the observations of the selected year,
    oldest first, each with the weather of its day. *)
Definition chartData (chartYear : string) (data : list Observation)
    (weatherHistory : list Weather.WeatherData) : list ChartPoint :=
  let filteredData := filter (fun d => prefix chartYear (date d)) data in
  let sorted := Gemini.sortAsc getTime filteredData in
  let filteredWeather :=
    filter (fun w => prefix chartYear (Weather.date w)) weatherHistory in
  map (fun d =>
         let weather := Gemini.weatherOf filteredWeather (date d) in
         {| observation := d;
            dateNum := getTime (date d);
            rain := match weather with
                    | Some w => Weather.rain w
                    | None => 0%Q
                    end;
            temp := match weather with
                    | Some w => Some (Weather.tempMax w)
                    | None => None
                    end |})
      sorted.

End WithHost.

End App.

(** ** The import panel (the [DataSync] component)

    The two import handlers, on the state variables that they read and
    write.  The timers that put the status back to idle are not part of
    the handlers' run. *)

Module DataSync.
Import Text Num Storage Sheet.

Inductive ImportStatus : Type := Idle | Loading | Success | Error.

Record Panel : Type := mkPanel {
  csvInput : string;
  sheetUrl : string;
  importStatus : ImportStatus;
  errorMessage : string
}.


Definition noRowsFromRow5 : string :=
  "Connected to sheet, but found no valid data starting from Row 5.".

Section WithHost.

Variable getTime : string -> option Z.
Variable rand : nat -> string.
Variable fetch : string -> SheetFetched.


(** [urlOverride || sheetUrl] *)
Definition urlToUse (urlOverride : option string) (panel : Panel) : string :=
  match urlOverride with
  | Some u => if String.eqb u "" then sheetUrl panel else u
  | None => sheetUrl panel
  end.

(** [handleUrlImport]: the state, the argument of [onDataUpdate] when it is
    called, the slot, and the URLs requested. *)
Definition handleUrlImport (urlOverride : option string) (panel : Panel)
    (st : Slot) : Panel * option (list Observation) * Slot * list string :=
  let url := urlToUse urlOverride panel in
  if String.eqb (trim url) "" then (panel, None, st, [])
  else
    match fetchGoogleSheet getTime rand fetch url st with
    | (requests, Resolved newData, st') =>
        if 0 <? List.length newData then
          (mkPanel (csvInput panel) "" Success "", Some newData, st', requests)
        else
          (mkPanel (csvInput panel) (sheetUrl panel) Error noRowsFromRow5,
           None, st', requests)
    | (requests, Failed message, st') =>
        (mkPanel (csvInput panel) (sheetUrl panel) Error message,
         None, st', requests)
    end.

End WithHost.

End DataSync.
(** ** Concrete runs of the services

    The examples of the specification and a few more, on the host of
    [HostDate] and [HostClock]. *)

Module DateExamples.
Import Text DateText.

Definition parseDate := DateText.parseDate HostDate.getTime.

Example parse_iso : parseDate "2023-10-01" = Some "2023-10-01".
Proof. reflexivity. Qed.

Example parse_slash : parseDate "01/10/2023" = Some "2023-10-01".
Proof. reflexivity. Qed.

Example parse_compact : parseDate "01102023" = Some "2023-10-01".
Proof. reflexivity. Qed.

Example parse_invalid_calendar : parseDate "2023-13-40" = None.
Proof. reflexivity. Qed.

Example parse_time_stripped : parseDate "2023-10-01 12:00:00" = Some "2023-10-01".
Proof. reflexivity. Qed.

Example parse_short_fields : parseDate " 2023/1/5 " = Some "2023-01-05".
Proof. reflexivity. Qed.

Example epoch_day : HostDate.getTime "1970-01-02" = Some 86400000%Z.
Proof. reflexivity. Qed.

Example y2k_day : HostDate.getTime "2000-03-01" = Some (11017 * 86400000)%Z.
Proof. reflexivity. Qed.

End DateExamples.

Module NumExamples.
Import Num.

Example float_int : parseFloat "20" = Fin 20%Q.
Proof. reflexivity. Qed.

Example float_frac : parseFloat "20.5" = Fin (205 # 10)%Q.
Proof. reflexivity. Qed.

Example float_prefix : parseFloat "12abc" = Fin 12%Q.
Proof. reflexivity. Qed.

Example float_exp : parseFloat "1.5e3x" = Fin 1500%Q.
Proof. reflexivity. Qed.

Example float_neg_exp : parseFloat "-25e-1" = Fin (-25 # 10)%Q.
Proof. reflexivity. Qed.

Example float_dangling_exp : parseFloat "5e+" = Fin 5%Q.
Proof. reflexivity. Qed.

Example float_dot_only : parseFloat "." = NaN.
Proof. reflexivity. Qed.

Example float_text : parseFloat "Figs" = NaN.
Proof. reflexivity. Qed.

Example float_infinity : parseFloat "-Infinity" = Inf true.
Proof. reflexivity. Qed.

Example round_half_up : round (Fin (25 # 10)%Q) = Fin 3%Q.
Proof. reflexivity. Qed.

Example round_neg_half : round (Fin (-25 # 10)%Q) = Fin (-2)%Q.
Proof. reflexivity. Qed.

Example show_neg : showZ (-120)%Z = "-120".
Proof. reflexivity. Qed.

Example show_zero : showZ 0%Z = "0".
Proof. reflexivity. Qed.

End NumExamples.

Module StorageExamples.
Import Text Num Storage.

Definition ids (n : nat) : string := "id" ++ showN (N.of_nat n).
Definition noFraction (_ : Q) : string := "".

Definition import := importFromCSV HostDate.getTime ids.
Definition export := exportToCSV noFraction.

Definition tsv : string :=
  "Date" ++ String TAB "Figs" ++ String TAB "Bats" ++ String LF
  ("01/10/2023" ++ String TAB "20" ++ String TAB "10" ++ String CR (String LF
  ("02/10/2023" ++ String TAB "25.4" ++ String TAB "15"))).

Example import_tsv :
  import tsv None =
  ([ mkObservation "id1" "2023-10-02" (Fin 15) (Fin 25) (Fin 0);
     mkObservation "id0" "2023-10-01" (Fin 10) (Fin 20) (Fin 0) ],
   Some [ mkObservation "id1" "2023-10-02" (Fin 15) (Fin 25) (Fin 0);
          mkObservation "id0" "2023-10-01" (Fin 10) (Fin 20) (Fin 0) ]).
Proof. reflexivity. Qed.

Example export_two :
  export (fst (import tsv None)) =
  "Date,Figs,Bats,Leaves" ++ String LF ("2023-10-02,25,15,0" ++ String LF "2023-10-01,20,10,0").
Proof. reflexivity. Qed.

Example import_blank : import "   " (Some []) = ([], Some []).
Proof. reflexivity. Qed.

End StorageExamples.

Module WeatherExamples.
Import Weather.
Local Open Scope Z_scope.

(** 2024-03-15 10:30 UTC. *)
Definition now : Z := 19797 * 86400000 + 37800000.

Example cutoff_date : HostClock.toISODate (cutoffOf now) = "2024-03-08".
Proof. reflexivity. Qed.

Example iso_there_and_back :
  HostDate.getTime (HostClock.toISODate now) = Some (19797 * 86400000).
Proof. reflexivity. Qed.

Definition day (d : string) (t r : Q) : Json :=
  JValue (Some (mkDaily (Some [d]) (Some [Some t]) (Some [Some r]))).

(** A server that answers every request with one day: the first day asked
    for. *)
Definition echo (req : Request) : Fetched :=
  Response true (Some (day (start_date req) 25 0)).

Definition history :=
  fetchWeatherHistory HostDate.getTime HostClock.toISODate HostClock.nextLocalDay.

Definition requests :=
  requestsOf HostDate.getTime HostClock.toISODate HostClock.nextLocalDay.

Example recent_only :
  requests now echo "2024-03-09" "2024-03-14"
  = [mkRequest Forecast "2024-03-09" "2024-03-14"].
Proof. reflexivity. Qed.

Example historical_only :
  requests now echo "2024-03-01" "2024-03-08"
  = [mkRequest Archive "2024-03-01" "2024-03-08"].
Proof. reflexivity. Qed.

Example straddling :
  requests now echo "2024-03-01" "2024-03-14"
  = [mkRequest Forecast "2024-03-09" "2024-03-14";
     mkRequest Archive "2024-03-01" "2024-03-08"]
  /\ history now echo "2024-03-01" "2024-03-14"
     = [mkWeather "2024-03-01" 0 25; mkWeather "2024-03-09" 0 25].
Proof. split; reflexivity. Qed.

End WeatherExamples.

Module SheetExamples.
Import Text Num Storage Sheet.

Definition sheetUrl : string :=
  "https://docs.google.com/spreadsheets/d/1AbC-d_9/edit#gid=42".

Example id_of_url : idMatch sheetUrl = Some "1AbC-d_9".
Proof. reflexivity. Qed.

Example gid_of_url : gidMatch sheetUrl = Some "42".
Proof. reflexivity. Qed.

Example export_of_url :
  exportUrl sheetUrl
  = inl "https://docs.google.com/spreadsheets/d/1AbC-d_9/export?format=csv&gid=42".
Proof. reflexivity. Qed.

Example id_after_false_start : idMatch "x/d//d/abc" = Some "abc".
Proof. reflexivity. Qed.

(** A network that serves one CSV text for every URL. *)
Definition serves (csv : string) (url : string) : SheetFetched :=
  FetchResponse (mkSheetResponse (Some "text/csv") true 200 (inl csv)).

Example sheet_import :
  fetchGoogleSheet HostDate.getTime StorageExamples.ids (serves "01/10/2023,20,10")
    sheetUrl None
  = (["https://docs.google.com/spreadsheets/d/1AbC-d_9/export?format=csv&gid=42"],
     Resolved [mkObservation "id0" "2023-10-01" (Fin 10) (Fin 20) (Fin 0)],
     Some [mkObservation "id0" "2023-10-01" (Fin 10) (Fin 20) (Fin 0)]).
Proof. vm_compute. reflexivity. Qed.

End SheetExamples.

(** ** Facts about the string primitives *)

Module TextFacts.
Import Text DateText.

(** The string is empty or starts with a character that is not a digit. *)
Definition startsNonDigit (s : string) : Prop :=
  match s with
  | EmptyString => True
  | String c _ => isDigit c = false
  end.

Ltac each_char c :=
  destruct c as [[] [] [] [] [] [] [] []]; vm_compute; try reflexivity; try discriminate; auto.

Lemma digit_not_space c : isDigit c = true -> isWhiteSpace c = false.
Proof. each_char c. Qed.

Lemma digit_not_sep c : isDigit c = true -> isSep c = false.
Proof. each_char c. Qed.

Lemma sep_not_digit c : isSep c = true -> isDigit c = false.
Proof. each_char c. Qed.

Lemma sep_not_space c : isSep c = true -> isWhiteSpace c = false.
Proof. each_char c. Qed.

Lemma blank_is_space c : Ascii.eqb c " "%char = true -> isWhiteSpace c = true.
Proof. each_char c. Qed.

Lemma append_nil_r s : s ++ "" = s.
Proof. induction s; simpl; congruence. Qed.

Lemma append_assoc (a b c : string) : (a ++ b) ++ c = a ++ (b ++ c).
Proof. induction a; simpl; congruence. Qed.

Lemma allChars_app p a b :
  allChars p (a ++ b) = allChars p a && allChars p b.
Proof.
  induction a as [|c a IH]; simpl; [reflexivity|].
  rewrite IH. now rewrite andb_assoc.
Qed.

Lemma allChars_impl (p q : ascii -> bool) s :
  (forall c, p c = true -> q c = true) ->
  allChars p s = true -> allChars q s = true.
Proof.
  intros Hpq. induction s as [|c s IH]; simpl; [reflexivity|].
  intros H. apply andb_true_iff in H as [Hc Hs].
  rewrite (Hpq _ Hc). now apply IH.
Qed.

(** [trim] leaves a string without white space alone. *)
Lemma trimStart_head c s :
  isWhiteSpace c = false -> trimStart (String c s) = String c s.
Proof. intros H. simpl. now rewrite H. Qed.

Lemma trimEnd_no_space s :
  allChars (fun c => negb (isWhiteSpace c)) s = true -> trimEnd s = s.
Proof.
  induction s as [|c s IH]; simpl; [reflexivity|].
  intros H. apply andb_true_iff in H as [Hc Hs].
  rewrite (IH Hs). apply negb_true_iff in Hc. rewrite Hc.
  now destruct s.
Qed.

Lemma trim_no_space s :
  allChars (fun c => negb (isWhiteSpace c)) s = true -> trim s = s.
Proof.
  intros H. unfold trim.
  destruct s as [|c s]; [reflexivity|].
  pose proof H as H'. simpl in H'. apply andb_true_iff in H' as [Hc _].
  apply negb_true_iff in Hc. rewrite (trimStart_head _ _ Hc).
  now apply trimEnd_no_space.
Qed.

(** Splitting on a character that does not occur gives one piece. *)
Lemma split_absent d s :
  allChars (fun c => negb (Ascii.eqb c d)) s = true -> split d s = [s].
Proof.
  induction s as [|c s IH]; simpl; [reflexivity|].
  intros H. apply andb_true_iff in H as [Hc Hs].
  apply negb_true_iff in Hc. rewrite Hc, (IH Hs). reflexivity.
Qed.

Lemma datePartOf_no_space s :
  allChars (fun c => negb (isWhiteSpace c)) s = true -> datePartOf s = s.
Proof.
  intros H. unfold datePartOf. rewrite split_absent; [reflexivity|].
  revert H. apply allChars_impl. intros c Hc.
  apply negb_true_iff in Hc. apply negb_true_iff.
  destruct (Ascii.eqb c " "%char) eqn:E; [|reflexivity].
  apply blank_is_space in E. congruence.
Qed.

(** [span] on a run of digits followed by something that is not a digit. *)
Lemma span_digits_app a r :
  allChars isDigit a = true -> startsNonDigit r ->
  span isDigit (a ++ r) = (a, r).
Proof.
  intros Ha Hr. induction a as [|c a IH]; simpl.
  - destruct r as [|c r]; simpl in *; [reflexivity|]. now rewrite Hr.
  - simpl in Ha. apply andb_true_iff in Ha as [Hc Ha].
    rewrite Hc, (IH Ha). reflexivity.
Qed.

Lemma span_digits_spec s a r :
  span isDigit s = (a, r) ->
  s = a ++ r /\ allChars isDigit a = true /\ startsNonDigit r.
Proof.
  revert a r. induction s as [|c s IH]; simpl; intros a r H.
  - inversion H; subst. simpl. auto.
  - destruct (isDigit c) eqn:Hc.
    + destruct (span isDigit s) as [a' r'] eqn:E. inversion H; subst.
      destruct (IH _ _ eq_refl) as (-> & Ha & Hr).
      simpl. rewrite Hc, Ha. auto.
    + inversion H; subst. simpl. auto.
Qed.

(** The skeleton matcher on a string assembled from its parts. *)
Lemma digitRuns3_build a c1 b c2 c :
  allChars isDigit a = true -> allChars isDigit b = true ->
  allChars isDigit c = true -> isSep c1 = true -> isSep c2 = true ->
  digitRuns3 (a ++ String c1 (b ++ String c2 c)) = Some (a, b, c).
Proof.
  intros Ha Hb Hc H1 H2. unfold digitRuns3.
  rewrite (span_digits_app a); [|assumption|simpl; now apply sep_not_digit].
  rewrite H1.
  rewrite (span_digits_app b); [|assumption|simpl; now apply sep_not_digit].
  rewrite H2.
  replace c with (c ++ "") at 1 by apply append_nil_r.
  rewrite (span_digits_app c); [reflexivity|assumption|exact I].
Qed.

Lemma digitRuns3_spec s a b c :
  digitRuns3 s = Some (a, b, c) ->
  exists c1 c2,
    s = a ++ String c1 (b ++ String c2 c) /\
    allChars isDigit a = true /\ allChars isDigit b = true /\
    allChars isDigit c = true /\ isSep c1 = true /\ isSep c2 = true.
Proof.
  unfold digitRuns3. intros H.
  destruct (span isDigit s) as [a' r1] eqn:E1.
  destruct r1 as [|c1 r2]; [discriminate|].
  destruct (isSep c1) eqn:S1; [|discriminate].
  destruct (span isDigit r2) as [b' r3] eqn:E2.
  destruct r3 as [|c2 r4]; [discriminate|].
  destruct (isSep c2) eqn:S2; [|discriminate].
  destruct (span isDigit r4) as [c' r5] eqn:E3.
  destruct r5; [|discriminate]. inversion H; subst.
  apply span_digits_spec in E1 as (-> & Ha & _).
  apply span_digits_spec in E2 as (-> & Hb & _).
  apply span_digits_spec in E3 as (-> & Hc & _).
  exists c1, c2. rewrite append_nil_r. auto 10.
Qed.

(** A string made of digits and separators has no white space in it. *)
Lemma built_no_space a c1 b c2 c :
  allChars isDigit a = true -> allChars isDigit b = true ->
  allChars isDigit c = true -> isSep c1 = true -> isSep c2 = true ->
  allChars (fun x => negb (isWhiteSpace x)) (a ++ String c1 (b ++ String c2 c)) = true.
Proof.
  intros Ha Hb Hc H1 H2.
  assert (D : forall s, allChars isDigit s = true ->
                        allChars (fun x => negb (isWhiteSpace x)) s = true).
  { intros s. apply allChars_impl. intros x Hx.
    now rewrite (digit_not_space _ Hx). }
  rewrite allChars_app. simpl. rewrite allChars_app. simpl.
  rewrite (D _ Ha), (D _ Hb), (D _ Hc).
  now rewrite (sep_not_space _ H1), (sep_not_space _ H2).
Qed.

Lemma padStart2_two s : length s = 2 -> padStart2 s = s.
Proof. intros H. unfold padStart2. now rewrite H. Qed.

Lemma padStart2_length s : between 1 2 (length s) = true -> length (padStart2 s) = 2.
Proof.
  unfold padStart2, between. destruct s as [|a [|b [|c s]]]; simpl; try reflexivity; discriminate.
Qed.

Lemma padStart2_digits s :
  allChars isDigit s = true -> allChars isDigit (padStart2 s) = true.
Proof.
  unfold padStart2. destruct s as [|a [|b s]]; simpl; auto.
Qed.

End TextFacts.

(** ** Facts about numbers and their decimal text *)

Module NumFacts.
Import Text Num TextFacts.

Lemma digits_of_uint d : allChars isDigit (NilEmpty.string_of_uint d) = true.
Proof. induction d; simpl; auto. Qed.

Lemma showN_digits n : allChars isDigit (showN n) = true.
Proof. apply digits_of_uint. Qed.

Lemma showN_nonempty n : showN n <> "".
Proof.
  unfold showN. destruct n as [|p]; simpl; [discriminate|].
  pose proof (DecimalPos.Unsigned.to_uint_nonnil p) as H.
  destruct (Pos.to_uint p); simpl; congruence || discriminate.
Qed.

Lemma digitsN_showN n : digitsN (showN n) = n.
Proof.
  unfold digitsN, showN. rewrite NilEmpty.usu.
  apply DecimalN.Unsigned.of_to.
Qed.

(** [parseFloat] on an optional minus sign and a run of digits. *)
Lemma parseFloat_digits (neg : bool) (s : string) :
  s <> "" -> allChars isDigit s = true ->
  parseFloat ((if neg then "-" else "") ++ s)
  = ofZ (if neg then - Z.of_N (digitsN s) else Z.of_N (digitsN s))%Z.
Proof.
  intros Hne Hd. destruct s as [|c s]; [congruence|].
  pose proof Hd as Hd'. simpl in Hd'. apply andb_true_iff in Hd' as [Hc _].
  assert (Hw : isWhiteSpace c = false) by now apply digit_not_space.
  assert (P : prefix "Infinity" (String c s) = false).
  { change (prefix "Infinity" (String c s))
      with (if ascii_dec "I"%char c then prefix "nfinity" s else false).
    destruct (ascii_dec "I"%char c) as [<-|]; [discriminate Hc|reflexivity]. }
  assert (Sg : stripSign (String c s) = (false, String c s)).
  { unfold stripSign.
    destruct (Ascii.eqb c "-") eqn:E1;
      [apply Ascii.eqb_eq in E1; subst; discriminate Hc|].
    destruct (Ascii.eqb c "+") eqn:E2;
      [apply Ascii.eqb_eq in E2; subst; discriminate Hc|].
    reflexivity. }
  assert (Sp : span isDigit (String c s) = (String c s, "")).
  { rewrite <- (append_nil_r (String c s)) at 1.
    apply span_digits_app; [assumption|exact I]. }
  assert (Body : forall b : bool,
    (let '(ip, r1) := span isDigit (String c s) in
     let '(fp, r2) :=
       match r1 with
       | String c0 r =>
           if Ascii.eqb c0 "."%char then span isDigit r else (EmptyString, r1)
       | EmptyString => (EmptyString, r1)
       end in
     match ip ++ fp with
     | EmptyString => NaN
     | ds =>
         let m := Z.of_N (digitsN ds) in
         let e := (exponentOf r2 - Z.of_nat (length fp))%Z in
         Fin (scale10 (if b then - m else m)%Z e)
     end)
    = ofZ (if b then - Z.of_N (digitsN (String c s)) else Z.of_N (digitsN (String c s)))%Z).
  { intros b. rewrite Sp. cbn [append]. rewrite append_nil_r.
    cbn [exponentOf length Z.of_nat Z.sub Z.opp]. unfold scale10, ofZ.
    cbn [Z.leb Z.compare Z.pow Z.pow_pos Pos.iter Z.mul Pos.mul].
    change (10 ^ 0)%Z with 1%Z. now rewrite Z.mul_1_r. }
  unfold parseFloat. destruct neg; cbn [append trimStart].
  - change (isWhiteSpace "-") with false. cbn [stripSign].
    change (Ascii.eqb "-" "-") with true. cbv iota. rewrite P.
    exact (Body true).
  - rewrite Hw, Sg, P. exact (Body false).
Qed.

Lemma parseFloat_showZ z : parseFloat (showZ z) = ofZ z.
Proof.
  unfold showZ. destruct (z <? 0)%Z eqn:E.
  - rewrite (parseFloat_digits true) by auto using showN_nonempty, showN_digits.
    rewrite digitsN_showN. apply Z.ltb_lt in E.
    rewrite Z2N.id by lia. f_equal. lia.
  - change (showN (Z.to_N z)) with ((if false then "-" else "") ++ showN (Z.to_N z)).
    rewrite (parseFloat_digits false) by auto using showN_nonempty, showN_digits.
    rewrite digitsN_showN. apply Z.ltb_ge in E. now rewrite Z2N.id by lia.
Qed.

Lemma showZ_nonempty z : showZ z <> "".
Proof.
  unfold showZ. destruct (z <? 0)%Z; [discriminate|apply showN_nonempty].
Qed.

Lemma Qfloor_half z : Qfloor (inject_Z z + (1 # 2))%Q = z.
Proof.
  unfold Qfloor, Qplus, inject_Z. cbn [Qnum Qden].
  change (Z.pos (1 * 2)) with 2%Z.
  symmetry. apply Z.div_unique with (r := 1%Z); lia.
Qed.

Lemma round_ofZ z : round (ofZ z) = ofZ z.
Proof. unfold round, ofZ. now rewrite Qfloor_half. Qed.

Lemma isInteger_ofZ z : isInteger (inject_Z z) = true.
Proof.
  unfold isInteger. rewrite Qfloor_Z. apply Qeq_bool_iff. reflexivity.
Qed.

Lemma toString_ofZ showOther z :
  (Z.abs z < 10 ^ 21)%Z -> toString showOther (ofZ z) = showZ z.
Proof.
  intros H. unfold toString, ofZ. rewrite isInteger_ofZ, Qfloor_Z.
  apply Z.ltb_lt in H. now rewrite H.
Qed.

(** The characters of a printed integer: digits and the minus sign. *)
Lemma showZ_chars z :
  allChars (fun c => isDigit c || Ascii.eqb c "-"%char) (showZ z) = true.
Proof.
  assert (D : forall n, allChars (fun c => isDigit c || Ascii.eqb c "-"%char) (showN n) = true).
  { intros n. apply (allChars_impl isDigit); [|apply showN_digits].
    intros c ->. reflexivity. }
  unfold showZ. destruct (z <? 0)%Z; [|apply D].
  simpl. apply D.
Qed.

End NumFacts.

(** ** Facts about lines and fields *)

Module LineFacts.
Import Text TextFacts.

(** No white space at all: in particular no line break and no tab. *)
Definition solid (s : string) : bool :=
  allChars (fun c => negb (isWhiteSpace c)) s.

(** Joining lines with a line feed. *)
Definition unlines (lines : list string) : string := join (String LF "") lines.

(** Applies [f] to the last element. *)
Definition updLast {A : Type} (f : A -> A) : list A -> list A :=
  fix go (l : list A) : list A :=
    match l with
    | [] => []
    | [x] => [f x]
    | x :: t => x :: go t
    end.

Lemma solid_app a b : solid (a ++ b) = solid a && solid b.
Proof. apply allChars_app. Qed.

Lemma solid_trim s : solid s = true -> trim s = s.
Proof. apply trim_no_space. Qed.

Lemma solid_no_tab s : solid s = true -> includesChar TAB s = false.
Proof.
  induction s as [|c s IH]; simpl; [reflexivity|].
  intros H. apply andb_true_iff in H as [Hc Hs]. rewrite (IH Hs).
  apply negb_true_iff in Hc.
  destruct (Ascii.eqb c TAB) eqn:E; [|reflexivity].
  apply Ascii.eqb_eq in E. subst c. discriminate Hc.
Qed.

Lemma splitLines_solid s : solid s = true -> splitLines s = [s].
Proof.
  induction s as [|c s IH]; [reflexivity|].
  intros H. simpl in H. apply andb_true_iff in H as [Hc Hs].
  apply negb_true_iff in Hc. cbn [splitLines].
  destruct (Ascii.eqb c LF) eqn:E1;
    [apply Ascii.eqb_eq in E1; subst c; discriminate Hc|].
  destruct (Ascii.eqb c CR) eqn:E2;
    [apply Ascii.eqb_eq in E2; subst c; discriminate Hc|].
  destruct s as [|c2 s2]; [reflexivity|].
  cbn [andb]. rewrite (IH Hs). reflexivity.
Qed.

Lemma splitLines_line a rest :
  solid a = true ->
  splitLines (a ++ String LF rest) = a :: splitLines rest.
Proof.
  induction a as [|c a IH]; intros H.
  - reflexivity.
  - simpl in H. apply andb_true_iff in H as [Hc Ha].
    apply negb_true_iff in Hc.
    change (String c a ++ String LF rest) with (String c (a ++ String LF rest)).
    cbn [splitLines].
    destruct (Ascii.eqb c LF) eqn:E1;
      [apply Ascii.eqb_eq in E1; subst c; discriminate Hc|].
    destruct (Ascii.eqb c CR) eqn:E2;
      [apply Ascii.eqb_eq in E2; subst c; discriminate Hc|].
    cbn [andb]. rewrite (IH Ha).
    destruct (a ++ String LF rest) eqn:E; [|reflexivity].
    destruct a; discriminate E.
Qed.

Lemma unlines_cons a b rest :
  unlines (a :: b :: rest) = a ++ String LF (unlines (b :: rest)).
Proof. reflexivity. Qed.

Lemma splitLines_unlines lines :
  lines <> [] -> Forall (fun l => solid l = true) lines ->
  splitLines (unlines lines) = lines.
Proof.
  induction lines as [|a [|b rest] IH]; intros Hne H.
  - congruence.
  - inversion H; subst. now apply splitLines_solid.
  - inversion H; subst. rewrite unlines_cons, splitLines_line by assumption.
    f_equal. apply IH; [discriminate|assumption].
Qed.

Lemma trimEnd_app a b : b <> "" -> trimEnd b = b -> trimEnd (a ++ b) = a ++ b.
Proof.
  intros Hb Eb. induction a as [|c a IH]; [exact Eb|].
  change (String c a ++ b) with (String c (a ++ b)). cbn [trimEnd].
  rewrite IH. destruct (a ++ b) eqn:E; [|reflexivity].
  destruct a; simpl in E; congruence.
Qed.

Lemma trimEnd_unlines lines :
  Forall (fun l => solid l = true /\ l <> "") lines ->
  trimEnd (unlines lines) = unlines lines /\ (lines <> [] -> unlines lines <> "").
Proof.
  induction lines as [|a [|b rest] IH]; intros H.
  - split; [reflexivity|congruence].
  - inversion H as [|? ? [Sa Na] _]; subst. split; [|intros _; exact Na].
    now apply trimEnd_no_space.
  - inversion H as [|? ? [Sa Na] Ht]; subst.
    destruct (IH Ht) as [E N].
    rewrite unlines_cons. split.
    + change (String LF (unlines (b :: rest)))
        with (String LF "" ++ unlines (b :: rest)).
      rewrite <- append_assoc. apply trimEnd_app; [apply N; discriminate|exact E].
    + intros _. destruct a; [congruence|discriminate].
Qed.

Lemma trim_unlines lines :
  Forall (fun l => solid l = true /\ l <> "") lines ->
  trim (unlines lines) = unlines lines.
Proof.
  intros H. unfold trim.
  assert (S : trimStart (unlines lines) = unlines lines).
  { destruct lines as [|a rest]; [reflexivity|].
    inversion H as [|? ? [Sa Na] _]; subst.
    destruct a as [|c a]; [congruence|].
    simpl in Sa. apply andb_true_iff in Sa as [Hc _]. apply negb_true_iff in Hc.
    destruct rest; simpl; now rewrite Hc. }
  rewrite S. now apply trimEnd_unlines.
Qed.

(** Splitting fields. *)
Lemma split_field d a rest :
  allChars (fun c => negb (Ascii.eqb c d)) a = true ->
  split d (a ++ String d rest) = a :: split d rest.
Proof.
  induction a as [|c a IH]; intros H.
  - simpl. now rewrite Ascii.eqb_refl.
  - simpl in H. apply andb_true_iff in H as [Hc Ha].
    apply negb_true_iff in Hc. simpl. rewrite Hc, (IH Ha). reflexivity.
Qed.

(** Trimming a row before splitting it on a delimiter that is not white
    space changes no field. *)
Lemma split_nonempty d s : split d s <> [].
Proof.
  destruct s as [|c r]; simpl; [discriminate|].
  destruct (Ascii.eqb c d); [discriminate|].
  destruct (split d r); discriminate.
Qed.

Lemma split_single d s x : split d s = [x] -> s = x.
Proof.
  revert x. induction s as [|c r IH]; simpl; intros x H.
  - now inversion H.
  - destruct (Ascii.eqb c d).
    + inversion H as [[E1 E2]]. now apply split_nonempty in E2.
    + pose proof (split_nonempty d r) as Ne.
      destruct (split d r) as [|h [|h2 t]] eqn:E; [congruence| |discriminate H].
      cbn [consHead] in H. injection H as <-. now rewrite (IH h eq_refl).
Qed.

Lemma trimEnd_cons c s :
  trimEnd s <> "" \/ isWhiteSpace c = false ->
  trimEnd (String c s) = String c (trimEnd s).
Proof.
  intros H. cbn [trimEnd]. destruct (trimEnd s) eqn:E; [|reflexivity].
  destruct H as [H | H]; [congruence|]. now rewrite H.
Qed.

Lemma trimEnd_blank c s :
  trimEnd s = "" -> isWhiteSpace c = true -> trimEnd (String c s) = "".
Proof. intros E H. cbn [trimEnd]. now rewrite E, H. Qed.

Lemma trimEnd_idem s : trimEnd (trimEnd s) = trimEnd s.
Proof.
  induction s as [|c r IH]; [reflexivity|].
  cbn [trimEnd]. destruct (trimEnd r) as [|a t] eqn:E.
  - destruct (isWhiteSpace c) eqn:W; [reflexivity|]. cbn [trimEnd]. now rewrite W.
  - cbn [trimEnd]. cbn [trimEnd] in IH. rewrite IH. reflexivity.
Qed.

Lemma trim_commute s : trimStart (trimEnd s) = trimEnd (trimStart s).
Proof.
  induction s as [|c r IH]; [reflexivity|].
  destruct (isWhiteSpace c) eqn:W.
  - cbn [trimStart]. rewrite W, <- IH. cbn [trimEnd].
    destruct (trimEnd r) as [|a t] eqn:E.
    + rewrite W. reflexivity.
    + cbn [trimStart]. now rewrite W.
  - cbn [trimStart]. rewrite W.
    rewrite (trimEnd_cons c r (or_intror W)). cbn [trimStart]. now rewrite W.
Qed.

Lemma trim_trimEnd s : trim (trimEnd s) = trim s.
Proof. unfold trim. now rewrite trim_commute, trimEnd_idem. Qed.

Lemma trim_skip c s : isWhiteSpace c = true -> trim (String c s) = trim s.
Proof. intros W. unfold trim. cbn [trimStart]. now rewrite W. Qed.

Lemma map_trim_updLast l : map trim (updLast trimEnd l) = map trim l.
Proof.
  induction l as [|x [|y t] IH]; [reflexivity| |].
  - simpl. now rewrite trim_trimEnd.
  - change (updLast trimEnd (x :: y :: t)) with (x :: updLast trimEnd (y :: t)).
    cbn [map]. cbn [map] in IH. now rewrite IH.
Qed.

Lemma split_trimEnd d s :
  isWhiteSpace d = false ->
  split d (trimEnd s) = updLast trimEnd (split d s).
Proof.
  intros Wd. induction s as [|c r IH]; [reflexivity|].
  pose proof (split_nonempty d r) as Ne.
  cbn [split]. destruct (Ascii.eqb c d) eqn:Ecd.
  - apply Ascii.eqb_eq in Ecd. subst c.
    rewrite (trimEnd_cons d r (or_intror Wd)). cbn [split].
    rewrite Ascii.eqb_refl, IH.
    destruct (split d r) as [|h t]; [congruence|reflexivity].
  - destruct (isWhiteSpace c) eqn:Wc;
      [destruct (string_dec (trimEnd r) "") as [Er | Nr]|].
    + (* the row ends here: only white space is left *)
      rewrite (trimEnd_blank c r Er Wc). rewrite Er in IH. cbn [split] in IH.
      destruct (split d r) as [|x [|y t]] eqn:El; [congruence| |].
      * cbn [updLast] in IH. inversion IH as [Ex].
        cbn [consHead updLast split]. now rewrite (trimEnd_blank c x (eq_sym Ex) Wc).
      * change (updLast trimEnd (x :: y :: t))
          with (x :: updLast trimEnd (y :: t)) in IH.
        inversion IH as [[E1 E2]]. destruct t; discriminate E2.
    + rewrite (trimEnd_cons c r (or_introl Nr)). cbn [split]. rewrite Ecd, IH.
      destruct (split d r) as [|x [|y t]] eqn:El; [congruence| |].
      * apply split_single in El. subst x. cbn [updLast consHead].
        now rewrite (trimEnd_cons c r (or_introl Nr)).
      * reflexivity.
    + rewrite (trimEnd_cons c r (or_intror Wc)). cbn [split]. rewrite Ecd, IH.
      destruct (split d r) as [|x [|y t]] eqn:El; [congruence| |].
      * cbn [updLast consHead]. now rewrite (trimEnd_cons c x (or_intror Wc)).
      * reflexivity.
Qed.

Lemma split_trimStart d s :
  isWhiteSpace d = false ->
  map trim (split d (trimStart s)) = map trim (split d s).
Proof.
  intros Wd. induction s as [|c r IH]; [reflexivity|].
  cbn [trimStart]. destruct (isWhiteSpace c) eqn:Wc; [|reflexivity].
  rewrite IH. cbn [split].
  destruct (Ascii.eqb c d) eqn:Ecd;
    [apply Ascii.eqb_eq in Ecd; congruence|].
  pose proof (split_nonempty d r) as Ne.
  destruct (split d r) as [|h t]; [congruence|].
  cbn [consHead map]. now rewrite (trim_skip c h Wc).
Qed.

Lemma fields_of_trimmed d s :
  isWhiteSpace d = false ->
  map trim (split d (trim s)) = map trim (split d s).
Proof.
  intros Wd. unfold trim.
  rewrite (split_trimEnd d _ Wd), map_trim_updLast.
  now apply split_trimStart.
Qed.

End LineFacts.

(** ** The Date Normalizer *)

Module DateProps.
Import Text DateText TextFacts.

(** Which of the three forms the normalizer recognises in an input, with the
    number of digits of the year for the day-first form. *)
Inductive DateForm : Type :=
| IsoLike
| DayFirst (yearDigits : nat)
| Compact.

Definition formOf (rawDate : string) : option DateForm :=
  let datePart := datePartOf (trim rawDate) in
  match isoMatch datePart with
  | Some _ => Some IsoLike
  | None =>
      match slashMatch datePart with
      | Some (_, _, y) => Some (DayFirst (length y))
      | None =>
          match compactMatch datePart with
          | Some _ => Some Compact
          | None => None
          end
      end
  end.

(** The claim of the specification about re-feeding the output, for a given
    host: every accepted input yields a [YYYY-MM-DD] string that the
    normalizer maps to itself. *)
Definition OutputIsFixedPoint (getTime : string -> option Z) : Prop :=
  forall raw out,
    parseDate getTime raw = Some out ->
    isYMD out = true /\ parseDate getTime out = Some out.

Section WithHost.

Variable getTime : string -> option Z.

Lemma ymd_build y m d :
  allChars isDigit y = true -> allChars isDigit m = true ->
  allChars isDigit d = true ->
  length y = 4 -> length m = 2 -> length d = 2 ->
  isYMD (y ++ "-" ++ m ++ "-" ++ d) = true.
Proof.
  intros Hy Hm Hd Ly Lm Ld. unfold isYMD. simpl.
  rewrite digitRuns3_build by auto. rewrite Ly, Lm, Ld. simpl.
  assert (D : forall s, allChars isDigit s = true ->
                        allChars (fun c => negb (Ascii.eqb c "/"%char)) s = true).
  { intros s. apply allChars_impl. intros c Hc. apply negb_true_iff.
    apply digit_not_sep in Hc. unfold isSep in Hc.
    now apply orb_false_iff in Hc as [_ Hc]. }
  rewrite allChars_app. simpl. rewrite allChars_app. simpl.
  now rewrite (D _ Hy), (D _ Hm), (D _ Hd).
Qed.

(** The normalizer on a canonical string: it hands it back when the host
    takes it for a date, and rejects it otherwise. *)
Lemma parseDate_canonical y m d :
  allChars isDigit y = true -> allChars isDigit m = true ->
  allChars isDigit d = true ->
  length y = 4 -> length m = 2 -> length d = 2 ->
  let s := y ++ "-" ++ m ++ "-" ++ d in
  parseDate getTime s = if isValidDate getTime s then Some s else None.
Proof.
  intros Hy Hm Hd Ly Lm Ld s. subst s. simpl.
  assert (NS : allChars (fun x => negb (isWhiteSpace x))
                 (y ++ String "-" (m ++ String "-" d)) = true)
    by (apply built_no_space; auto).
  unfold parseDate.
  destruct (y ++ String "-" (m ++ String "-" d)) as [|c0 s0] eqn:E.
  { destruct y; simpl in *; discriminate. }
  rewrite <- E in *. clear E c0 s0.
  rewrite (trim_no_space _ NS), (datePartOf_no_space _ NS).
  unfold isoMatch. rewrite digitRuns3_build by auto.
  rewrite Ly, Lm, Ld. simpl.
  rewrite (padStart2_two m Lm), (padStart2_two d Ld). reflexivity.
Qed.

Lemma digits_of_substring n k s :
  allChars isDigit s = true -> allChars isDigit (substring n k s) = true.
Proof.
  revert n k. induction s as [|c s IH]; intros n k H.
  - destruct n, k; reflexivity.
  - simpl in H. apply andb_true_iff in H as [Hc Hs].
    destruct n as [|n]; destruct k as [|k]; simpl; auto.
    rewrite Hc. simpl. apply (IH 0 k Hs).
Qed.

(** What each form produces. *)
Lemma parseDate_cases raw out :
  parseDate getTime raw = Some out ->
  exists y m d,
    out = y ++ "-" ++ m ++ "-" ++ d /\
    allChars isDigit y = true /\ allChars isDigit m = true /\
    allChars isDigit d = true /\ length m = 2 /\ length d = 2 /\
    match formOf raw with
    | Some IsoLike => length y = 4 /\ isValidDate getTime out = true
    | Some (DayFirst 2) => length y = 4 /\ prefix "20" y = true
    | Some (DayFirst k) => length y = k /\ 3 <= k <= 4
    | Some Compact => length y = 4
    | None => False
    end.
Proof.
  unfold parseDate, formOf. destruct raw as [|c0 r0]; [discriminate|].
  set (p := datePartOf (trim (String c0 r0))). clearbody p.
  destruct (isoMatch p) as [[[y m] d]|] eqn:Eiso.
  - unfold isoMatch in Eiso.
    destruct (digitRuns3 p) as [[[y' m'] d']|] eqn:R; [|discriminate].
    destruct ((length y' =? 4) && between 1 2 (length m') && between 1 2 (length d')) eqn:B;
      [|discriminate].
    inversion Eiso; subst y' m' d'.
    apply andb_true_iff in B as [B Bd]. apply andb_true_iff in B as [By Bm].
    apply Nat.eqb_eq in By.
    apply digitRuns3_spec in R as (c1 & c2 & _ & Hy & Hm & Hd & _).
    destruct (isValidDate getTime (y ++ "-" ++ padStart2 m ++ "-" ++ padStart2 d)) eqn:V;
      [|discriminate].
    intros H. inversion H; subst out.
    exists y, (padStart2 m), (padStart2 d).
    repeat split; auto using padStart2_digits, padStart2_length.
  - destruct (slashMatch p) as [[[d m] y]|] eqn:Esl.
    + unfold slashMatch in Esl.
      destruct (digitRuns3 p) as [[[d' m'] y']|] eqn:R; [|discriminate].
      destruct (between 1 2 (length d') && between 1 2 (length m') && between 2 4 (length y')) eqn:B;
        [|discriminate].
      inversion Esl; subst d' m' y'.
      apply andb_true_iff in B as [B By]. apply andb_true_iff in B as [Bd Bm].
      apply digitRuns3_spec in R as (c1 & c2 & _ & Hd & Hm & Hy & _).
      intros H. inversion H; subst out. clear H.
      exists (if length y =? 2 then "20" ++ y else y), (padStart2 m), (padStart2 d).
      repeat split; auto using padStart2_digits, padStart2_length.
      * destruct (length y =? 2); simpl; auto.
      * unfold between in By. apply andb_true_iff in By as [Y1 Y2].
        apply Nat.leb_le in Y1, Y2.
        destruct (length y) as [|[|[|[|[|k]]]]] eqn:L; simpl; try lia.
        rewrite L. split; [reflexivity|]. destruct y; reflexivity.
    + destruct (compactMatch p) as [[[d m] y]|] eqn:Ec; [|discriminate].
      unfold compactMatch in Ec.
      destruct ((length p =? 8) && allChars isDigit p) eqn:B; [|discriminate].
      apply andb_true_iff in B as [L8 Dp]. apply Nat.eqb_eq in L8.
      inversion Ec; subst d m y. intros H. inversion H; subst out. clear H.
      exists (substring 4 4 p), (substring 2 2 p), (substring 0 2 p).
      repeat split; auto using digits_of_substring;
        destruct p as [|a1 [|a2 [|a3 [|a4 [|a5 [|a6 [|a7 [|a8 [|a9 p]]]]]]]]];
        simpl in L8; try discriminate; reflexivity.
Qed.

(** C2 (as amended): for every accepted input whose year is not written with
    three digits, the output is a [YYYY-MM-DD] string; fed back, it is
    returned unchanged when the host takes it for a calendar date and
    rejected otherwise; the output of the ISO-like form always is such a
    date, so there the output is a fixed point. *)
Theorem parseDate_refeed raw out :
  parseDate getTime raw = Some out ->
  formOf raw <> Some (DayFirst 3) ->
  isYMD out = true /\
  parseDate getTime out = (if isValidDate getTime out then Some out else None) /\
  (formOf raw = Some IsoLike -> parseDate getTime out = Some out).
Proof.
  intros H F.
  destruct (parseDate_cases _ _ H) as (y & m & d & -> & Hy & Hm & Hd & Lm & Ld & C).
  assert (Ly : length y = 4).
  { destruct (formOf raw) as [[|k|]|]; try tauto.
    destruct k as [|[|[|[|[|k]]]]]; try lia; try tauto.
    all: try (exfalso; now apply F). }
  split; [now apply ymd_build|].
  pose proof (parseDate_canonical y m d Hy Hm Hd Ly Lm Ld) as P. simpl in P.
  split; [exact P|].
  intros E. rewrite E in C. destruct C as [_ V]. simpl in V, P |- *.
  now rewrite V in P.
Qed.

(** C9: an input whose date part (what is left after trimming and cutting
    at the first space) is day-first with a two-digit year [YY] yields the
    year [20YY], whatever [YY] is. *)
Theorem two_digit_year_is_20YY raw d c1 m c2 yy :
  datePartOf (trim raw) = d ++ String c1 (m ++ String c2 yy) ->
  allChars isDigit d = true -> between 1 2 (length d) = true ->
  allChars isDigit m = true -> between 1 2 (length m) = true ->
  allChars isDigit yy = true -> length yy = 2 ->
  isSep c1 = true -> isSep c2 = true ->
  parseDate getTime raw
  = Some ("20" ++ yy ++ "-" ++ padStart2 m ++ "-" ++ padStart2 d).
Proof.
  intros P Hd Ld Hm Lm Hy Ly H1 H2.
  unfold parseDate. destruct raw as [|c0 r0].
  { destruct d; [discriminate Ld | discriminate P]. }
  rewrite P. unfold isoMatch, slashMatch. rewrite digitRuns3_build by auto.
  assert (L4 : (length d =? 4) = false).
  { unfold between in Ld. apply andb_true_iff in Ld as [_ L].
    apply Nat.leb_le in L. apply Nat.eqb_neq. lia. }
  rewrite L4, Ld, Lm, Ly. simpl. rewrite Ly. reflexivity.
Qed.

End WithHost.

(** C9, at the input of the specification's example. *)
Lemma two_digit_year_99 :
  parseDate HostDate.getTime "01/10/99" = Some "2099-10-01".
Proof.
  exact (two_digit_year_is_20YY HostDate.getTime "01/10/99"
           "01" "/"%char "10" "/"%char "99"
           eq_refl eq_refl eq_refl eq_refl eq_refl eq_refl eq_refl eq_refl eq_refl).
Defined.

Example two_digit_year_with_time :
  parseDate HostDate.getTime " 1-2-51 09:30" = Some "2051-02-01".
Proof. reflexivity. Qed.

(** C2 fails as stated: the day-first form performs no calendar check, so
    ["31/13/2024"] is accepted, and its output ["2024-13-31"] is rejected when
    fed back. *)
Lemma refeed_not_always_fixed : ~ OutputIsFixedPoint HostDate.getTime.
Proof.
  intros H. destruct (H "31/13/2024" "2024-13-31" eq_refl) as [_ C].
  discriminate C.
Qed.

(** A year of three digits is let through by the day-first pattern and gives
    an output that is not canonical, with any host. *)
Lemma three_digit_year getTime :
  parseDate getTime "01/10/123" = Some "123-10-01" /\
  isYMD "123-10-01" = false /\
  parseDate getTime "123-10-01" = None.
Proof. repeat split. Qed.

Lemma parseDate_refeed_witness :
  isYMD "2023-10-01" = true /\
  parseDate HostDate.getTime "2023-10-01" = Some "2023-10-01".
Proof.
  destruct (parseDate_refeed HostDate.getTime "01/10/2023" "2023-10-01" eq_refl)
    as (A & B & _).
  - discriminate.
  - split; [exact A | exact B].
Defined.

End DateProps.
(** ** The tabular record parser *)

Module ParserProps.
Import Text DateText Num Storage TextFacts LineFacts.

(** Rows and a header for concrete runs. *)
Definition header3 : string :=
  "Date" ++ String TAB ("Figs" ++ String TAB "Bats").

Definition rowEmptyBats : string :=
  "2023-10-01" ++ String TAB ("5" ++ String TAB "").

Definition rowFull : string :=
  "2023-10-02" ++ String TAB ("1" ++ String TAB "2").

Section WithHost.

Variable getTime : string -> option Z.
Variable rand : nat -> string.

(** The fields of a row: split on the delimiter, each piece trimmed. *)
Definition fieldsOf (delimiter : ascii) (row : string) : list string :=
  map trim (split delimiter row).

Definition field (k : nat) (fields : list string) : string := nth k fields "".

(** The condition of the specification for accepting a row, on its fields:
    at least three of them, a date the normalizer takes, and figs and bats
    that coerce to a number. *)
Definition acceptable (fields : list string) : Prop :=
  3 <= List.length fields /\
  parseDate getTime (field 0 fields) <> None /\
  isNaN (parseValue (field 1 fields)) = false /\
  isNaN (parseValue (field 2 fields)) = false.

(** The value of leaves: 0 when the fourth field is absent or invalid. *)
Definition leavesValue (fields : list string) : number :=
  if 4 <=? List.length fields then
    if isNaN (parseValue (field 3 fields)) then zero
    else parseValue (field 3 fields)
  else zero.

(** A row is accepted when the loop body pushes a record for it. *)
Definition accepts (delimiter : ascii) (row : string) : Prop :=
  forall observations,
    exists r, importLine getTime rand delimiter observations row = (observations ++ [r])%list.

Lemma acceptable_dec fields : {acceptable fields} + {~ acceptable fields}.
Proof.
  unfold acceptable.
  destruct (le_dec 3 (List.length fields)); [|right; tauto].
  destruct (parseDate getTime (field 0 fields)) eqn:D; [|right; tauto].
  destruct (isNaN (parseValue (field 1 fields))); [right; intuition discriminate|].
  destruct (isNaN (parseValue (field 2 fields))); [right; intuition discriminate|].
  left. repeat split; auto. discriminate.
Qed.

Lemma parseDate_truthy raw d :
  parseDate getTime raw = Some d -> truthy (Some d) = true.
Proof.
  intros H. unfold parseDate in H. destruct raw as [|c0 r0]; [discriminate|].
  set (p := datePartOf (trim (String c0 r0))) in H. clearbody p.
  assert (E : forall y m dd : string,
             truthy (Some (y ++ "-" ++ m ++ "-" ++ dd)) = true).
  { intros y m dd. simpl. destruct y; reflexivity. }
  destruct (isoMatch p) as [[[y m] dd]|].
  - destruct (isValidDate getTime _); [|discriminate]. inversion H. apply E.
  - destruct (slashMatch p) as [[[dd m] y]|].
    + inversion H. apply E.
    + destruct (compactMatch p) as [[[dd m] y]|]; [|discriminate].
      inversion H. apply E.
Qed.

(** The loop body on a row that meets the condition, after trimming. *)
Lemma importLine_accepts delimiter observations rawLine :
  let fields := fieldsOf delimiter (trim rawLine) in
  acceptable fields ->
  exists d,
    parseDate getTime (field 0 fields) = Some d /\
    importLine getTime rand delimiter observations rawLine
    = (observations ++
        [ {| id := rand (List.length observations);
             date := d;
             figs := round (parseValue (field 1 fields));
             bats := round (parseValue (field 2 fields));
             leaves := round (leavesValue fields) |} ])%list.
Proof.
  intros fields (L & D & F & B).
  destruct (parseDate getTime (field 0 fields)) as [d|] eqn:ED; [|congruence].
  exists d. split; [reflexivity|].
  unfold importLine.
  destruct (String.eqb (trim rawLine) "") eqn:E.
  { apply String.eqb_eq in E. unfold fields in L. rewrite E in L.
    simpl in L. lia. }
  fold (fieldsOf delimiter (trim rawLine)). fold fields.
  apply Nat.leb_le in L. rewrite L.
  fold (field 0 fields) (field 1 fields) (field 2 fields) (field 3 fields).
  rewrite ED, (parseDate_truthy _ _ ED), F, B. cbn [andb negb].
  do 3 f_equal. unfold leavesValue.
  destruct (4 <=? List.length fields); [|reflexivity].
  destruct (isNaN (parseValue (field 3 fields))); reflexivity.
Qed.

(** The loop body on a row that does not meet it. *)
Lemma importLine_rejects delimiter observations rawLine :
  ~ acceptable (fieldsOf delimiter (trim rawLine)) ->
  importLine getTime rand delimiter observations rawLine = observations.
Proof.
  intros N. unfold importLine.
  destruct (String.eqb (trim rawLine) ""); [reflexivity|].
  fold (fieldsOf delimiter (trim rawLine)).
  set (fields := fieldsOf delimiter (trim rawLine)) in *.
  destruct (3 <=? List.length fields) eqn:L; [|reflexivity].
  fold (field 0 fields) (field 1 fields) (field 2 fields).
  destruct (truthy (parseDate getTime (field 0 fields))) eqn:T; [|reflexivity].
  destruct (isNaN (parseValue (field 1 fields))) eqn:F; [reflexivity|].
  destruct (isNaN (parseValue (field 2 fields))) eqn:B; [reflexivity|].
  exfalso. apply N. apply Nat.leb_le in L. repeat split; auto.
  destruct (parseDate getTime (field 0 fields)); [discriminate|discriminate T].
Qed.

Lemma parseValue_text c r :
  isDigit c = false -> isWhiteSpace c = false ->
  c <> "+"%char -> c <> "-"%char -> c <> "."%char -> c <> "I"%char ->
  parseValue (String c r) = NaN.
Proof.
  intros Hd Hw Hp Hm Hdot HI.
  assert (E1 : Ascii.eqb c "-" = false) by now apply Ascii.eqb_neq.
  assert (E2 : Ascii.eqb c "+" = false) by now apply Ascii.eqb_neq.
  assert (E3 : Ascii.eqb c "." = false) by now apply Ascii.eqb_neq.
  assert (P : prefix "Infinity" (String c r) = false).
  { change (prefix "Infinity" (String c r))
      with (if ascii_dec "I"%char c then prefix "nfinity" r else false).
    destruct (ascii_dec "I"%char c) as [e|n]; [congruence|reflexivity]. }
  unfold parseValue. change (String.eqb (String c r) "") with false.
  unfold parseFloat. cbn [trimStart]. rewrite Hw.
  unfold stripSign. rewrite E1, E2, P. cbn [span]. rewrite Hd, E3.
  reflexivity.
Qed.

(** Where trimming the row leaves its fields as they are (every row when
    the delimiter is not white space, see [fields_of_trimmed]), the row is
    accepted exactly when it has at least three fields, a date the
    normalizer takes, and figs and bats that coerce to a number. *)
Lemma acceptance_by_fields delimiter row :
  fieldsOf delimiter (trim row) = fieldsOf delimiter row ->
  (acceptable (fieldsOf delimiter row) <-> accepts delimiter row).
Proof.
  intros E.
  assert (NoGrow : forall (l : list Observation) r, l <> (l ++ [r])%list).
  { intros l r H. apply (f_equal (@List.length _)) in H.
    rewrite length_app in H. simpl in H. lia. }
  split.
  - intros A observations. rewrite <- E in A.
    destruct (importLine_accepts delimiter observations row A) as (d & _ & H).
    eexists. exact H.
  - intros H.
    destruct (acceptable_dec (fieldsOf delimiter row)) as [A|N]; [exact A|].
    destruct (H []) as (r & H'). rewrite <- E in N.
    rewrite (importLine_rejects delimiter [] row N) in H'.
    exfalso. exact (NoGrow _ _ H').
Qed.

(** A row is either accepted or leaves the records alone. *)
Lemma not_accepted delimiter row observations :
  ~ accepts delimiter row ->
  importLine getTime rand delimiter observations row = observations.
Proof.
  intros N. destruct (acceptable_dec (fieldsOf delimiter (trim row))) as [A|R].
  - exfalso. apply N. intros obs.
    destruct (importLine_accepts delimiter obs row A) as (d & _ & H).
    eexists. exact H.
  - now apply importLine_rejects.
Qed.

(** Rows that are not accepted leave the records collected so far alone. *)
Lemma fold_rejects delimiter lines observations :
  (forall l, In l lines -> ~ accepts delimiter l) ->
  fold_left (importLine getTime rand delimiter) lines observations = observations.
Proof.
  revert observations. induction lines as [|l lines IH]; intros obs H; simpl.
  - reflexivity.
  - rewrite not_accepted by (apply H; now left).
    apply IH. intros l' Hl'. apply H. now right.
Qed.

(** C10: when no row of the input is accepted, [importFromCSV] returns the
    empty list and the persisted slot is what it was. *)
Theorem empty_import_keeps_slot input st :
  (forall l, In l (splitLines (trim input)) ->
             ~ accepts (detectDelimiter (splitLines (trim input))) l) ->
  importFromCSV getTime rand input st = ([], st).
Proof.
  intros H. unfold importFromCSV.
  destruct (String.eqb input "" || String.eqb (trim input) ""); [reflexivity|].
  unfold parseRows. rewrite (fold_rejects _ _ [] H). reflexivity.
Qed.

End WithHost.


(** C1: the code drops a row that the claim accepts.  With the tab as
    delimiter the row [2023-10-01<TAB>5<TAB>] has three fields: a date that
    the normalizer takes, figs 5 and an empty bats cell, which coerces to 0.
    The loop trims the row before it splits it, the tab is white space, and
    the row is left with two fields and dropped: of the two rows of the
    input only the other one is imported.  The same cells separated by
    commas are imported, with bats 0. *)
Theorem empty_last_cell_lost :
  acceptable HostDate.getTime (fieldsOf TAB rowEmptyBats) /\
  importFromCSV HostDate.getTime StorageExamples.ids
    (rowEmptyBats ++ String LF rowFull) None
  = ([ mkObservation "id0" "2023-10-02" (Fin 2) (Fin 1) (Fin 0) ],
     Some [ mkObservation "id0" "2023-10-02" (Fin 2) (Fin 1) (Fin 0) ]) /\
  importFromCSV HostDate.getTime StorageExamples.ids "2023-10-01,5," None
  = ([ mkObservation "id0" "2023-10-01" (Fin 0) (Fin 5) (Fin 0) ],
     Some [ mkObservation "id0" "2023-10-01" (Fin 0) (Fin 5) (Fin 0) ]).
Proof.
  split; [|split; reflexivity].
  unfold acceptable. vm_compute. repeat split; auto. discriminate.
Qed.

(** A trailing space does no harm: trimming the row removes it, and so
    does trimming the cell. *)
Example trailing_space_kept :
  parseRows HostDate.getTime StorageExamples.ids
    ("2023-10-01" ++ String TAB ("5" ++ String TAB "3 "))
  = [ mkObservation "id0" "2023-10-01" (Fin 3) (Fin 5) (Fin 0) ].
Proof. reflexivity. Qed.

(** An infinite value passes the [isNaN] test and is stored as it is. *)
Example infinity_is_kept :
  parseRows HostDate.getTime StorageExamples.ids "2023-10-01,Infinity,3"
  = [ mkObservation "id0" "2023-10-01" (Fin 3) (Inf false) (Fin 0) ].
Proof. reflexivity. Qed.

Lemma empty_import_keeps_slot_witness :
  importFromCSV HostDate.getTime StorageExamples.ids header3
                (Some [mkObservation "a" "2023-10-01" (Fin 1) (Fin 2) (Fin 3)])
  = ([], Some [mkObservation "a" "2023-10-01" (Fin 1) (Fin 2) (Fin 3)]).
Proof.
  apply empty_import_keeps_slot.
  intros l Hl. vm_compute in Hl. destruct Hl as [<- | []].
  intros A. destruct (A []) as (r & H). vm_compute in H. discriminate H.
Defined.

End ParserProps.

(** ** The observation store *)

Module StoreProps.
Import Text DateText Num Storage.

(** The public mutating operations. *)
Inductive Op : Type :=
| Upsert (o : Observation)
| Delete (i : string)
| Import (input : string).

(** Observations and an input for concrete runs. *)
Definition obsA : Observation := mkObservation "a" "2024-01-05" (Fin 1) (Fin 2) (Fin 3).
Definition obsB : Observation := mkObservation "b" "2024-01-01" (Fin 4) (Fin 5) (Fin 6).
Definition obsX : Observation := mkObservation "x" "2024-99-99" (Fin 7) (Fin 8) (Fin 9).

Definition twiceSameDay : string :=
  "2023-10-01,1,2" ++ String LF "01/10/2023,3,4".

Lemma findIndex_some {A : Type} (p : A -> bool) (l : list A) (i : nat) (dflt v : A) :
  findIndex p l = Some i ->
  exists l1 o l2,
    l = (l1 ++ o :: l2)%list /\ p o = true /\
    (forall x, In x l1 -> p x = false) /\
    nth i l dflt = o /\ setAt i v l = (l1 ++ v :: l2)%list.
Proof.
  revert i. induction l as [|x t IH]; intros i H; simpl in H; [discriminate|].
  destruct (p x) eqn:Px.
  - inversion H; subst i. exists [], x, t. simpl. repeat split; auto.
    intros y [].
  - destruct (findIndex p t) as [j|] eqn:E; [|discriminate].
    inversion H; subst i.
    destruct (IH j eq_refl) as (l1 & o & l2 & -> & Po & Hl1 & Hn & Hs).
    exists (x :: l1), o, l2. simpl. rewrite Hs. repeat split; auto.
    intros y [<- | Hy]; auto.
Qed.

Lemma findIndex_none {A : Type} (p : A -> bool) (l : list A) :
  findIndex p l = None -> forall x, In x l -> p x = false.
Proof.
  induction l as [|x t IH]; simpl; intros H y Hy; [contradiction|].
  destruct (p x) eqn:Px; [discriminate|].
  destruct (findIndex p t); [discriminate|].
  destruct Hy as [<- | Hy]; auto.
Qed.

Section WithHost.

Variable getTime : string -> option Z.
Variable rand : nat -> string.

Local Abbreviation sortByDate := (sortByDate getTime).
Local Abbreviation insertSorted := (insertSorted getTime).
Local Abbreviation getObservations := (getObservations getTime).
Local Abbreviation saveObservation := (saveObservation getTime).
Local Abbreviation deleteObservation := (deleteObservation getTime).
Local Abbreviation importFromCSV := (importFromCSV getTime rand).
Local Abbreviation parseRows := (parseRows getTime rand).

(** The slot after an operation. *)
Definition perform (st : Slot) (op : Op) : Slot :=
  match op with
  | Upsert o => snd (saveObservation o st)
  | Delete i => snd (deleteObservation i st)
  | Import input => snd (importFromCSV input st)
  end.

Definition run (ops : list Op) (st : Slot) : Slot := fold_left perform ops st.

(** No two persisted observations have the same date. *)
Definition uniqueDates (st : Slot) : Prop :=
  match st with
  | None => True
  | Some l => NoDup (map date l)
  end.

(** The invariant as the specification claims it, from the empty store. *)
Definition UniqueDatesAlways : Prop :=
  forall ops, uniqueDates (run ops None).

(** [a] may stand before [b] in a list sorted by date descending. *)
Definition newerFirst (a b : Observation) : Prop :=
  forall ta tb,
    getTime (date a) = Some ta -> getTime (date b) = Some tb -> (tb <= ta)%Z.

Definition hasTime (o : Observation) : Prop :=
  exists t, getTime (date o) = Some t.

(** What the specification claims of [upsert]: the whole slot is replaced
    by the result, the result is sorted by date descending, a record of a
    new date is added to the stored ones, and a record of a stored date
    takes the place of the first observation of that date, with its id. *)
Definition UpsertClaim : Prop :=
  forall obs st,
    let current := getObservations st in
    let result := fst (saveObservation obs st) in
    snd (saveObservation obs st) = Some result /\
    StronglySorted newerFirst result /\
    ((forall x, In x current -> date x <> date obs) ->
     Permutation result (obs :: current)) /\
    (forall l1 o l2,
        current = (l1 ++ o :: l2)%list -> date o = date obs ->
        (forall x, In x l1 -> date x <> date obs) ->
        Permutation result (l1 ++ withId obs (id o) :: l2)).

Lemma insertSorted_perm x l : Permutation (insertSorted x l) (x :: l).
Proof.
  induction l as [|y t IH]; simpl; [reflexivity|].
  destruct (goesAfter getTime x y); [|reflexivity].
  rewrite IH. apply perm_swap.
Qed.

Lemma sortByDate_perm l : Permutation (sortByDate l) l.
Proof.
  induction l as [|x t IH]; simpl; [reflexivity|].
  rewrite insertSorted_perm. now constructor.
Qed.

Lemma insertSorted_sorted x l :
  hasTime x -> Forall hasTime l ->
  StronglySorted newerFirst l -> StronglySorted newerFirst (insertSorted x l).
Proof.
  intros (tx & Hx) Hl Hs. induction Hs as [|y t Hs IH Hy]; simpl.
  - repeat constructor.
  - inversion Hl as [|? ? (ty & Hty) Ht]; subst.
    unfold goesAfter, byDateDesc. rewrite Hty, Hx.
    destruct (0 <? ty - tx)%Z eqn:C.
    + apply Z.ltb_lt in C. constructor; [now apply IH|].
      eapply Permutation_Forall; [symmetry; apply insertSorted_perm|].
      constructor; [|exact Hy].
      intros a b Ha Hb. rewrite Hty in Ha. rewrite Hx in Hb.
      inversion Ha; inversion Hb; subst. lia.
    + apply Z.ltb_ge in C. constructor; [now constructor|].
      constructor.
      * intros a b Ha Hb. rewrite Hx in Ha. rewrite Hty in Hb.
        inversion Ha; inversion Hb; subst. lia.
      * rewrite Forall_forall in *. intros z Hz a b Ha Hb.
        rewrite Hx in Ha. inversion Ha; subst a.
        specialize (Hy z Hz ty b Hty Hb). lia.
Qed.

Lemma sortByDate_sorted l :
  Forall hasTime l -> StronglySorted newerFirst (sortByDate l).
Proof.
  induction l as [|x t IH]; simpl; intros H; [constructor|].
  inversion H; subst. apply insertSorted_sorted; auto.
  eapply Permutation_Forall; [symmetry; apply sortByDate_perm|assumption].
Qed.

Lemma dates_perm (l l' : list Observation) :
  Permutation l l' -> NoDup (map date l) -> NoDup (map date l').
Proof.
  intros P. apply Permutation_NoDup. now apply Permutation_map.
Qed.

Lemma dates_filter (p : Observation -> bool) l :
  NoDup (map date l) -> NoDup (map date (filter p l)).
Proof.
  induction l as [|x t IH]; simpl; intros H; [constructor|].
  inversion H as [|? ? Hx Ht]; subst.
  destruct (p x); simpl; auto.
  constructor; auto. intros Hin. apply Hx.
  apply in_map_iff in Hin as (y & E & Hy).
  apply in_map_iff. exists y. split; auto.
  now apply filter_In in Hy.
Qed.

Lemma current_unique st :
  uniqueDates st -> NoDup (map date (getObservations st)).
Proof.
  destruct st as [l|]; simpl; intros H; [|constructor].
  eapply dates_perm; [symmetry; apply sortByDate_perm|assumption].
Qed.

(** What [saveObservation] computes before it sorts. *)
Lemma upsert_cases obs st :
  let current := getObservations st in
  exists updated,
    saveObservation obs st = (sortByDate updated, Some (sortByDate updated)) /\
    ((exists l1 o l2,
        current = (l1 ++ o :: l2)%list /\ date o = date obs /\
        (forall x, In x l1 -> date x <> date obs) /\
        updated = (l1 ++ withId obs (id o) :: l2)%list)
     \/
     ((forall x, In x current -> date x <> date obs) /\
      updated = obs :: current)).
Proof.
  intros current. unfold saveObservation. fold current.
  destruct (findIndex (fun o => String.eqb (date o) (date obs)) current)
    as [i|] eqn:F.
  - destruct (findIndex_some _ _ _ obs
                (withId obs (id (nth i current obs))) F)
      as (l1 & o & l2 & E & Po & Hl1 & Hn & Hs).
    eexists. split; [reflexivity|]. left.
    exists l1, o, l2. rewrite Hs, Hn. apply String.eqb_eq in Po.
    repeat split; auto.
    intros x Hx. apply String.eqb_neq. now apply Hl1.
  - eexists. split; [reflexivity|]. right. split; [|reflexivity].
    intros x Hx. apply String.eqb_neq.
    now apply (findIndex_none _ _ F).
Qed.

Lemma first_match_unique (l1 l1' : list Observation) o o' l2 l2' (d : string) :
  (l1 ++ o :: l2 = l1' ++ o' :: l2')%list ->
  date o = d -> date o' = d ->
  (forall x, In x l1 -> date x <> d) ->
  (forall x, In x l1' -> date x <> d) ->
  l1 = l1' /\ o = o' /\ l2 = l2'.
Proof.
  intros E Ho Ho' H1 H1'. revert l1' E H1'.
  induction l1 as [|a l1 IH]; intros [|a' l1'] E H1'; simpl in E.
  - injection E as -> ->. auto.
  - injection E as -> E. exfalso. apply (H1' a'); [now left|exact Ho].
  - injection E as -> E. exfalso. apply (H1 o'); [now left|exact Ho'].
  - injection E as -> E.
    destruct (IH (fun x Hx => H1 x (or_intror Hx)) l1' E
                 (fun x Hx => H1' x (or_intror Hx))) as (-> & -> & ->).
    auto.
Qed.

(** C4 (as amended): [upsert] replaces the values of the stored observation
    of the same date and keeps its id, or inserts the record with its own id
    when the date is new; the result is written back as the whole slot; and
    it is sorted by date descending when the host can read the date of the
    record and of every stored observation. *)
Theorem upsert_spec obs st :
  let current := getObservations st in
  let result := fst (saveObservation obs st) in
  snd (saveObservation obs st) = Some result /\
  (Forall hasTime (obs :: current) -> StronglySorted newerFirst result) /\
  ((forall x, In x current -> date x <> date obs) ->
   Permutation result (obs :: current)) /\
  (forall l1 o l2,
      current = (l1 ++ o :: l2)%list -> date o = date obs ->
      (forall x, In x l1 -> date x <> date obs) ->
      Permutation result (l1 ++ withId obs (id o) :: l2)).
Proof.
  cbv zeta.
  destruct (upsert_cases obs st) as (updated & E & C). rewrite E. simpl.
  split; [reflexivity|]. split; [|split].
  - intros V. apply sortByDate_sorted.
    inversion V as [|? ? Vo Vc]; subst.
    destruct C as [(l1 & o & l2 & Ec & Ed & _ & ->) | (_ & ->)]; [|now constructor].
    rewrite Ec in Vc. rewrite Forall_app in *. destruct Vc as [V1 V2].
    inversion V2; subst. split; [assumption|]. constructor; assumption.
  - intros Hnew. rewrite sortByDate_perm.
    destruct C as [(l1 & o & l2 & Ec & Ed & _ & ->) | (_ & ->)]; [|reflexivity].
    exfalso. apply (Hnew o); [|assumption]. rewrite Ec. apply in_elt.
  - intros l1 o l2 Ec Ed H1. rewrite sortByDate_perm.
    destruct C as [(l1' & o' & l2' & Ec' & Ed' & H1' & ->) | (Hnew & _)].
    + rewrite Ec in Ec'.
      destruct (first_match_unique _ _ _ _ _ _ _ Ec' Ed Ed' H1 H1') as (-> & -> & ->).
      reflexivity.
    + exfalso. apply (Hnew o); [|assumption]. rewrite Ec. apply in_elt.
Qed.

Lemma perform_unique st op :
  uniqueDates st ->
  (forall input, op = Import input -> NoDup (map date (parseRows input))) ->
  uniqueDates (perform st op).
Proof.
  intros U HI. destruct op as [o | i | input]; unfold perform.
  - destruct (upsert_cases o st) as (updated & E & C). rewrite E. cbn [snd uniqueDates].
    eapply dates_perm; [symmetry; apply sortByDate_perm|].
    pose proof (current_unique st U) as Uc.
    destruct C as [(l1 & x & l2 & Ec & Ed & _ & ->) | (Hnew & ->)].
    + rewrite Ec in Uc. rewrite map_app in *. simpl in *. now rewrite <- Ed.
    + simpl. constructor; [|assumption].
      intros Hin. apply in_map_iff in Hin as (y & Ey & Hy).
      now apply (Hnew y Hy).
  - unfold Storage.deleteObservation. cbn [snd uniqueDates].
    apply dates_filter. now apply current_unique.
  - unfold Storage.importFromCSV.
    destruct (String.eqb input "" || String.eqb (trim input) ""); [exact U|].
    destruct (0 <? List.length (parseRows input)); [|exact U].
    cbn [snd uniqueDates]. eapply dates_perm; [symmetry; apply sortByDate_perm|].
    now apply HI.
Qed.

(** C3 (as amended): the persisted set keeps pairwise distinct dates through
    any sequence of upserts, deletions and imports, provided the rows that
    each import accepts have pairwise distinct normalized dates. *)
Theorem unique_dates_preserved ops st :
  uniqueDates st ->
  (forall input, In (Import input) ops -> NoDup (map date (parseRows input))) ->
  uniqueDates (run ops st).
Proof.
  revert st. induction ops as [|op ops IH]; intros st U HI; simpl; [exact U|].
  apply IH.
  - apply perform_unique; [exact U|].
    intros input ->. apply HI. now left.
  - intros input Hin. apply HI. now right.
Qed.

End WithHost.


(** C3 fails as stated: an import keeps every accepted row, so two rows of
    one day give two observations of that date. *)
Lemma import_duplicates_dates :
  ~ UniqueDatesAlways HostDate.getTime StorageExamples.ids.
Proof.
  intros C. specialize (C [Import twiceSameDay]).
  assert (E : run HostDate.getTime StorageExamples.ids [Import twiceSameDay] None
              = Some [ mkObservation "id0" "2023-10-01" (Fin 2) (Fin 1) (Fin 0);
                       mkObservation "id1" "2023-10-01" (Fin 4) (Fin 3) (Fin 0) ])
    by reflexivity.
  rewrite E in C. simpl in C. inversion C as [|? ? Hin _]. apply Hin. now left.
Qed.

(** C4 fails as stated: the day-first form lets ["99/99/2024"] into the
    store as ["2024-99-99"]; the comparator yields [NaN] against it, the sort
    takes that for 0, and an older record put in front of it stays there. *)
Lemma upsert_unsorted_past_bad_date : ~ UpsertClaim HostDate.getTime.
Proof.
  intros C. destruct (C obsB (Some [obsX; obsA])) as (_ & S & _).
  assert (E : fst (saveObservation HostDate.getTime obsB (Some [obsX; obsA]))
              = [obsB; obsX; obsA]) by reflexivity.
  rewrite E in S. clear E.
  inversion S as [|? ? _ F]; subst.
  inversion F as [|? ? _ F']; subst. inversion F' as [|? ? N _]; subst.
  specialize (N _ _ eq_refl eq_refl). vm_compute in N. now apply N.
Qed.

Example bad_date_reaches_store :
  importFromCSV HostDate.getTime StorageExamples.ids
    ("99/99/2024,8,7,9" ++ String LF "2024-01-05,2,1,3") None
  = ([ mkObservation "id0" "2024-99-99" (Fin 7) (Fin 8) (Fin 9);
       mkObservation "id1" "2024-01-05" (Fin 1) (Fin 2) (Fin 3) ],
     Some [ mkObservation "id0" "2024-99-99" (Fin 7) (Fin 8) (Fin 9);
            mkObservation "id1" "2024-01-05" (Fin 1) (Fin 2) (Fin 3) ]).
Proof. reflexivity. Qed.

Example upsert_keeps_id :
  saveObservation HostDate.getTime
    (mkObservation "new" "2024-01-01" (Fin 0) (Fin 0) (Fin 50)) (Some [obsB; obsA])
  = ([ obsA; mkObservation "b" "2024-01-01" (Fin 0) (Fin 0) (Fin 50) ],
     Some [ obsA; mkObservation "b" "2024-01-01" (Fin 0) (Fin 0) (Fin 50) ]).
Proof. reflexivity. Qed.

Lemma upsert_spec_witness :
  StronglySorted (newerFirst HostDate.getTime)
    (fst (saveObservation HostDate.getTime obsB (Some [obsA]))).
Proof.
  destruct (upsert_spec HostDate.getTime obsB (Some [obsA])) as (_ & S & _).
  apply S. repeat constructor; eexists; reflexivity.
Defined.

Lemma unique_dates_preserved_witness :
  uniqueDates
    (run HostDate.getTime StorageExamples.ids
       [Import "2023-10-01,1,2"; Upsert obsA; Upsert obsA; Delete "a"] None).
Proof.
  apply unique_dates_preserved.
  - exact I.
  - intros input [E | [E | [E | [E | []]]]]; inversion E; subst.
    vm_compute. repeat constructor. intros [].
Defined.

End StoreProps.

(** ** Export after import *)

Module RoundTrip.
Import Text DateText Num Storage TextFacts NumFacts LineFacts.

(** The values of one row of a well-formed CSV text. *)
Record Row : Type := mkRow {
  rdate : string;
  rfigs : Z;
  rbats : Z;
  rleaves : Z
}.

(** A row as text: the date and the three integers in decimal, separated by
    commas. *)
Definition renderRow (r : Row) : string :=
  rdate r ++ "," ++ showZ (rfigs r) ++ "," ++ showZ (rbats r) ++ ","
          ++ showZ (rleaves r).

Definition headerLine : string := "Date,Figs,Bats,Leaves".

(** The CSV text of some rows, with or without the header line. *)
Definition renderCSV (withHeader : bool) (rows : list Row) : string :=
  unlines ((if withHeader then [headerLine] else []) ++ map renderRow rows).

(** Integers that a binary64 number holds exactly. *)
Definition safeInt (z : Z) : Prop := (Z.abs z <= 2 ^ 53)%Z.

(** The characters of a cell: digits and the hyphen. *)
Definition cellChar (c : ascii) : bool := isDigit c || Ascii.eqb c "-"%char.

Definition sampleRows : list Row :=
  [ mkRow "2023-10-01" 20 10 0; mkRow "2023-10-03" 25 15 40;
    mkRow "2023-10-02" (-3) 7 100 ].

Lemma cellChar_solid c : cellChar c = true -> negb (isWhiteSpace c) = true.
Proof. each_char c. Qed.

Lemma cellChar_not_comma c :
  cellChar c = true -> negb (Ascii.eqb c ","%char) = true.
Proof. each_char c. Qed.

Lemma sep_not_slash c :
  isSep c = true -> negb (Ascii.eqb c "/"%char) = true -> c = "-"%char.
Proof. each_char c. Qed.

Lemma ymd_spec s :
  isYMD s = true ->
  exists y m d,
    s = y ++ "-" ++ m ++ "-" ++ d /\
    allChars isDigit y = true /\ allChars isDigit m = true /\
    allChars isDigit d = true /\
    length y = 4 /\ length m = 2 /\ length d = 2.
Proof.
  unfold isYMD. destruct (digitRuns3 s) as [[[y m] d]|] eqn:R; [|discriminate].
  intros H. apply andb_true_iff in H as [H Hs].
  apply andb_true_iff in H as [H Ld]. apply andb_true_iff in H as [Ly Lm].
  apply Nat.eqb_eq in Ly, Lm, Ld.
  apply digitRuns3_spec in R as (c1 & c2 & -> & Hy & Hm & Hd & S1 & S2).
  rewrite allChars_app in Hs. apply andb_true_iff in Hs as [_ Hs].
  simpl in Hs. apply andb_true_iff in Hs as [N1 Hs].
  rewrite allChars_app in Hs. apply andb_true_iff in Hs as [_ Hs].
  simpl in Hs. apply andb_true_iff in Hs as [N2 _].
  rewrite (sep_not_slash c1 S1 N1), (sep_not_slash c2 S2 N2).
  exists y, m, d. repeat split; auto.
Qed.

Lemma ymd_cell s : isYMD s = true -> allChars cellChar s = true.
Proof.
  intros H. destruct (ymd_spec s H) as (y & m & d & -> & Hy & Hm & Hd & _).
  assert (D : forall t, allChars isDigit t = true -> allChars cellChar t = true).
  { intros t. apply allChars_impl. intros c Hc. unfold cellChar. now rewrite Hc. }
  simpl. rewrite allChars_app. simpl. rewrite allChars_app. simpl.
  now rewrite (D _ Hy), (D _ Hm), (D _ Hd).
Qed.

Lemma cell_solid s : allChars cellChar s = true -> solid s = true.
Proof. apply allChars_impl, cellChar_solid. Qed.

Lemma cell_no_comma s :
  allChars cellChar s = true ->
  allChars (fun c => negb (Ascii.eqb c ","%char)) s = true.
Proof. apply allChars_impl, cellChar_not_comma. Qed.

Lemma showZ_cell z : allChars cellChar (showZ z) = true.
Proof. apply showZ_chars. Qed.

Section WithHost.

Variable getTime : string -> option Z.
Variable rand : nat -> string.
Variable showOther : Q -> string.

(** A row of a well-formed input: a canonical date that the host takes for
    a calendar date, and integers that are exact as numbers. *)
Definition wellFormed (r : Row) : Prop :=
  isYMD (rdate r) = true /\ isValidDate getTime (rdate r) = true /\
  safeInt (rfigs r) /\ safeInt (rbats r) /\ safeInt (rleaves r).

(** The record that the parser makes of a row, with its id. *)
Definition toObs (k : nat) (r : Row) : Observation :=
  mkObservation (rand k) (rdate r) (ofZ (rbats r)) (ofZ (rfigs r)) (ofZ (rleaves r)).

Fixpoint numbered (k : nat) (rows : list Row) : list Observation :=
  match rows with
  | [] => []
  | r :: t => toObs k r :: numbered (S k) t
  end.

(** The values of a record made by [toObs]. *)
Definition intOf (n : number) : Z :=
  match n with Fin q => Qfloor q | _ => 0%Z end.

Definition rowOf (o : Observation) : Row :=
  mkRow (date o) (intOf (figs o)) (intOf (bats o)) (intOf (leaves o)).


(** The lines of a rendered text. *)
Definition linesOf (withHeader : bool) (rows : list Row) : list string :=
  ((if withHeader then [headerLine] else []) ++ map renderRow rows)%list.

Lemma rowOf_toObs k r : rowOf (toObs k r) = r.
Proof.
  destruct r as [d f b l]. unfold rowOf, toObs, intOf, ofZ.
  cbn [date figs bats leaves rdate rfigs rbats rleaves].
  now rewrite !Qfloor_Z.
Qed.

Lemma parseDate_ymd s :
  isYMD s = true -> isValidDate getTime s = true ->
  parseDate getTime s = Some s.
Proof.
  intros H V. destruct (ymd_spec s H) as (y & m & d & -> & Hy & Hm & Hd & Ly & Lm & Ld).
  pose proof (DateProps.parseDate_canonical getTime y m d Hy Hm Hd Ly Lm Ld) as P.
  cbv zeta in P. rewrite P, V. reflexivity.
Qed.

Lemma parseValue_showZ z : parseValue (showZ z) = ofZ z.
Proof.
  unfold parseValue. destruct (String.eqb (showZ z) "") eqn:E.
  - apply String.eqb_eq in E. now apply showZ_nonempty in E.
  - apply parseFloat_showZ.
Qed.

Lemma renderRow_solid r :
  isYMD (rdate r) = true -> solid (renderRow r) = true /\ renderRow r <> "".
Proof.
  intros H. unfold renderRow. split.
  - assert (A : forall a c b,
               solid (a ++ String c b)
               = solid a && (negb (isWhiteSpace c) && solid b)).
    { intros a c b. now rewrite solid_app. }
    cbn [append]. rewrite !A.
    rewrite (cell_solid _ (ymd_cell _ H)), !(cell_solid _ (showZ_cell _)).
    reflexivity.
  - destruct (ymd_spec _ H) as (y & m & d & E & _). rewrite E.
    destruct y; discriminate.
Qed.

Lemma renderRow_fields r :
  isYMD (rdate r) = true ->
  map trim (split ","%char (trim (renderRow r)))
  = [rdate r; showZ (rfigs r); showZ (rbats r); showZ (rleaves r)].
Proof.
  intros H. rewrite (solid_trim _ (proj1 (renderRow_solid r H))).
  unfold renderRow. cbn [append].
  rewrite split_field by (apply cell_no_comma, ymd_cell, H).
  rewrite split_field by (apply cell_no_comma, showZ_cell).
  rewrite split_field by (apply cell_no_comma, showZ_cell).
  rewrite split_absent by (apply cell_no_comma, showZ_cell).
  cbn [map].
  rewrite (solid_trim _ (cell_solid _ (ymd_cell _ H))).
  now rewrite !(solid_trim _ (cell_solid _ (showZ_cell _))).
Qed.

Lemma importLine_row observations r :
  wellFormed r ->
  importLine getTime rand ","%char observations (renderRow r)
  = (observations ++ [toObs (List.length observations) r])%list.
Proof.
  intros (H & V & _).
  pose proof (renderRow_fields r H) as F.
  assert (A : ParserProps.acceptable getTime
                (ParserProps.fieldsOf ","%char (trim (renderRow r)))).
  { unfold ParserProps.acceptable, ParserProps.fieldsOf, ParserProps.field.
    rewrite F. cbn [List.length nth].
    rewrite (parseDate_ymd _ H V), !parseValue_showZ.
    repeat split; auto. discriminate. }
  destruct (ParserProps.importLine_accepts getTime rand ","%char observations
              (renderRow r) A) as (d & D & E).
  rewrite E. unfold ParserProps.fieldsOf, ParserProps.field,
    ParserProps.leavesValue, ParserProps.field in *.
  rewrite F in *. cbn [List.length nth Nat.leb] in *.
  rewrite (parseDate_ymd _ H V) in D. injection D as <-.
  rewrite !parseValue_showZ. cbn [isNaN ofZ]. fold (ofZ (rleaves r)).
  fold (ofZ (rfigs r)) (ofZ (rbats r)). now rewrite !round_ofZ.
Qed.

Lemma fold_rows rows observations :
  Forall wellFormed rows ->
  fold_left (importLine getTime rand ","%char) (map renderRow rows) observations
  = (observations ++ numbered (List.length observations) rows)%list.
Proof.
  revert observations. induction rows as [|r rows IH]; intros obs H; simpl.
  - now rewrite app_nil_r.
  - inversion H; subst. rewrite importLine_row by assumption.
    rewrite IH by assumption. rewrite length_app, <- app_assoc. simpl.
    now rewrite Nat.add_1_r.
Qed.


Lemma linesOf_solid withHeader rows :
  Forall wellFormed rows ->
  Forall (fun l => solid l = true /\ l <> "") (linesOf withHeader rows).
Proof.
  intros H. unfold linesOf. apply Forall_app. split.
  - destruct withHeader; repeat constructor. discriminate.
  - apply Forall_map. revert H. apply Forall_impl.
    intros r (Hr & _). now apply renderRow_solid.
Qed.

Lemma detect_comma lines :
  Forall (fun l => solid l = true /\ l <> "") lines ->
  detectDelimiter lines = ","%char.
Proof.
  intros H. unfold detectDelimiter, firstNonBlank.
  destruct lines as [|a rest]; [reflexivity|].
  inversion H as [|? ? [Sa Na] _]; subst. cbn [find].
  rewrite (solid_trim _ Sa).
  destruct a as [|c a]; [congruence|]. cbn [length Nat.ltb Nat.leb].
  now rewrite (solid_no_tab _ Sa).
Qed.

Lemma parseRows_rendered withHeader rows :
  Forall wellFormed rows -> linesOf withHeader rows <> [] ->
  parseRows getTime rand (renderCSV withHeader rows) = numbered 0 rows.
Proof.
  intros H Hne. unfold parseRows, renderCSV. fold (linesOf withHeader rows).
  pose proof (linesOf_solid withHeader rows H) as S.
  rewrite (trim_unlines _ S).
  rewrite splitLines_unlines;
    [|assumption|revert S; apply Forall_impl; tauto].
  rewrite (detect_comma _ S). unfold linesOf.
  rewrite fold_left_app.
  replace (fold_left (importLine getTime rand ","%char)
             (if withHeader then [headerLine] else []) [])
    with (@nil Observation) by (now destruct withHeader).
  now rewrite fold_rows.
Qed.

Lemma exportRow_toObs k r :
  wellFormed r -> exportRow showOther (toObs k r) = renderRow r.
Proof.
  intros (_ & _ & Sf & Sb & Sl). unfold exportRow, toObs, renderRow.
  cbn [date figs bats leaves].
  assert (B : forall z, safeInt z -> (Z.abs z < 10 ^ 21)%Z).
  { unfold safeInt. intros z Hz.
    apply Z.le_lt_trans with (m := (2 ^ 53)%Z); [exact Hz|reflexivity]. }
  now rewrite !toString_ofZ by auto.
Qed.

Lemma numbered_rows k rows : map rowOf (numbered k rows) = rows.
Proof.
  revert k. induction rows as [|r rows IH]; intros k; simpl; [reflexivity|].
  now rewrite rowOf_toObs, IH.
Qed.

Lemma numbered_export k rows :
  Forall wellFormed rows ->
  Forall (fun o => exportRow showOther o = renderRow (rowOf o)) (numbered k rows).
Proof.
  intros H. revert k. induction H as [|r rows Hr _ IH]; intros k; simpl.
  - constructor.
  - constructor; [|apply IH]. rewrite rowOf_toObs. now apply exportRow_toObs.
Qed.

(** C7: for a text made of rows of a canonical, valid date and three
    integers, with or without the header line, exporting what the import
    returns gives the header line and the same rows in some order. *)
Theorem export_import_roundtrip withHeader rows st :
  Forall wellFormed rows ->
  exists rows',
    Permutation rows rows' /\
    exportToCSV showOther
      (fst (importFromCSV getTime rand (renderCSV withHeader rows) st))
    = renderCSV true rows'.
Proof.
  intros H.
  destruct (linesOf withHeader rows) as [|l0 ls] eqn:EL.
  - (* no line at all: the empty text *)
    unfold linesOf in EL. destruct withHeader; [discriminate|].
    destruct rows; [|discriminate]. exists []. split; [constructor|].
    reflexivity.
  - assert (Hne : linesOf withHeader rows <> []) by (rewrite EL; discriminate).
    clear EL l0 ls.
    pose proof (parseRows_rendered withHeader rows H Hne) as P.
    pose proof (linesOf_solid withHeader rows H) as S.
    pose proof (trim_unlines _ S) as T.
    destruct (trimEnd_unlines _ S) as [_ N]. specialize (N Hne).
    change (unlines (linesOf withHeader rows))
      with (renderCSV withHeader rows) in T, N.
    exists (map rowOf (sortByDate getTime (numbered 0 rows))). split.
    + rewrite <- (numbered_rows 0 rows) at 1. apply Permutation_map.
      symmetry. apply StoreProps.sortByDate_perm.
    + assert (Out : fst (importFromCSV getTime rand (renderCSV withHeader rows) st)
                    = sortByDate getTime (numbered 0 rows)).
      { unfold importFromCSV. rewrite T, P.
        apply String.eqb_neq in N. rewrite N. cbn [orb].
        destruct (0 <? List.length (numbered 0 rows)) eqn:L; [reflexivity|].
        destruct rows; [reflexivity|discriminate L]. }
      rewrite Out. unfold exportToCSV, renderCSV, join, unlines, join.
      cbn [app]. do 2 f_equal. rewrite map_map.
      apply map_ext_in. intros o Ho.
      pose proof (numbered_export 0 rows H) as E.
      rewrite Forall_forall in E. apply E.
      apply (Permutation_in _ (StoreProps.sortByDate_perm getTime _) Ho).
Qed.

End WithHost.


Lemma sampleRows_wellFormed : Forall (wellFormed HostDate.getTime) sampleRows.
Proof.
  repeat constructor; try reflexivity; unfold safeInt; simpl; lia.
Defined.

Example roundtrip_sample :
  exportToCSV StorageExamples.noFraction
    (fst (importFromCSV HostDate.getTime StorageExamples.ids
            (renderCSV false sampleRows) None))
  = renderCSV true
      [ mkRow "2023-10-03" 25 15 40; mkRow "2023-10-02" (-3) 7 100;
        mkRow "2023-10-01" 20 10 0 ].
Proof. reflexivity. Qed.

Lemma export_import_roundtrip_witness :
  exists rows',
    Permutation sampleRows rows' /\
    exportToCSV StorageExamples.noFraction
      (fst (importFromCSV HostDate.getTime StorageExamples.ids
              (renderCSV false sampleRows) None))
    = renderCSV true rows'.
Proof.
  exact (export_import_roundtrip HostDate.getTime StorageExamples.ids
           StorageExamples.noFraction false sampleRows None
           sampleRows_wellFormed).
Defined.

End RoundTrip.

(** ** The weather range fetcher *)

Module WeatherProps.
Import Weather WeatherExamples.

Definition msPerDay : Z := 86400000.

(** The day number (days since 1970-01-01, UTC) of a timestamp. *)
Definition dayOf (t : Z) : Z := (t / msPerDay)%Z.

(** The timestamp of a date-only string of day number [n]: UTC midnight. *)
Definition midnight (n : Z) : Z := (msPerDay * n)%Z.

(** A network on which the archive endpoint cannot be reached, the forecast
    endpoint answering as [echo]. *)
Definition archiveDown (req : Request) : Fetched :=
  match endpoint req with
  | Archive => Rejected
  | Forecast => echo req
  end.

(** A network on which the archive endpoint answers with an error status. *)
Definition archiveRefuses (req : Request) : Fetched :=
  match endpoint req with
  | Archive => Response false None
  | Forecast => echo req
  end.

(** A host on Sydney time in the first week of October 2024: daylight
    saving starts there on the 6th, so that local day has 23 hours, and
    [setDate(getDate() + 1)] on an instant of the 5th (after 02:00 local
    time) gives the instant 23 hours later. *)
Definition sydneyNextDay (t : Z) : Z := (t + 23 * 60 * 60 * 1000)%Z.

(** 2024-10-12 00:30 UTC (11:30 in Sydney). *)
Definition octoberNow : Z := (20008 * 86400000 + 1800000)%Z.

(** A server that answers a request with its first and its last day. *)
Definition bothEnds (req : Request) : Fetched :=
  Response true
    (Some (JValue (Some (mkDaily (Some [start_date req; end_date req])
                                 (Some [Some 25%Q; Some 25%Q])
                                 (Some [Some 0%Q; Some 0%Q]))))).

Section WithHost.

Variable getTime : string -> option Z.
Variable toISODate : Z -> string.
Variable nextLocalDay : Z -> Z.
Variable now : Z.
Variable fetch : Request -> Fetched.

Local Abbreviation tryFetch := (tryFetch getTime toISODate nextLocalDay now fetch).
Local Abbreviation requestsOf := (requestsOf getTime toISODate nextLocalDay now fetch).
Local Abbreviation fetchWeatherHistory :=
  (fetchWeatherHistory getTime toISODate nextLocalDay now fetch).

(** The cutoff as a date: the UTC day of [now - 7 days], and the day after. *)
Definition cutoffDay : Z := dayOf (cutoffOf now).
Definition cutoffStr : string := toISODate (cutoffOf now).
Definition nextDayStr : string := toISODate (nextLocalDay (cutoffOf now)).

(** The days that the answer to a request carries: none when the request
    fails in any way. *)
Definition legData (req : Request) : list WeatherData :=
  match fetch req with
  | Response true (Some json) =>
      match parseMeteoResponse json with
      | Some l => l
      | None => []
      end
  | _ => []
  end.

(** The handling of the answer to a request raises an exception: the
    transport fails, or the body of a successful response cannot be read as
    the expected JSON. *)
Definition throws (req : Request) : bool :=
  match fetch req with
  | Rejected => true
  | Response true None => true
  | Response true (Some json) =>
      match parseMeteoResponse json with
      | Some _ => false
      | None => true
      end
  | Response false _ => false
  end.

(** The days of an answer lie in the range asked for, each once. *)
Definition withinRange (req : Request) : Prop :=
  NoDup (map date (legData req)) /\
  forall w, In w (legData req) ->
    exists t a b,
      getTime (date w) = Some t /\
      getTime (start_date req) = Some a /\
      getTime (end_date req) = Some b /\ (a <= t <= b)%Z.

(** The results of the legs, archive first: the requests are issued
    forecast first. *)
Definition legsData (reqs : list Request) : list WeatherData :=
  List.concat (map legData (rev reqs)).

(** The claim of the specification on failures: every leg that fails
    counts for nothing and the others are returned. *)
Definition FailuresStayLocal (startDate endDate : string) : Prop :=
  fetchWeatherHistory startDate endDate = legsData (requestsOf startDate endDate).

(** The three outcomes of the dispatch. *)
Inductive Dispatch (startDate endDate : string) : Prop :=
| RecentOnly :
    tryFetch startDate endDate
    = ([mkRequest Forecast startDate endDate],
       singleQuery fetch (mkRequest Forecast startDate endDate)) ->
    Dispatch startDate endDate
| HistoricalOnly :
    tryFetch startDate endDate
    = ([mkRequest Archive startDate endDate],
       singleQuery fetch (mkRequest Archive startDate endDate)) ->
    Dispatch startDate endDate
| Straddling (legs : list Request) :
    requestsOf startDate endDate
    = (legs ++ [mkRequest Archive startDate cutoffStr])%list ->
    (legs = [] \/ legs = [mkRequest Forecast nextDayStr endDate]) ->
    ((forall req, In req (requestsOf startDate endDate) -> throws req = false) ->
     snd (tryFetch startDate endDate)
     = Some (legsData (requestsOf startDate endDate))) ->
    ((exists req, In req (requestsOf startDate endDate) /\ throws req = true) ->
     snd (tryFetch startDate endDate) = None) ->
    Dispatch startDate endDate.

Lemma singleQuery_data req :
  match singleQuery fetch req with Some l => l | None => [] end = legData req.
Proof.
  unfold singleQuery, legData, readBody, andThen.
  destruct (fetch req) as [|[|] [json|]]; simpl; try reflexivity.
Qed.

Lemma singleQuery_throws req :
  throws req = true -> singleQuery fetch req = None.
Proof.
  unfold singleQuery, throws, readBody, andThen.
  destruct (fetch req) as [|[|] [json|]]; simpl; try discriminate; auto.
  destruct (parseMeteoResponse json); [discriminate|reflexivity].
Qed.

Lemma addLeg_data results req :
  throws req = false ->
  addLeg results (Some (fetch req)) = Some (results ++ legData req)%list.
Proof.
  unfold addLeg, throws, legData, readBody, andThen.
  destruct (fetch req) as [|[|] [json|]]; simpl; try discriminate;
    try (intros _; now rewrite app_nil_r).
  destruct (parseMeteoResponse json); [reflexivity|discriminate].
Qed.

Lemma addLeg_throws results req :
  throws req = true -> fetch req <> Rejected ->
  addLeg results (Some (fetch req)) = None.
Proof.
  unfold addLeg, throws, readBody, andThen.
  destruct (fetch req) as [|[|] [json|]]; simpl; try discriminate; try congruence.
  destruct (parseMeteoResponse json); [discriminate|reflexivity].
Qed.


Lemma dispatch startDate endDate : Dispatch startDate endDate.
Proof.
  unfold Weather.tryFetch.
  destruct (gtTime (getTime startDate) (Some (cutoffOf now))) eqn:G.
  { apply RecentOnly. unfold Weather.tryFetch. now rewrite G. }
  destruct (leTime (getTime endDate) (Some (cutoffOf now))) eqn:L.
  { apply HistoricalOnly. unfold Weather.tryFetch. now rewrite G, L. }
  set (a := mkRequest Archive startDate cutoffStr).
  set (f := mkRequest Forecast nextDayStr endDate).
  destruct (leTime (getTime nextDayStr) (getTime endDate)) eqn:N.
  - (* both legs *)
    assert (T : tryFetch startDate endDate
                = ([f; a],
                   match fetch a, fetch f with
                   | Rejected, _ => None
                   | _, Rejected => None
                   | ra, rf => andThen (addLeg [] (Some ra))
                                 (fun results => addLeg results (Some rf))
                   end)).
    { unfold Weather.tryFetch. rewrite G, L. fold cutoffStr nextDayStr.
      rewrite N. fold a f. cbn [option_map app].
      destruct (fetch a), (fetch f); reflexivity. }
    apply Straddling with (legs := [f]).
    + unfold Weather.requestsOf. now rewrite T.
    + now right.
    + intros H. unfold Weather.requestsOf in *. rewrite T in *. cbn [fst snd] in *.
      assert (Ha : throws a = false) by (apply H; right; now left).
      assert (Hf : throws f = false) by (apply H; now left).
      pose proof (addLeg_data [] a Ha) as Ea.
      pose proof (addLeg_data (legData a) f Hf) as Ef.
      unfold legsData. cbn [rev app map List.concat]. rewrite app_nil_r.
      destruct (fetch a) eqn:Fa; [unfold throws in Ha; now rewrite Fa in Ha|].
      destruct (fetch f) eqn:Ff; [unfold throws in Hf; now rewrite Ff in Hf|].
      rewrite Ea. cbn [andThen app]. exact Ef.
    + intros (req & Hin & Ht). unfold Weather.requestsOf in *.
      rewrite T in *. cbn [fst snd] in *.
      destruct (fetch a) eqn:Fa; [reflexivity|].
      destruct (fetch f) eqn:Ff; [reflexivity|].
      destruct (throws a) eqn:Ha.
      * rewrite <- Fa. rewrite addLeg_throws; [reflexivity|assumption|].
        rewrite Fa. discriminate.
      * rewrite <- Fa, (addLeg_data [] a Ha). cbn [andThen app].
        destruct Hin as [<- | [<- | []]]; [|congruence].
        rewrite <- Ff. apply addLeg_throws; [assumption|].
        rewrite Ff. discriminate.
  - (* the forecast leg is not issued *)
    assert (T : tryFetch startDate endDate
                = ([a],
                   match fetch a with
                   | Rejected => None
                   | ra => andThen (addLeg [] (Some ra))
                             (fun results => addLeg results None)
                   end)).
    { unfold Weather.tryFetch. rewrite G, L. fold cutoffStr nextDayStr.
      rewrite N. fold a. cbn [option_map app].
      destruct (fetch a); reflexivity. }
    apply Straddling with (legs := []).
    + unfold Weather.requestsOf. now rewrite T.
    + now left.
    + intros H. unfold Weather.requestsOf in *. rewrite T in *. cbn [fst snd] in *.
      assert (Ha : throws a = false) by (apply H; now left).
      pose proof (addLeg_data [] a Ha) as Ea.
      unfold legsData. cbn [rev app map List.concat]. rewrite app_nil_r.
      destruct (fetch a) eqn:Fa; [unfold throws in Ha; now rewrite Fa in Ha|].
      rewrite Ea. reflexivity.
    + intros (req & Hin & Ht). unfold Weather.requestsOf in *.
      rewrite T in *. cbn [fst snd] in *.
      destruct Hin as [<- | []].
      destruct (fetch a) eqn:Fa; [reflexivity|].
      rewrite <- Fa. rewrite addLeg_throws; [reflexivity|assumption|].
      rewrite Fa. discriminate.
Qed.

(** What a call returns, by the exceptions that the handling of its legs
    raises. *)
Lemma outcome startDate endDate :
  ((forall req, In req (requestsOf startDate endDate) -> throws req = false) ->
   fetchWeatherHistory startDate endDate
   = legsData (requestsOf startDate endDate)) /\
  ((exists req, In req (requestsOf startDate endDate) /\ throws req = true) ->
   fetchWeatherHistory startDate endDate = []).
Proof.
  unfold Weather.fetchWeatherHistory.
  destruct (dispatch startDate endDate) as [T | T | legs R _ Ok Ko].
  - unfold Weather.requestsOf. rewrite T. cbn [fst snd]. split.
    + intros _. unfold legsData. cbn [rev app map List.concat].
      rewrite app_nil_r. apply singleQuery_data.
    + intros (req & [<- | []] & Ht). now rewrite singleQuery_throws.
  - unfold Weather.requestsOf. rewrite T. cbn [fst snd]. split.
    + intros _. unfold legsData. cbn [rev app map List.concat].
      rewrite app_nil_r. apply singleQuery_data.
    + intros (req & [<- | []] & Ht). now rewrite singleQuery_throws.
  - split.
    + intros H. now rewrite (Ok H).
    + intros H. now rewrite (Ko H).
Qed.

Lemma some_throws_or_none (reqs : list Request) :
  (forall req, In req reqs -> throws req = false) \/
  (exists req, In req reqs /\ throws req = true).
Proof.
  induction reqs as [|r reqs [IH | (x & Hx & Tx)]].
  - left. intros req [].
  - destruct (throws r) eqn:T.
    + right. exists r. split; [now left|assumption].
    + left. intros req [<- | H]; auto.
  - right. exists x. split; [now right|assumption].
Qed.

(** C6 (as amended): the fetcher returns a list in every case; when the
    handling of no leg raises an exception, it returns the data of the legs,
    archive first, a leg with a non-success status counting for none; when
    the handling of some leg raises an exception (a transport error, or a
    body that cannot be read), it returns the empty list, whatever the other
    leg holds. *)
Theorem failures_absorbed startDate endDate :
  ((forall req, In req (requestsOf startDate endDate) -> throws req = false) ->
   fetchWeatherHistory startDate endDate
   = legsData (requestsOf startDate endDate)) /\
  ((exists req, In req (requestsOf startDate endDate) /\ throws req = true) ->
   fetchWeatherHistory startDate endDate = []).
Proof. exact (outcome startDate endDate). Qed.

Lemma before_midnight t n : (t <? midnight n)%Z = (dayOf t <? n)%Z.
Proof.
  unfold midnight, dayOf, msPerDay.
  pose proof (Z.mul_div_le t 86400000 eq_refl) as Lo.
  pose proof (Z.mul_succ_div_gt t 86400000 eq_refl) as Hi.
  destruct (t <? 86400000 * n)%Z eqn:A; destruct (t / 86400000 <? n)%Z eqn:B;
    try reflexivity;
    [apply Z.ltb_lt in A; apply Z.ltb_ge in B | apply Z.ltb_ge in A; apply Z.ltb_lt in B];
    lia.
Qed.

Lemma midnight_le_iff t n : (midnight n <=? t)%Z = (n <=? dayOf t)%Z.
Proof.
  rewrite !Z.leb_antisym. f_equal. apply before_midnight.
Qed.

Lemma midnight_le m n : (midnight m <=? midnight n)%Z = (m <=? n)%Z.
Proof.
  unfold midnight, msPerDay.
  destruct (m <=? n)%Z eqn:A;
    [apply Z.leb_le in A; apply Z.leb_le | apply Z.leb_gt in A; apply Z.leb_gt]; lia.
Qed.

(** Two days of one answer, or of the answers to two requests whose ranges
    do not meet, have different dates. *)
Lemma legs_disjoint a f ta tf :
  withinRange a -> withinRange f ->
  getTime (end_date a) = Some ta -> getTime (start_date f) = Some tf ->
  (ta < tf)%Z ->
  NoDup (map date (legData a ++ legData f)).
Proof.
  intros [Na Ra] [Nf Rf] Ha Hf Lt. rewrite map_app.
  apply NoDup_app; [assumption|assumption|].
  intros d Hda Hdf.
  apply in_map_iff in Hda as (w & <- & Hw).
  apply in_map_iff in Hdf as (w' & E & Hw').
  destruct (Ra w Hw) as (t & x & y & T & _ & Y & B).
  destruct (Rf w' Hw') as (t' & x' & y' & T' & X' & _ & B').
  rewrite E in T'. rewrite Ha in Y. rewrite Hf in X'.
  assert (t = t') by congruence. assert (y = ta) by congruence.
  assert (x' = tf) by congruence. lia.
Qed.

(** The dispatch on a host without a daylight-saving change after the
    cutoff.  With [cutoff] the UTC date of [now - 7 days], on a host that
    reads date-only strings as UTC midnights, prints timestamps as their UTC
    date, and whose local day after the cutoff ends on the next UTC date: a
    range that starts after the cutoff issues the forecast query alone, a
    range that ends on or before the cutoff the archive query alone, and a
    range that straddles it the archive query up to the cutoff and the
    forecast query from the day after; the archive results come first and,
    when the servers answer with the days asked for, no date comes twice. *)
Theorem range_dispatch startDate endDate (S E : Z) :
  getTime startDate = Some (midnight S) ->
  getTime endDate = Some (midnight E) ->
  (S <= E)%Z ->
  getTime cutoffStr = Some (midnight cutoffDay) ->
  getTime nextDayStr = Some (midnight (dayOf (nextLocalDay (cutoffOf now)))) ->
  dayOf (nextLocalDay (cutoffOf now)) = (cutoffDay + 1)%Z ->
  let reqs := requestsOf startDate endDate in
  ((cutoffDay < S)%Z -> reqs = [mkRequest Forecast startDate endDate]) /\
  ((E <= cutoffDay)%Z -> reqs = [mkRequest Archive startDate endDate]) /\
  ((S <= cutoffDay < E)%Z ->
   reqs = [mkRequest Forecast nextDayStr endDate;
           mkRequest Archive startDate cutoffStr]) /\
  ((forall req, In req reqs -> throws req = false) ->
   fetchWeatherHistory startDate endDate = legsData reqs) /\
  ((forall req, In req reqs -> withinRange req) ->
   NoDup (map date (fetchWeatherHistory startDate endDate))).
Proof.
  intros HS HE LE HC HN HD reqs. rewrite HD in HN.
  assert (G : gtTime (getTime startDate) (Some (cutoffOf now))
              = (cutoffDay <? S)%Z).
  { rewrite HS. cbn [gtTime]. apply before_midnight. }
  assert (L : leTime (getTime endDate) (Some (cutoffOf now))
              = (E <=? cutoffDay)%Z).
  { rewrite HE. cbn [leTime]. apply midnight_le_iff. }
  assert (N : leTime (getTime nextDayStr) (getTime endDate)
              = (cutoffDay + 1 <=? E)%Z).
  { rewrite HN, HE. cbn [leTime]. apply midnight_le. }
  assert (R1 : (cutoffDay < S)%Z -> reqs = [mkRequest Forecast startDate endDate]).
  { intros C. apply Z.ltb_lt in C. subst reqs.
    unfold Weather.requestsOf, Weather.tryFetch. now rewrite G, C. }
  assert (R2 : (E <= cutoffDay)%Z -> reqs = [mkRequest Archive startDate endDate]).
  { intros C. assert (C' : (cutoffDay <? S)%Z = false) by (apply Z.ltb_ge; lia).
    apply Z.leb_le in C. subst reqs.
    unfold Weather.requestsOf, Weather.tryFetch. now rewrite G, C', L, C. }
  assert (R3 : (S <= cutoffDay < E)%Z ->
               reqs = [mkRequest Forecast nextDayStr endDate;
                       mkRequest Archive startDate cutoffStr]).
  { intros [C1 C2].
    assert (C1' : (cutoffDay <? S)%Z = false) by (apply Z.ltb_ge; lia).
    assert (C2' : (E <=? cutoffDay)%Z = false) by (apply Z.leb_gt; lia).
    assert (C3 : (cutoffDay + 1 <=? E)%Z = true) by (apply Z.leb_le; lia).
    subst reqs. unfold Weather.requestsOf, Weather.tryFetch.
    rewrite G, C1', L, C2'. fold cutoffStr nextDayStr. rewrite N, C3.
    cbn [option_map].
    destruct (fetch (mkRequest Archive startDate cutoffStr));
      destruct (fetch (mkRequest Forecast nextDayStr endDate)); reflexivity. }
  split; [exact R1|]. split; [exact R2|]. split; [exact R3|].
  destruct (outcome startDate endDate) as [Ok Ko]. fold reqs in Ok, Ko.
  split; [exact Ok|].
  intros W.
  destruct (some_throws_or_none reqs) as [H | H];
    [rewrite (Ok H) | rewrite (Ko H); constructor].
  unfold legsData.
  destruct (Z_lt_dec cutoffDay S) as [C | C].
  { rewrite (R1 C) in *. cbn [rev app map List.concat]. rewrite app_nil_r.
    apply W. now left. }
  destruct (Z_le_dec E cutoffDay) as [C' | C'].
  { rewrite (R2 C') in *. cbn [rev app map List.concat]. rewrite app_nil_r.
    apply W. now left. }
  assert (C3 : (S <= cutoffDay < E)%Z) by lia.
  rewrite (R3 C3) in *. cbn [rev app map List.concat]. rewrite app_nil_r.
  apply legs_disjoint with (ta := midnight cutoffDay) (tf := midnight (cutoffDay + 1)).
  - apply W. right. now left.
  - apply W. now left.
  - exact HC.
  - exact HN.
  - unfold midnight, msPerDay. lia.
Qed.

End WithHost.



(** C5: the code asks for the cutoff date twice.  In a browser on Sydney
    time at 2024-10-12 00:30 UTC the cutoff is 2024-10-05 00:30 UTC; the day
    after it is computed on the local calendar, where that day has 23 hours,
    and printed as a UTC date, which is 2024-10-05 again.  For the range
    from 2024-10-01 to 2024-10-11 the archive is asked up to 2024-10-05 and
    the forecast from 2024-10-05 on, not from the day after the cutoff, and
    the date comes twice in the result. *)
Theorem cutoff_day_asked_twice :
  HostClock.toISODate (cutoffOf octoberNow) = "2024-10-05" /\
  HostClock.toISODate (sydneyNextDay (cutoffOf octoberNow)) = "2024-10-05" /\
  requestsOf HostDate.getTime HostClock.toISODate sydneyNextDay octoberNow
    bothEnds "2024-10-01" "2024-10-11"
  = [ mkRequest Forecast "2024-10-05" "2024-10-11";
      mkRequest Archive "2024-10-01" "2024-10-05" ] /\
  map date
    (fetchWeatherHistory HostDate.getTime HostClock.toISODate sydneyNextDay
       octoberNow bothEnds "2024-10-01" "2024-10-11")
  = [ "2024-10-01"; "2024-10-05"; "2024-10-05"; "2024-10-11" ].
Proof. repeat split; vm_compute; reflexivity. Qed.

(** C6 fails as stated: the two requests are awaited together, so a
    transport error on the archive leg discards the answer of the forecast
    leg as well. *)
Lemma transport_error_discards_other_leg :
  ~ FailuresStayLocal HostDate.getTime HostClock.toISODate HostClock.nextLocalDay
      now archiveDown "2024-03-01" "2024-03-14".
Proof.
  unfold FailuresStayLocal.
  assert (L : history now archiveDown "2024-03-01" "2024-03-14" = [])
    by (vm_compute; reflexivity).
  assert (R : legsData archiveDown (requests now archiveDown "2024-03-01" "2024-03-14")
              = [mkWeather "2024-03-09" 0 25]) by (vm_compute; reflexivity).
  unfold history, requests in L, R. rewrite L, R. discriminate.
Qed.


(** A non-success status on the archive leg leaves the forecast leg alone. *)
Example bad_status_keeps_other_leg :
  history now archiveRefuses "2024-03-01" "2024-03-14"
  = [mkWeather "2024-03-09" 0 25].
Proof. vm_compute. reflexivity. Qed.

Lemma failures_absorbed_witness :
  history now archiveDown "2024-03-01" "2024-03-14" = [].
Proof.
  apply (failures_absorbed HostDate.getTime HostClock.toISODate
           HostClock.nextLocalDay now archiveDown "2024-03-01" "2024-03-14").
  exists (mkRequest Archive "2024-03-01" "2024-03-08").
  split; [vm_compute; right; left; reflexivity | vm_compute; reflexivity].
Defined.

Lemma range_dispatch_witness :
  requests now echo "2024-03-01" "2024-03-14"
  = [mkRequest Forecast "2024-03-09" "2024-03-14";
     mkRequest Archive "2024-03-01" "2024-03-08"].
Proof.
  refine (proj1 (proj2 (proj2
    (range_dispatch HostDate.getTime HostClock.toISODate HostClock.nextLocalDay
       now echo "2024-03-01" "2024-03-14" 19783 19796 _ _ _ _ _ _))) _);
    try (vm_compute; reflexivity); try lia.
  replace (cutoffDay now) with 19790%Z by (vm_compute; reflexivity). lia.
Defined.

End WeatherProps.

(** ** The sheet import adapter *)

Module SheetProps.
Import Text Storage Sheet.

Definition publishedCsv : string := "https://example.com/pub?output=csv".

Lemma dropPrefix_none p s : prefix p s = false -> dropPrefix p s = None.
Proof.
  revert s. induction p as [|a p IH]; intros s H.
  - destruct s; discriminate H.
  - destruct s as [|b s]; [reflexivity|].
    simpl in H. simpl.
    destruct (ascii_dec a b) as [<-|N].
    + rewrite Ascii.eqb_refl. now apply IH.
    + apply Ascii.eqb_neq in N. now rewrite N.
Qed.

(** A URL without [/d/] holds no document identifier. *)
Lemma no_marker_no_id url : includes "/d/" url = false -> idMatch url = None.
Proof.
  induction url as [|c r IH]; [reflexivity|].
  intros H. cbn [includes] in H. apply orb_false_iff in H as [P I].
  cbn [idMatch]. rewrite (dropPrefix_none _ _ P). now apply IH.
Qed.

Section WithHost.

Variable getTime : string -> option Z.
Variable rand : nat -> string.
Variable fetch : string -> SheetFetched.

(** The claim of the specification: a URL without a document identifier is
    refused before any request. *)
Definition NoIdNoRequest : Prop :=
  forall url st,
    idMatch url = None ->
    fetchGoogleSheet getTime rand fetch url st = ([], Failed invalidUrl, st).

(** C8 (as amended): a URL that does not contain [output=csv] and from
    which no document identifier can be extracted fails with the
    invalid-URL reason, without a request and with the slot untouched. *)
Theorem no_id_no_request url st :
  includes "output=csv" url = false ->
  idMatch url = None ->
  fetchGoogleSheet getTime rand fetch url st = ([], Failed invalidUrl, st).
Proof.
  intros P I. unfold fetchGoogleSheet, exportUrl. now rewrite P, I.
Qed.

(** A URL that contains [output=csv] is requested as it is. *)
Lemma passthrough_requested url st :
  includes "output=csv" url = true ->
  fst (fst (fetchGoogleSheet getTime rand fetch url st)) = [url].
Proof.
  intros P. unfold fetchGoogleSheet, exportUrl. rewrite P.
  destruct (fetch url) as [m | r]; [reflexivity|].
  destruct (match contentType r with
            | Some ct => includes "text/html" ct
            | None => false
            end); [reflexivity|].
  destruct (negb (ok r)); [reflexivity|].
  destruct (text r) as [csv | m]; [|reflexivity].
  destruct (importFromCSV getTime rand csv st) as [obs st'].
  destruct (List.length obs =? 0); reflexivity.
Qed.

End WithHost.


(** C8 fails as stated: a URL that contains [output=csv] is passed through
    to the network without looking for an identifier. *)
Lemma passthrough_skips_id_check :
  ~ NoIdNoRequest HostDate.getTime StorageExamples.ids (SheetExamples.serves "").
Proof.
  intros C. specialize (C publishedCsv None eq_refl).
  assert (R : fst (fst (fetchGoogleSheet HostDate.getTime StorageExamples.ids
                          (SheetExamples.serves "") publishedCsv None))
              = [publishedCsv])
    by (apply passthrough_requested; reflexivity).
  rewrite C in R. discriminate R.
Qed.

Lemma no_id_no_request_witness :
  fetchGoogleSheet HostDate.getTime StorageExamples.ids (SheetExamples.serves "")
    "https://docs.google.com/spreadsheets/" None
  = ([], Failed invalidUrl, None).
Proof.
  apply no_id_no_request; reflexivity.
Defined.

End SheetProps.

(** ** The observation store: reading back, repeating and undoing *)

Module StoreExtras.
Import Text DateText Num Storage StoreProps.



Lemma withId_own (o : Observation) : withId o (id o) = o.
Proof. now destruct o. Qed.

Lemma filter_all {A : Type} (p : A -> bool) (l : list A) :
  (forall x, In x l -> p x = true) -> filter p l = l.
Proof.
  induction l as [|x t IH]; simpl; intros H; [reflexivity|].
  rewrite (H x (or_introl eq_refl)). f_equal. apply IH.
  intros y Hy. apply H. now right.
Qed.

Section WithHost.

Variable getTime : string -> option Z.
Variable rand : nat -> string.

Local Abbreviation sortByDate := (sortByDate getTime).
Local Abbreviation insertSorted := (insertSorted getTime).
Local Abbreviation getObservations := (getObservations getTime).
Local Abbreviation saveObservation := (saveObservation getTime).
Local Abbreviation deleteObservation := (deleteObservation getTime).
Local Abbreviation importFromCSV := (importFromCSV getTime rand).
Local Abbreviation parseRows := (parseRows getTime rand).
Local Abbreviation hasTime := (hasTime getTime).
Local Abbreviation newerFirst := (newerFirst getTime).
Local Abbreviation perform := (perform getTime rand).


(** The stored observations of the date of [obs]. *)
Definition sameDate (obs o : Observation) : bool :=
  String.eqb (date o) (date obs).

Lemma insertSorted_front x l :
  hasTime x -> Forall hasTime l -> Forall (newerFirst x) l ->
  insertSorted x l = x :: l.
Proof.
  intros (tx & Hx) Hl Hn. destruct l as [|y t]; [reflexivity|].
  inversion Hl as [|? ? (ty & Hy) _]; subst.
  inversion Hn as [|? ? N _]; subst.
  simpl. unfold goesAfter, byDateDesc. rewrite Hy, Hx.
  specialize (N tx ty Hx Hy).
  destruct (0 <? ty - tx)%Z eqn:C; [|reflexivity].
  apply Z.ltb_lt in C. lia.
Qed.

(** A list that is in order already is left as it is by the sort. *)
Lemma sortByDate_fixed l :
  Forall hasTime l -> StronglySorted newerFirst l -> sortByDate l = l.
Proof.
  intros V S. induction S as [|x t S IH N]; [reflexivity|].
  inversion V; subst. simpl. rewrite IH by assumption.
  now apply insertSorted_front.
Qed.

Lemma sortByDate_valid l : Forall hasTime (sortByDate l) <-> Forall hasTime l.
Proof.
  split; apply Permutation_Forall;
    [apply sortByDate_perm | symmetry; apply sortByDate_perm].
Qed.

Lemma sortByDate_idem l :
  Forall hasTime l -> sortByDate (sortByDate l) = sortByDate l.
Proof.
  intros V. apply sortByDate_fixed.
  - now apply sortByDate_valid.
  - now apply sortByDate_sorted.
Qed.

Lemma current_valid st :
  Forall hasTime (getObservations st) ->
  StronglySorted newerFirst (getObservations st).
Proof.
  destruct st as [l|]; simpl; [|constructor].
  intros V. apply sortByDate_sorted. now apply sortByDate_valid.
Qed.


(** The order depends on the dates alone. *)
Lemma sorted_same_dates l l' :
  map date l = map date l' ->
  StronglySorted newerFirst l -> StronglySorted newerFirst l'.
Proof.
  intros E S. revert l' E.
  induction S as [|x t S IH N]; intros [|x' t'] E; try discriminate E.
  - constructor.
  - simpl in E. injection E as Ex Et. constructor; [now apply IH|].
    rewrite Forall_forall in *. intros y' Hy'.
    assert (Hd : In (date y') (map date t)).
    { rewrite Et. now apply in_map. }
    apply in_map_iff in Hd as (y & Ey & Hy).
    specialize (N y Hy). unfold StoreProps.newerFirst in *.
    rewrite <- Ex, <- Ey. exact N.
Qed.

Lemma valid_same_dates l l' :
  map date l = map date l' -> Forall hasTime l -> Forall hasTime l'.
Proof.
  intros E V. rewrite Forall_forall in *. intros y' Hy'.
  assert (Hd : In (date y') (map date l)).
  { rewrite E. now apply in_map. }
  apply in_map_iff in Hd as (y & Ey & Hy).
  destruct (V y Hy) as (t & Ht). exists t. now rewrite <- Ey.
Qed.


(** X2: saving is idempotent: saving the same record a second time returns
    and stores what the first call did, when the host can read the date of
    the record and of the stored observations. *)
Theorem save_twice obs st :
  Forall hasTime (obs :: getObservations st) ->
  saveObservation obs (snd (saveObservation obs st)) = saveObservation obs st.
Proof.
  intros V. inversion V as [|? ? Vo Vc]; subst.
  pose proof (current_valid st Vc) as Sc.
  destruct (upsert_cases getTime obs st) as (updated & E & C).
  assert (Vu : Forall hasTime updated).
  { destruct C as [(l1 & o & l2 & Ec & Ed & _ & ->) | (_ & ->)]; [|exact V].
    apply (valid_same_dates (getObservations st)); [|exact Vc].
    rewrite Ec, !map_app. simpl. now rewrite Ed. }
  rewrite E. cbn [snd].
  destruct (upsert_cases getTime obs (Some (sortByDate updated)))
    as (updated' & E' & C').
  rewrite E'. cbn [Storage.getObservations] in C'.
  rewrite (sortByDate_idem _ Vu) in C'.
  enough (sortByDate updated' = sortByDate updated) as -> by reflexivity.
  destruct C as [(l1 & o & l2 & Ec & Ed & H1 & ->) | (Hnew & ->)].
  - assert (Fix : sortByDate (l1 ++ withId obs (id o) :: l2)
                  = (l1 ++ withId obs (id o) :: l2)%list).
    { apply sortByDate_fixed; [exact Vu|].
      apply (sorted_same_dates (getObservations st)); [|exact Sc].
      rewrite Ec, !map_app. simpl. now rewrite Ed. }
    rewrite Fix in C'.
    destruct C' as [(l1' & o' & l2' & Ec' & Ed' & H1' & ->) | (Hnew' & _)].
    + destruct (first_match_unique _ _ _ _ _ _ (date obs) Ec' eq_refl Ed' H1 H1')
        as (<- & <- & <-).
      reflexivity.
    + exfalso. apply (Hnew' (withId obs (id o))); [apply in_elt | reflexivity].
  - pose proof (sortByDate_perm getTime (obs :: getObservations st)) as P.
    destruct C' as [(l1' & o' & l2' & Ec' & Ed' & H1' & ->) | (Hnew' & _)].
    + assert (Ho : o' = obs).
      { assert (Hin : In o' (obs :: getObservations st)).
        { apply (Permutation_in _ P). rewrite Ec'. apply in_elt. }
        destruct Hin as [<- | Hin]; [reflexivity|].
        now elim (Hnew o' Hin). }
      subst o'. rewrite withId_own, <- Ec'.
      now apply sortByDate_idem.
    + exfalso. apply (Hnew' obs); [|reflexivity].
      apply (Permutation_in _ (Permutation_sym P)). now left.
Qed.

(** X3: after [saveObservation] the values of the record are stored under
    its date, the observations of every other date are the ones that were
    stored, and the count grows by one exactly when the date was not
    stored. *)
Theorem save_keeps_others obs st :
  let current := getObservations st in
  let result := fst (saveObservation obs st) in
  (exists o, In o result /\ date o = date obs /\ bats o = bats obs /\
             figs o = figs obs /\ leaves o = leaves obs) /\
  (forall x, date x <> date obs -> (In x result <-> In x current)) /\
  List.length result
  = (if existsb (sameDate obs) current then List.length current
     else S (List.length current)).
Proof.
  cbv zeta.
  destruct (upsert_cases getTime obs st) as (updated & E & C). rewrite E. cbn [fst].
  pose proof (sortByDate_perm getTime updated) as P.
  destruct C as [(l1 & o & l2 & Ec & Ed & H1 & ->) | (Hnew & ->)].
  - split; [|split].
    + exists (withId obs (id o)). split; [|now repeat split].
      apply (Permutation_in _ (Permutation_sym P)). apply in_elt.
    + intros x Hx. rewrite Ec. split; intros Hin.
      * apply (Permutation_in _ P) in Hin.
        apply in_app_or in Hin as [Hin | [<- | Hin]].
        -- apply in_or_app. now left.
        -- now elim Hx.
        -- apply in_or_app. right. now right.
      * apply (Permutation_in _ (Permutation_sym P)).
        apply in_app_or in Hin as [Hin | [<- | Hin]].
        -- apply in_or_app. now left.
        -- now elim Hx.
        -- apply in_or_app. right. now right.
    + rewrite (Permutation_length P), Ec, !length_app. simpl.
      replace (existsb (sameDate obs) (l1 ++ o :: l2)) with true; [reflexivity|].
      symmetry. apply existsb_exists. exists o. split; [apply in_elt|].
      unfold sameDate. now apply String.eqb_eq.
  - split; [|split].
    + exists obs. split; [|now repeat split].
      apply (Permutation_in _ (Permutation_sym P)). now left.
    + intros x Hx. split; intros Hin.
      * apply (Permutation_in _ P) in Hin. destruct Hin as [<- | Hin]; [now elim Hx | exact Hin].
      * apply (Permutation_in _ (Permutation_sym P)). now right.
    + rewrite (Permutation_length P). simpl.
      replace (existsb (sameDate obs) (getObservations st)) with false; [reflexivity|].
      symmetry. apply not_true_is_false. intros Ex.
      apply existsb_exists in Ex as (x & Hx & Dx).
      apply String.eqb_eq in Dx. now apply (Hnew x Hx).
Qed.

(** X4: [deleteObservation] removes every observation of the given id, and
    only those; the rest is written to the slot; an id that no stored
    observation has leaves the list as [getObservations] gives it. *)
Theorem delete_spec i st :
  let current := getObservations st in
  let result := fst (deleteObservation i st) in
  snd (deleteObservation i st) = Some result /\
  (forall x, In x result <-> In x current /\ id x <> i) /\
  ((forall x, In x current -> id x <> i) -> result = current).
Proof.
  cbv zeta. unfold Storage.deleteObservation. cbn [fst snd].
  split; [reflexivity|]. split.
  - intros x. rewrite filter_In, negb_true_iff. split; intros [Hin Hx]; split; auto.
    + now apply String.eqb_neq.
    + now apply String.eqb_neq.
  - intros H. apply filter_all. intros x Hx.
    apply negb_true_iff, String.eqb_neq. now apply H.
Qed.

(** X5: deleting a record that was just saved under a new date and with an
    id that no stored observation has gives back the list as it was, when
    the host can read the date of the record and of the stored
    observations. *)
Theorem delete_undoes_save obs st :
  Forall hasTime (obs :: getObservations st) ->
  (forall x, In x (getObservations st) -> date x <> date obs) ->
  (forall x, In x (getObservations st) -> id x <> id obs) ->
  deleteObservation (id obs) (snd (saveObservation obs st))
  = (getObservations st, Some (getObservations st)).
Proof.
  intros V Hd Hi. inversion V as [|? ? Vo Vc]; subst.
  pose proof (current_valid st Vc) as Sc.
  destruct (upsert_cases getTime obs st) as (updated & E & C). rewrite E. cbn [snd].
  destruct C as [(l1 & o & l2 & Ec & Ed & _ & _) | (_ & ->)].
  { exfalso. apply (Hd o); [rewrite Ec; apply in_elt | exact Ed]. }
  unfold Storage.deleteObservation. cbn [Storage.getObservations].
  rewrite sortByDate_idem by exact V.
  set (keep := fun o => negb (String.eqb (id o) (id obs))).
  assert (F : filter keep (sortByDate (obs :: getObservations st))
              = getObservations st).
  { simpl. rewrite (sortByDate_fixed _ Vc Sc).
    generalize (getObservations st) Hi. intros l Hl.
    induction l as [|y t IH]; simpl.
    - unfold keep. now rewrite String.eqb_refl.
    - assert (Ky : keep y = true).
      { unfold keep. apply negb_true_iff, String.eqb_neq. apply Hl. now left. }
      destruct (goesAfter getTime obs y); simpl.
      + rewrite Ky. f_equal. apply IH. intros x Hx. apply Hl. now right.
      + unfold keep at 1. rewrite String.eqb_refl. simpl. rewrite Ky. f_equal.
        apply filter_all. intros x Hx.
        apply negb_true_iff, String.eqb_neq. apply Hl. now right. }
  now rewrite F.
Qed.

End WithHost.


Lemma save_twice_witness :
  saveObservation HostDate.getTime obsB
    (snd (saveObservation HostDate.getTime obsB (Some [obsA])))
  = saveObservation HostDate.getTime obsB (Some [obsA]).
Proof.
  apply save_twice. repeat constructor; eexists; reflexivity.
Defined.

Lemma delete_undoes_save_witness :
  deleteObservation HostDate.getTime "b"
    (snd (saveObservation HostDate.getTime obsB (Some [obsA])))
  = ([obsA], Some [obsA]).
Proof.
  apply (delete_undoes_save HostDate.getTime obsB (Some [obsA])).
  - repeat constructor; eexists; reflexivity.
  - intros x [<- | []]. discriminate.
  - intros x [<- | []]. discriminate.
Defined.

End StoreExtras.

(** ** What an import stores *)

Module ImportExtras.
Import Text DateText Num Storage TextFacts NumFacts LineFacts.
Import DateProps ParserProps StoreProps RoundTrip.

(** A value that [Math.round] returns for a number: an integer or an
    infinity. *)
Definition whole (n : number) : Prop :=
  match n with
  | NaN => False
  | Inf _ => True
  | Fin q => exists z : Z, n = ofZ z
  end.

(** A date as the normalizer writes it: a year of three or four digits, a
    month and a day of two digits each, joined by hyphens. *)
Definition normalized (s : string) : Prop :=
  exists y m d,
    s = y ++ "-" ++ m ++ "-" ++ d /\
    allChars isDigit y = true /\ allChars isDigit m = true /\
    allChars isDigit d = true /\
    3 <= length y <= 4 /\ length m = 2 /\ length d = 2.

Definition clean (o : Observation) : Prop :=
  normalized (date o) /\ whole (figs o) /\ whole (bats o) /\ whole (leaves o).

(** An integer that a number holds exactly. *)
Definition integral (n : number) : Prop :=
  exists z : Z, n = ofZ z /\ safeInt z.

Lemma round_whole v : isNaN v = false -> whole (round v).
Proof.
  destruct v as [| b | q]; simpl; intros H; [discriminate|exact I|].
  now eexists.
Qed.

Section WithHost.

Variable getTime : string -> option Z.
Variable rand : nat -> string.
Variable showOther : Q -> string.

Local Abbreviation importLine := (importLine getTime rand).
Local Abbreviation parseRows := (parseRows getTime rand).
Local Abbreviation importFromCSV := (importFromCSV getTime rand).
Local Abbreviation sortByDate := (sortByDate getTime).

(** An observation that [exportToCSV] writes as a row of a well-formed
    text. *)
Definition storable (o : Observation) : Prop :=
  isYMD (date o) = true /\ isValidDate getTime (date o) = true /\
  integral (figs o) /\ integral (bats o) /\ integral (leaves o).

(** The observations with the ids drawn by an import, from the [k]-th
    draw on. *)
Fixpoint reIds (k : nat) (data : list Observation) : list Observation :=
  match data with
  | [] => []
  | o :: t => withId o (rand k) :: reIds (S k) t
  end.

Lemma parseDate_normalized raw out :
  parseDate getTime raw = Some out -> normalized out.
Proof.
  intros H.
  destruct (parseDate_cases getTime _ _ H)
    as (y & m & d & -> & Hy & Hm & Hd & Lm & Ld & C).
  assert (Ly : 3 <= length y <= 4).
  { destruct (formOf raw) as [[|k|]|]; [destruct C; lia| |lia|contradiction].
    destruct k as [|[|[|k]]]; destruct C; lia. }
  exists y, m, d. repeat split; auto; lia.
Qed.

Lemma leavesValue_number fields : isNaN (leavesValue fields) = false.
Proof.
  unfold leavesValue. destruct (4 <=? List.length fields); [|reflexivity].
  destruct (isNaN (parseValue (field 3 fields))) eqn:E; [reflexivity|exact E].
Qed.

(** One turn of the loop leaves the records alone or pushes one clean
    record with the next id. *)
Lemma importLine_step delimiter observations rawLine :
  importLine delimiter observations rawLine = observations \/
  exists r,
    importLine delimiter observations rawLine = (observations ++ [r])%list /\
    id r = rand (List.length observations) /\ clean r.
Proof.
  destruct (acceptable_dec getTime (fieldsOf delimiter (trim rawLine))) as [A|R].
  - right. pose proof A as (_ & _ & F & B).
    destruct (importLine_accepts getTime rand delimiter observations rawLine A)
      as (d & Pd & E).
    eexists. split; [exact E|]. split; [reflexivity|].
    repeat split; cbn [date figs bats leaves].
    + exact (parseDate_normalized _ _ Pd).
    + now apply round_whole.
    + now apply round_whole.
    + apply round_whole, leavesValue_number.
  - left. now apply importLine_rejects.
Qed.

(** The ids of the records are the successive draws, whatever the lines. *)
Definition numberedIds (observations : list Observation) : Prop :=
  map id observations = map rand (seq 0 (List.length observations)).

Lemma fold_importLine delimiter lines observations :
  numberedIds observations -> Forall clean observations ->
  let result := fold_left (importLine delimiter) lines observations in
  numberedIds result /\ Forall clean result /\
  List.length result <= List.length observations + List.length lines.
Proof.
  revert observations.
  induction lines as [|l lines IH]; intros obs N C; cbn [fold_left].
  - cbv zeta. repeat split; auto. simpl. lia.
  - destruct (importLine_step delimiter obs l) as [-> | (r & -> & Ir & Cr)].
    + destruct (IH obs N C) as (N' & C' & L'). cbv zeta.
      repeat split; auto. simpl. lia.
    + destruct (IH (obs ++ [r])%list) as (N' & C' & L').
      * unfold numberedIds in *. rewrite map_app, length_app. simpl.
        rewrite Nat.add_1_r, seq_S, map_app, N, Ir. reflexivity.
      * apply Forall_app. split; [exact C|]. now constructor.
      * cbv zeta. repeat split; auto.
        rewrite length_app in L'. simpl in *. lia.
Qed.

Lemma parseRows_inv input :
  numberedIds (parseRows input) /\ Forall clean (parseRows input) /\
  List.length (parseRows input) <= List.length (splitLines (trim input)).
Proof.
  unfold Storage.parseRows.
  exact (fold_importLine (detectDelimiter (splitLines (trim input)))
           (splitLines (trim input)) [] eq_refl (Forall_nil _)).
Qed.

(** What [importFromCSV] returns, in terms of the records of the loop. *)
Lemma import_result input st :
  Permutation (fst (importFromCSV input st)) (parseRows input) \/
  fst (importFromCSV input st) = [].
Proof.
  unfold Storage.importFromCSV.
  destruct (String.eqb input "" || String.eqb (trim input) ""); [now right|].
  destruct (0 <? List.length (parseRows input)); left; cbn [fst].
  - apply sortByDate_perm.
  - reflexivity.
Qed.

(** X6: every observation that [importFromCSV] returns has a date in the
    normalizer's output shape (digits, month and day of two digits, hyphens)
    and three values that are integers or infinities, never [NaN]. *)
Theorem import_records_clean input st :
  Forall clean (fst (importFromCSV input st)).
Proof.
  destruct (import_result input st) as [P | ->]; [|constructor].
  eapply Permutation_Forall; [symmetry; exact P|].
  apply parseRows_inv.
Qed.

(** X7: [importFromCSV] returns at most one observation per line of the
    trimmed input, and their ids are pairwise distinct when the draws of
    the random source for that many lines are. *)
Theorem import_ids_distinct input st :
  NoDup (map rand (seq 0 (List.length (splitLines (trim input))))) ->
  NoDup (map id (fst (importFromCSV input st))) /\
  List.length (fst (importFromCSV input st))
  <= List.length (splitLines (trim input)).
Proof.
  intros D. destruct (parseRows_inv input) as (N & _ & L).
  destruct (import_result input st) as [P | ->];
    [|split; [constructor | simpl; lia]].
  split; [|now rewrite (Permutation_length P)].
  eapply Permutation_NoDup; [apply Permutation_map; symmetry; exact P|].
  rewrite N.
  set (n := List.length (parseRows input)) in *.
  set (m := List.length (splitLines (trim input))) in *.
  replace m with (n + (m - n)) in D by lia.
  rewrite seq_app, map_app in D. now apply NoDup_app_remove_r in D.
Qed.

Lemma exportRow_withId o i :
  exportRow showOther (withId o i) = exportRow showOther o.
Proof. reflexivity. Qed.

Lemma storable_wellFormed o :
  storable o -> wellFormed getTime (rowOf o) /\ forall k, toObs rand k (rowOf o) = withId o (rand k).
Proof.
  destruct o as [i d b f l].
  intros (Y & V & (zf & Ef & Sf) & (zb & Eb & Sb) & (zl & El & Sl)).
  cbn [date figs bats leaves] in *. subst f b l.
  unfold rowOf, toObs, wellFormed, withId, intOf, ofZ.
  cbn [date figs bats leaves rdate rfigs rbats rleaves].
  rewrite !Qfloor_Z. repeat split; auto.
Qed.

Lemma numbered_reIds k data :
  Forall storable data -> numbered rand k (map rowOf data) = reIds k data.
Proof.
  intros H. revert k. induction H as [|o t Ho _ IH]; intros k; simpl.
  - reflexivity.
  - destruct (storable_wellFormed o Ho) as [_ E]. now rewrite E, IH.
Qed.

Lemma export_rendered data :
  Forall storable data ->
  exportToCSV showOther data = renderCSV true (map rowOf data).
Proof.
  intros H. unfold exportToCSV, renderCSV, unlines. cbn [app]. do 2 f_equal.
  rewrite map_map. apply map_ext_in. intros o Ho.
  rewrite Forall_forall in H.
  destruct (storable_wellFormed o (H o Ho)) as [W E].
  rewrite <- (exportRow_toObs getTime rand showOther 0 _ W), E.
  symmetry. apply exportRow_withId.
Qed.

(** X8: importing the text that [exportToCSV] writes for observations of
    canonical, valid dates and exact integer values gives the same
    observations under the ids of the import, sorted again; they replace
    the content of the slot unless there was nothing to export. *)
Theorem export_then_import data st :
  Forall storable data ->
  importFromCSV (exportToCSV showOther data) st
  = match data with
    | [] => ([], st)
    | _ => (sortByDate (reIds 0 data), Some (sortByDate (reIds 0 data)))
    end.
Proof.
  intros H. rewrite (export_rendered data H).
  assert (W : Forall (wellFormed getTime) (map rowOf data)).
  { apply Forall_map. revert H. apply Forall_impl.
    intros o Ho. now apply storable_wellFormed. }
  assert (Hne : linesOf true (map rowOf data) <> []) by discriminate.
  pose proof (parseRows_rendered getTime rand true _ W Hne) as P.
  pose proof (linesOf_solid getTime true _ W) as S.
  pose proof (trim_unlines _ S) as T.
  destruct (trimEnd_unlines _ S) as [_ N]. specialize (N Hne).
  change (unlines (linesOf true (map rowOf data)))
    with (renderCSV true (map rowOf data)) in T, N.
  unfold Storage.importFromCSV. rewrite T, P.
  apply String.eqb_neq in N. rewrite N. cbn [orb].
  rewrite (numbered_reIds 0 data H).
  destruct data; reflexivity.
Qed.

End WithHost.

Lemma import_ids_distinct_witness :
  NoDup (map id (fst (StorageExamples.import StorageExamples.tsv None))) /\
  List.length (fst (StorageExamples.import StorageExamples.tsv None)) <= 3.
Proof.
  apply (import_ids_distinct HostDate.getTime StorageExamples.ids
           StorageExamples.tsv None).
  vm_compute. repeat constructor; simpl; intuition discriminate.
Defined.

Lemma export_then_import_witness :
  StorageExamples.import (StorageExamples.export [obsA; obsB]) None
  = ([ withId obsA "id0"; withId obsB "id1" ],
     Some [ withId obsA "id0"; withId obsB "id1" ]).
Proof.
  apply (export_then_import HostDate.getTime StorageExamples.ids
           StorageExamples.noFraction [obsA; obsB] None).
  repeat constructor; try reflexivity;
    eexists; (split; [reflexivity | unfold safeInt; simpl; lia]).
Defined.

End ImportExtras.

(** ** The Date Normalizer, form by form *)

Module DateExtras.
Import Text DateText TextFacts LineFacts.

Lemma trimStart_idem s : trimStart (trimStart s) = trimStart s.
Proof.
  induction s as [|c r IH]; [reflexivity|].
  cbn [trimStart]. destruct (isWhiteSpace c) eqn:W; [exact IH|].
  cbn [trimStart]. now rewrite W.
Qed.

Lemma trim_idem s : trim (trim s) = trim s.
Proof.
  unfold trim at 2. rewrite trim_trimEnd. unfold trim.
  now rewrite trimStart_idem.
Qed.

Lemma trimEnd_solid_app d x : solid d = true -> trimEnd (d ++ x) = d ++ trimEnd x.
Proof.
  induction d as [|c d IH]; intros S; [reflexivity|].
  unfold solid in *. cbn [allChars] in S. apply andb_true_iff in S as [Sc Sd].
  apply negb_true_iff in Sc.
  change (String c d ++ x) with (String c (d ++ x)).
  change (String c d ++ trimEnd x) with (String c (d ++ trimEnd x)).
  cbn [trimEnd]. rewrite (IH Sd).
  destruct (d ++ trimEnd x); [now rewrite Sc | reflexivity].
Qed.

Lemma solid_no_blank d :
  solid d = true -> allChars (fun c => negb (Ascii.eqb c " "%char)) d = true.
Proof.
  apply allChars_impl. intros c Hc.
  apply negb_true_iff in Hc. apply negb_true_iff.
  destruct (Ascii.eqb c " "%char) eqn:E; [|reflexivity].
  apply blank_is_space in E. congruence.
Qed.

(** The date part of a solid text followed by a space and anything. *)
Lemma datePartOf_before_space d t :
  solid d = true -> d <> "" ->
  datePartOf (trim (d ++ String " "%char t)) = d.
Proof.
  intros S N. unfold trim.
  assert (T : trimStart (d ++ String " "%char t) = d ++ String " "%char t).
  { destruct d as [|c d]; [congruence|].
    simpl in S. apply andb_true_iff in S as [Sc _].
    apply negb_true_iff in Sc. now apply trimStart_head. }
  rewrite T, (trimEnd_solid_app _ _ S). cbn [trimEnd].
  destruct (trimEnd t) as [|a u].
  - change (isWhiteSpace " "%char) with true. cbn iota.
    rewrite append_nil_r. now apply datePartOf_no_space.
  - unfold datePartOf. rewrite split_field by now apply solid_no_blank.
    reflexivity.
Qed.

Lemma digitRuns3_digits s : allChars isDigit s = true -> digitRuns3 s = None.
Proof.
  intros H. unfold digitRuns3.
  rewrite <- (append_nil_r s) at 1.
  now rewrite (span_digits_app s "" H I).
Qed.

Lemma allChars_includes p c s :
  allChars p s = true -> includesChar c s = true -> p c = true.
Proof.
  induction s as [|a s IH]; simpl; intros A I; [discriminate|].
  apply andb_true_iff in A as [Aa As].
  apply orb_true_iff in I as [E | I]; [|now apply IH].
  apply Ascii.eqb_eq in E. now subst a.
Qed.

Lemma includesChar_app c a b :
  includesChar c (a ++ b) = includesChar c a || includesChar c b.
Proof.
  induction a as [|x a IH]; simpl; [reflexivity|].
  now rewrite IH, orb_assoc.
Qed.

Section WithHost.

Variable getTime : string -> option Z.

Local Abbreviation parseDate := (parseDate getTime).

(** X9: white space around the input does not change what the normalizer
    returns. *)
Theorem parseDate_trim raw : parseDate (trim raw) = parseDate raw.
Proof.
  unfold DateText.parseDate. rewrite trim_idem.
  destruct raw as [|c r]; [reflexivity|].
  destruct (trim (String c r)) eqn:E; reflexivity.
Qed.

(** X10: what follows the first space after a date is ignored: a text
    without white space, followed by a space and anything, is normalized as
    the text alone. *)
Theorem parseDate_ignores_time d t :
  solid d = true -> d <> "" ->
  parseDate (d ++ String " "%char t) = parseDate d.
Proof.
  intros S N. unfold DateText.parseDate.
  rewrite (datePartOf_before_space d t S N).
  rewrite (solid_trim d S), (datePartOf_no_space d S).
  destruct d as [|c d]; [congruence|]. reflexivity.
Qed.

(** X11: the year-first form: four digits, a separator ([-] or [/]), one
    or two digits, a separator, one or two digits.  Month and day are
    padded to two digits, and the result is returned only if the host takes
    it for a date. *)
Theorem year_first_form raw y c1 m c2 d :
  datePartOf (trim raw) = y ++ String c1 (m ++ String c2 d) ->
  allChars isDigit y = true -> length y = 4 ->
  allChars isDigit m = true -> between 1 2 (length m) = true ->
  allChars isDigit d = true -> between 1 2 (length d) = true ->
  isSep c1 = true -> isSep c2 = true ->
  parseDate raw
  = (if isValidDate getTime (y ++ "-" ++ padStart2 m ++ "-" ++ padStart2 d)
     then Some (y ++ "-" ++ padStart2 m ++ "-" ++ padStart2 d) else None).
Proof.
  intros P Hy Ly Hm Lm Hd Ld H1 H2.
  unfold DateText.parseDate. destruct raw as [|c0 r0].
  { destruct y; [discriminate Ly | discriminate P]. }
  rewrite P. unfold isoMatch. rewrite digitRuns3_build by auto.
  rewrite Ly, Lm, Ld. reflexivity.
Qed.

(** X12: the day-first form with a year of three or four digits: the year
    is kept, month and day are padded to two digits, and the host is not
    asked whether the result is a date. *)
Theorem day_first_long_year raw d c1 m c2 y :
  datePartOf (trim raw) = d ++ String c1 (m ++ String c2 y) ->
  allChars isDigit d = true -> between 1 2 (length d) = true ->
  allChars isDigit m = true -> between 1 2 (length m) = true ->
  allChars isDigit y = true -> between 3 4 (length y) = true ->
  isSep c1 = true -> isSep c2 = true ->
  parseDate raw = Some (y ++ "-" ++ padStart2 m ++ "-" ++ padStart2 d).
Proof.
  intros P Hd Ld Hm Lm Hy Ly H1 H2.
  unfold DateText.parseDate. destruct raw as [|c0 r0].
  { destruct d; [discriminate Ld | discriminate P]. }
  rewrite P. unfold isoMatch, slashMatch. rewrite digitRuns3_build by auto.
  assert (L4 : (length d =? 4) = false).
  { unfold between in Ld. apply andb_true_iff in Ld as [_ L].
    apply Nat.leb_le in L. apply Nat.eqb_neq. lia. }
  assert (B : between 2 4 (length y) = true /\ (length y =? 2) = false).
  { unfold between in *. apply andb_true_iff in Ly as [L3 L4'].
    apply Nat.leb_le in L3, L4'. split.
    - apply andb_true_iff. split; apply Nat.leb_le; lia.
    - apply Nat.eqb_neq. lia. }
  destruct B as [B2 N2].
  rewrite L4, Ld, Lm, B2. cbn [andb]. now rewrite N2.
Qed.

(** X13: the compact form: eight digits are read as day, month and year,
    and the host is not asked whether the result is a date. *)
Theorem compact_form raw dd mm yyyy :
  datePartOf (trim raw) = dd ++ mm ++ yyyy ->
  allChars isDigit dd = true -> length dd = 2 ->
  allChars isDigit mm = true -> length mm = 2 ->
  allChars isDigit yyyy = true -> length yyyy = 4 ->
  parseDate raw = Some (yyyy ++ "-" ++ mm ++ "-" ++ dd).
Proof.
  intros P Hd Ld Hm Lm Hy Ly.
  unfold DateText.parseDate. destruct raw as [|c0 r0].
  { destruct dd; [discriminate Ld | discriminate P]. }
  rewrite P.
  assert (A : allChars isDigit (dd ++ mm ++ yyyy) = true).
  { now rewrite !allChars_app, Hd, Hm, Hy. }
  unfold isoMatch, slashMatch, compactMatch.
  rewrite (digitRuns3_digits _ A), A.
  destruct dd as [|a1 [|a2 [|? ?]]]; try discriminate Ld.
  destruct mm as [|a3 [|a4 [|? ?]]]; try discriminate Lm.
  destruct yyyy as [|a5 [|a6 [|a7 [|a8 [|? ?]]]]]; try discriminate Ly.
  reflexivity.
Qed.

(** X14: an input whose date part holds a character that is neither a
    digit nor [-] nor [/] is rejected: this is what makes a header line fall
    out of an import. *)
Theorem parseDate_rejects_text raw c :
  includesChar c (datePartOf (trim raw)) = true ->
  isDigit c = false -> isSep c = false ->
  parseDate raw = None.
Proof.
  intros I Nd Ns. unfold DateText.parseDate.
  destruct raw as [|c0 r0]; [reflexivity|].
  set (p := datePartOf (trim (String c0 r0))) in *. clearbody p.
  assert (R : digitRuns3 p = None).
  { destruct (digitRuns3 p) as [[[a b] e]|] eqn:R; [|reflexivity].
    apply digitRuns3_spec in R as (c1 & c2 & -> & Ha & Hb & He & H1 & H2).
    exfalso.
    rewrite includesChar_app in I. cbn [includesChar] in I.
    rewrite includesChar_app in I. cbn [includesChar] in I.
    repeat (apply orb_true_iff in I as [I | I]).
    - rewrite (allChars_includes _ _ _ Ha I) in Nd. discriminate.
    - apply Ascii.eqb_eq in I. subst c1. congruence.
    - rewrite (allChars_includes _ _ _ Hb I) in Nd. discriminate.
    - apply Ascii.eqb_eq in I. subst c2. congruence.
    - rewrite (allChars_includes _ _ _ He I) in Nd. discriminate. }
  unfold isoMatch, slashMatch, compactMatch. rewrite R.
  destruct (allChars isDigit p) eqn:A.
  - rewrite (allChars_includes _ _ _ A I) in Nd. discriminate.
  - now rewrite andb_false_r.
Qed.

End WithHost.

Lemma parseDate_ignores_time_witness :
  parseDate HostDate.getTime "01/10/2023 10:00"
  = parseDate HostDate.getTime "01/10/2023".
Proof.
  apply (parseDate_ignores_time HostDate.getTime "01/10/2023" "10:00").
  - reflexivity.
  - discriminate.
Defined.

Lemma year_first_form_witness :
  parseDate HostDate.getTime " 2023/1/5 " = Some "2023-01-05".
Proof.
  exact (year_first_form HostDate.getTime " 2023/1/5 "
           "2023" "/"%char "1" "/"%char "5"
           eq_refl eq_refl eq_refl eq_refl eq_refl eq_refl eq_refl eq_refl eq_refl).
Defined.

Lemma day_first_long_year_witness :
  parseDate HostDate.getTime "31/13/2024" = Some "2024-13-31".
Proof.
  exact (day_first_long_year HostDate.getTime "31/13/2024"
           "31" "/"%char "13" "/"%char "2024"
           eq_refl eq_refl eq_refl eq_refl eq_refl eq_refl eq_refl eq_refl eq_refl).
Defined.

Lemma compact_form_witness :
  parseDate HostDate.getTime "99992024" = Some "2024-99-99".
Proof.
  exact (compact_form HostDate.getTime "99992024" "99" "99" "2024"
           eq_refl eq_refl eq_refl eq_refl eq_refl eq_refl eq_refl).
Defined.

Lemma parseDate_rejects_text_witness :
  parseDate HostDate.getTime "Date" = None.
Proof.
  exact (parseDate_rejects_text HostDate.getTime "Date" "D"%char
           eq_refl eq_refl eq_refl).
Defined.

End DateExtras.

(** ** The sheet import adapter: identifiers and failures *)

Module SheetExtras.
Import Text Num Storage Sheet TextFacts StoreProps SheetProps.

(** [/d/] followed by one character. *)
Definition marker (c : ascii) : string := "/d/" ++ String c "".

Lemma dropPrefix_spec p s rest : dropPrefix p s = Some rest <-> s = p ++ rest.
Proof.
  revert s. induction p as [|a p IH]; intros s; simpl.
  - split; intros H; [now inversion H | now subst].
  - destruct s as [|b s]; [split; discriminate|].
    destruct (Ascii.eqb a b) eqn:E.
    + apply Ascii.eqb_eq in E. subst b. rewrite IH.
      split; intros H; [now subst | now inversion H].
    + split; [discriminate|]. intros H. inversion H; subst.
      now rewrite Ascii.eqb_refl in E.
Qed.

Lemma prefix_app a b : prefix a (a ++ b) = true.
Proof.
  induction a as [|c a IH]; simpl; [now destruct b|].
  destruct (ascii_dec c c); [exact IH | congruence].
Qed.

Lemma prefix_spec a s : prefix a s = true -> exists b, s = a ++ b.
Proof.
  revert s. induction a as [|c a IH]; intros s H; simpl in *.
  - now exists s.
  - destruct s as [|c' s]; simpl in H; [discriminate|].
    destruct (ascii_dec c c') as [<-|]; [|discriminate].
    destruct (IH s H) as (b & ->). now exists b.
Qed.

Lemma span_spec p s a r :
  span p s = (a, r) -> s = a ++ r /\ allChars p a = true.
Proof.
  revert a r. induction s as [|c s IH]; simpl; intros a r H.
  - inversion H; subst. auto.
  - destruct (p c) eqn:Pc.
    + destruct (span p s) as [a' r'] eqn:E. inversion H; subst.
      destruct (IH a' r eq_refl) as (-> & Ha). simpl. now rewrite Pc.
    + inversion H; subst. auto.
Qed.

Lemma runOf_spec p s run :
  runOf p s = Some run ->
  run <> "" /\ allChars p run = true /\ exists rest, s = run ++ rest.
Proof.
  unfold runOf. destruct (span p s) as [a r] eqn:E. cbn [fst].
  destruct (span_spec _ _ _ _ E) as (-> & Ha).
  destruct a as [|c a]; [discriminate|].
  intros H. inversion H; subst. repeat split; [discriminate|exact Ha|].
  now exists r.
Qed.

Lemma runOf_head p c s : p c = true -> runOf p (String c s) <> None.
Proof.
  intros Pc. unfold runOf. simpl. rewrite Pc.
  destruct (span p s). discriminate.
Qed.

(** What [importFromCSV] does to the slot, by what it returns. *)
Lemma import_slot getTime rand input st :
  importFromCSV getTime rand input st = ([], st) \/
  exists obs, obs <> [] /\ importFromCSV getTime rand input st = (obs, Some obs).
Proof.
  unfold importFromCSV.
  destruct (String.eqb input "" || String.eqb (trim input) ""); [now left|].
  destruct (parseRows getTime rand input) as [|x l] eqn:E; [now left|].
  right. cbn [List.length Nat.ltb Nat.leb].
  eexists. split; [|reflexivity].
  intros N. pose proof (sortByDate_perm getTime (x :: l)) as P.
  rewrite N in P. now apply Permutation_nil in P.
Qed.

Lemma rethrow_message m : exists m', rethrow m = Failed m' /\ m' <> "".
Proof.
  unfold rethrow. destruct (String.eqb m "") eqn:E.
  - eexists. split; [reflexivity|discriminate].
  - exists m. split; [reflexivity|]. now apply String.eqb_neq.
Qed.

(** X15: the identifier that is taken from a URL is a non-empty run of
    letters, digits, [-] and [_] that follows [/d/] in it; and none is found
    exactly when [/d/] is nowhere followed by such a character. *)
Theorem idMatch_spec url :
  (forall i, idMatch url = Some i ->
     i <> "" /\ allChars isIdChar i = true /\ includes ("/d/" ++ i) url = true) /\
  (idMatch url = None <->
   forall c, isIdChar c = true -> includes (marker c) url = false).
Proof.
  induction url as [|c0 r [IHs IHn]].
  - split; [discriminate|]. split; [reflexivity|]. intros _. reflexivity.
  - cbn [idMatch].
    destruct (dropPrefix "/d/" (String c0 r)) as [rest|] eqn:D.
    + apply dropPrefix_spec in D.
      destruct (runOf isIdChar rest) as [run|] eqn:R.
      * destruct (runOf_spec _ _ _ R) as (Ne & Ha & tail & ->). split.
        -- intros i H. inversion H; subst i. repeat split; auto.
           cbn [includes]. rewrite D, <- append_assoc, prefix_app. reflexivity.
        -- split; [discriminate|]. intros H. exfalso.
           destruct run as [|c run]; [congruence|].
           simpl in Ha. apply andb_true_iff in Ha as [Hc _].
           specialize (H c Hc). cbn [includes] in H.
           apply orb_false_iff in H as [H _]. rewrite D in H.
           unfold marker in H.
           change ("/d/" ++ String c run ++ tail)
             with (("/d/" ++ String c "") ++ (run ++ tail)) in H.
           now rewrite prefix_app in H.
      * split.
        -- intros i H. destruct (IHs i H) as (A & B & C).
           repeat split; auto. cbn [includes]. rewrite C. apply orb_true_r.
        -- rewrite IHn. split; intros H c Hc.
           ++ cbn [includes]. rewrite (H c Hc), orb_false_r.
              destruct (prefix (marker c) (String c0 r)) eqn:P; [|reflexivity].
              apply prefix_spec in P as (b & P). rewrite P in D.
              unfold marker in D. rewrite append_assoc in D.
              simpl in D. injection D as <-.
              now elim (runOf_head isIdChar c b Hc).
           ++ specialize (H c Hc). cbn [includes] in H.
              now apply orb_false_iff in H as [_ H].
    + split.
      * intros i H. destruct (IHs i H) as (A & B & C).
        repeat split; auto. cbn [includes]. rewrite C. apply orb_true_r.
      * rewrite IHn. split; intros H c Hc.
        -- cbn [includes]. rewrite (H c Hc), orb_false_r.
           destruct (prefix (marker c) (String c0 r)) eqn:P; [|reflexivity].
           apply prefix_spec in P as (b & P).
           assert (D' : dropPrefix "/d/" (String c0 r) = Some (String c b)).
           { apply dropPrefix_spec. rewrite P. unfold marker.
             now rewrite append_assoc. }
           congruence.
        -- specialize (H c Hc). cbn [includes] in H.
           now apply orb_false_iff in H as [_ H].
Qed.

Section WithHost.

Variable getTime : string -> option Z.
Variable rand : nat -> string.
Variable fetch : string -> SheetFetched.

(** The ways in which [fetchGoogleSheet] settles. *)
Lemma fetchGoogleSheet_cases url st :
  let '(requests, outcome, st') := fetchGoogleSheet getTime rand fetch url st in
  List.length requests <= 1 /\
  match outcome with
  | Failed message => message <> "" /\ st' = st
  | Resolved obs => List.length requests = 1 /\ obs <> [] /\ st' = Some obs
  end.
Proof.
  unfold fetchGoogleSheet.
  destruct (exportUrl url) as [fetchUrl | message] eqn:U.
  - destruct (fetch fetchUrl) as [m | r].
    + destruct (rethrow_message m) as (m' & -> & N). simpl. auto.
    + destruct (match contentType r with
                | Some ct => includes "text/html" ct
                | None => false
                end).
      { split; [simpl; lia|]. split; [discriminate|reflexivity]. }
      destruct (negb (ok r)).
      { split; [simpl; lia|]. split; [discriminate|reflexivity]. }
      destruct (text r) as [csv | m].
      * destruct (import_slot getTime rand csv st) as [-> | (obs & N & ->)].
        -- split; [simpl; lia|]. split; [discriminate|reflexivity].
        -- destruct obs as [|x l]; [congruence|].
           cbn [List.length Nat.eqb]. simpl. repeat split; auto.
      * destruct (rethrow_message m) as (m' & -> & N). simpl. auto.
  - unfold exportUrl in U.
    destruct (includes "output=csv" url); [discriminate|].
    destruct (idMatch url); inversion U; subst.
    split; [simpl; lia|]. split; [discriminate|reflexivity].
Qed.

(** X16: [fetchGoogleSheet] issues at most one request; when it fails, the
    error carries a non-empty message and the slot is what it was; when it
    resolves, one request was made, the observations are not empty and they
    are the new content of the slot. *)
Theorem fetch_settles url st :
  let '(requests, outcome, st') := fetchGoogleSheet getTime rand fetch url st in
  List.length requests <= 1 /\
  match outcome with
  | Failed message => message <> "" /\ st' = st
  | Resolved obs => List.length requests = 1 /\ obs <> [] /\ st' = Some obs
  end.
Proof. exact (fetchGoogleSheet_cases url st). Qed.

End WithHost.

End SheetExtras.

(** ** The weather range fetcher: reading a response, unreadable dates *)

Module WeatherExtras.
Import Text Weather WeatherExamples WeatherProps.






Section WithHost.

Variable getTime : string -> option Z.
Variable toISODate : Z -> string.
Variable nextLocalDay : Z -> Z.
Variable now : Z.
Variable fetch : Request -> Fetched.

Local Abbreviation requestsOf := (requestsOf getTime toISODate nextLocalDay now fetch).

Lemma leTime_nan a : leTime a None = false.
Proof. now destruct a. Qed.

(** X18: an end date that the host cannot read is not an error.  A range
    that starts after the cutoff is asked of the forecast endpoint with the
    end date as given; any other range is asked of the archive endpoint
    alone, from the start date to the cutoff date. *)
Theorem unreadable_end_date startDate endDate :
  getTime endDate = None ->
  requestsOf startDate endDate
  = (if gtTime (getTime startDate) (Some (cutoffOf now))
     then [mkRequest Forecast startDate endDate]
     else [mkRequest Archive startDate (toISODate (cutoffOf now))]).
Proof.
  intros H. unfold Weather.requestsOf, tryFetch. rewrite H.
  destruct (gtTime (getTime startDate) (Some (cutoffOf now))); [reflexivity|].
  cbn [leTime]. rewrite leTime_nan. cbn [option_map].
  destruct (fetch (mkRequest Archive startDate (toISODate (cutoffOf now))));
    reflexivity.
Qed.

(** X19: a call issues one request or two; a request to the archive
    endpoint starts at the start date of the call, a request to the
    forecast endpoint ends at its end date, and no endpoint is asked
    twice. *)
Theorem requests_shape startDate endDate :
  let reqs := requestsOf startDate endDate in
  1 <= List.length reqs <= 2 /\
  NoDup (map endpoint reqs) /\
  forall req, In req reqs ->
    match endpoint req with
    | Archive => start_date req = startDate
    | Forecast => end_date req = endDate
    end.
Proof.
  cbv zeta.
  destruct (dispatch getTime toISODate nextLocalDay now fetch startDate endDate)
    as [T | T | legs R L _ _].
  - unfold Weather.requestsOf. rewrite T. cbn [fst]. repeat split; simpl; try lia.
    + repeat constructor. intros [].
    + intros req [<- | []]. reflexivity.
  - unfold Weather.requestsOf. rewrite T. cbn [fst]. repeat split; simpl; try lia.
    + repeat constructor. intros [].
    + intros req [<- | []]. reflexivity.
  - rewrite R. destruct L as [-> | ->]; repeat split; simpl; try lia.
    + repeat constructor. intros [].
    + intros req [<- | []]. reflexivity.
    + repeat constructor; simpl; [intros [E | []]; discriminate E | intros []].
    + intros req [<- | [<- | []]]; reflexivity.
Qed.

End WithHost.


Lemma unreadable_end_date_witness :
  requests WeatherExamples.now echo "2024-03-01" "soon"
  = [mkRequest Archive "2024-03-01" "2024-03-08"].
Proof.
  exact (unreadable_end_date HostDate.getTime HostClock.toISODate
           HostClock.nextLocalDay WeatherExamples.now echo "2024-03-01" "soon" eq_refl).
Defined.

End WeatherExtras.

(** ** The observations that go with a question *)

Module GeminiProps.
Import Text Num Storage StoreProps Gemini.

(** The clock read backwards: sorting oldest first is sorting newest first
    on it. *)
Definition backwards (getTime : string -> option Z) (s : string) : option Z :=
  option_map Z.opp (getTime s).

Lemma last_in {A : Type} (a : A) (l : list A) (d : A) :
  In (last (a :: l) d) (a :: l).
Proof.
  revert a. induction l as [|b l IH]; intros a; [now left|].
  right. apply IH.
Qed.

Lemma sorted_last {A : Type} (R : A -> A -> Prop) (l : list A) (d : A) :
  StronglySorted R l -> forall x, In x l -> x = last l d \/ R x (last l d).
Proof.
  induction 1 as [|a t S IH F]; intros x Hx; [contradiction|].
  destruct t as [|b t'].
  - destruct Hx as [<- | []]. now left.
  - change (last (a :: b :: t') d) with (last (b :: t') d).
    destruct Hx as [<- | Hx]; [|now apply IH].
    right. rewrite Forall_forall in F. apply F. apply last_in.
Qed.

Section WithHost.

Variable getTime : string -> option Z.
Variable showOther : Q -> string.
Variable today : string.

Local Abbreviation sortAsc := (sortAsc getTime).
Local Abbreviation getRange := (getRange getTime today).
Local Abbreviation hasTime := (hasTime getTime).

(** [a] may stand before [b] in a list sorted by date ascending. *)
Definition olderFirst (a b : Observation) : Prop :=
  forall ta tb,
    getTime (date a) = Some ta -> getTime (date b) = Some tb -> (ta <= tb)%Z.

Lemma goesAfterAsc_backwards a b :
  goesAfterAsc getTime a b = goesAfter (backwards getTime) a b.
Proof.
  unfold goesAfterAsc, goesAfter, byDateAsc, byDateDesc, backwards.
  destruct (getTime (date a)) as [ta|], (getTime (date b)) as [tb|];
    simpl; try reflexivity.
  f_equal. lia.
Qed.

Lemma sortAsc_backwards l : sortAsc l = sortByDate (backwards getTime) l.
Proof.
  induction l as [|x t IH]; simpl; [reflexivity|]. rewrite IH.
  generalize (sortByDate (backwards getTime) t). intros s.
  induction s as [|y s IHs]; simpl; [reflexivity|].
  now rewrite goesAfterAsc_backwards, IHs.
Qed.

Lemma sortAsc_perm l : Permutation (sortAsc l) l.
Proof. rewrite sortAsc_backwards. apply sortByDate_perm. Qed.

Lemma sortAsc_sorted l :
  Forall hasTime l -> StronglySorted olderFirst (sortAsc l).
Proof.
  intros V. rewrite sortAsc_backwards.
  assert (V' : Forall (StoreProps.hasTime (backwards getTime)) l).
  { revert V. apply Forall_impl. intros o (t & Ht).
    exists (- t)%Z. unfold backwards. now rewrite Ht. }
  pose proof (sortByDate_sorted (backwards getTime) l V') as S.
  induction S as [|x t S IH F]; constructor; [exact IH|].
  revert F. apply Forall_impl. intros y N ta tb Ha Hb.
  specialize (N (- ta)%Z (- tb)%Z). unfold backwards in N.
  rewrite Ha, Hb in N. specialize (N eq_refl eq_refl). lia.
Qed.

(** The first of a sorted list is its oldest, the last its newest. *)
Lemma sortAsc_ends first rest :
  Forall hasTime (first :: rest) ->
  let sorted := sortAsc (first :: rest) in
  In (hd first sorted) (first :: rest) /\
  In (last sorted first) (first :: rest) /\
  forall o, In o (first :: rest) ->
    olderFirst (hd first sorted) o /\ olderFirst o (last sorted first).
Proof.
  intros V. cbv zeta.
  pose proof (sortAsc_perm (first :: rest)) as P.
  pose proof (sortAsc_sorted _ V) as S.
  destruct (sortAsc (first :: rest)) as [|s0 ss] eqn:E.
  { apply Permutation_nil in P. discriminate P. }
  assert (Refl : forall o, olderFirst o o).
  { intros o ta tb Ha Hb. rewrite Ha in Hb. inversion Hb. lia. }
  pose proof (last_in s0 ss first) as Hl.
  split; [|split].
  - apply (Permutation_in _ P). now left.
  - now apply (Permutation_in _ P).
  - intros o Ho. apply (Permutation_in _ (Permutation_sym P)) in Ho. split.
    + destruct Ho as [<- | Ho]; [apply Refl|].
      inversion S as [|? ? _ F]; subst. rewrite Forall_forall in F.
      now apply F.
    + destruct (sorted_last _ _ first S o Ho) as [-> | R]; [apply Refl|exact R].
Qed.

(** X20: for observations whose dates the host can read, [getRange]
    returns the dates of two of them, and the time of every observation
    lies between those of [start] and [end]; in particular [start] is not
    after [end], as [fetchWeatherHistory] expects. *)
Theorem getRange_bounds data :
  data <> [] -> Forall hasTime data ->
  In (fst (getRange data)) (map date data) /\
  In (snd (getRange data)) (map date data) /\
  exists ts te,
    getTime (fst (getRange data)) = Some ts /\
    getTime (snd (getRange data)) = Some te /\
    (ts <= te)%Z /\
    forall o t, In o data -> getTime (date o) = Some t -> (ts <= t <= te)%Z.
Proof.
  intros Ne V. destruct data as [|first rest]; [congruence|].
  destruct (sortAsc_ends first rest V) as (Hs & He & B).
  unfold Gemini.getRange. cbn [fst snd].
  set (s := hd first (sortAsc (first :: rest))) in *.
  set (e := last (sortAsc (first :: rest)) first) in *.
  rewrite Forall_forall in V.
  destruct (V s Hs) as (ts & Hts). destruct (V e He) as (te & Hte).
  split; [now apply in_map|]. split; [now apply in_map|].
  exists ts, te. repeat split; auto.
  - destruct (B e He) as [L _]. now apply L.
  - destruct (B o H) as [L _]. now apply L.
  - destruct (B o H) as [_ U]. now apply U.
Qed.

(** X21: [getContextString] sorts the array of its caller in place, oldest
    first, so the date that [analyzeData] then reads from [data[0]] as the
    current reference date is the start of the range: the date of an
    observation that none precedes, when the host can read the dates. *)
Theorem reference_date_is_oldest history data :
  data <> [] -> Forall hasTime data ->
  let '(_, latestDate, after) :=
    promptData getTime showOther today history data in
  after = sortAsc data /\
  latestDate = fst (getRange data) /\
  exists t0,
    getTime latestDate = Some t0 /\
    forall o t, In o data -> getTime (date o) = Some t -> (t0 <= t)%Z.
Proof.
  intros Ne V. destruct data as [|first rest]; [congruence|].
  destruct (sortAsc_ends first rest V) as (Hs & _ & B).
  unfold promptData, Gemini.getRange, getContextString.
  pose proof (sortAsc_perm (first :: rest)) as P.
  destruct (sortAsc (first :: rest)) as [|s0 ss] eqn:E.
  { apply Permutation_nil in P. discriminate P. }
  cbn [hd fst] in *. split; [reflexivity|]. split; [reflexivity|].
  rewrite Forall_forall in V. destruct (V s0 Hs) as (t0 & Ht0).
  exists t0. split; [exact Ht0|].
  intros o t Ho Ht. destruct (B o Ho) as [L _]. now apply L.
Qed.

End WithHost.

Lemma getRange_bounds_witness :
  In (fst (getRange HostDate.getTime "2024-03-15" [obsA; obsB]))
     (map date [obsA; obsB]) /\
  In (snd (getRange HostDate.getTime "2024-03-15" [obsA; obsB]))
     (map date [obsA; obsB]) /\
  exists ts te,
    HostDate.getTime (fst (getRange HostDate.getTime "2024-03-15" [obsA; obsB]))
    = Some ts /\
    HostDate.getTime (snd (getRange HostDate.getTime "2024-03-15" [obsA; obsB]))
    = Some te /\
    (ts <= te)%Z /\
    forall o t, In o [obsA; obsB] -> HostDate.getTime (date o) = Some t ->
                (ts <= t <= te)%Z.
Proof.
  apply (getRange_bounds HostDate.getTime "2024-03-15" [obsA; obsB]).
  - discriminate.
  - repeat constructor; eexists; reflexivity.
Defined.

Lemma reference_date_is_oldest_witness :
  let '(_, latestDate, after) :=
    promptData HostDate.getTime StorageExamples.noFraction "2024-03-15"
      (fun _ _ => []) [obsA; obsB] in
  after = sortAsc HostDate.getTime [obsA; obsB] /\
  latestDate = fst (getRange HostDate.getTime "2024-03-15" [obsA; obsB]) /\
  exists t0,
    HostDate.getTime latestDate = Some t0 /\
    forall o t, In o [obsA; obsB] -> HostDate.getTime (date o) = Some t ->
                (t0 <= t)%Z.
Proof.
  apply (reference_date_is_oldest HostDate.getTime StorageExamples.noFraction
           "2024-03-15" (fun _ _ => []) [obsA; obsB]).
  - discriminate.
  - repeat constructor; eexists; reflexivity.
Defined.

(** The store lists the newest observation first; the reference date of
    the prompt is the date of the oldest. *)
Example reference_date_of_two :
  promptData HostDate.getTime StorageExamples.noFraction "2024-03-15"
    (fun _ _ => []) [obsA; obsB]
  = ("2024-01-01: Bats=4%, Figs=5%, Leaves=6%"
       ++ String LF "2024-01-05: Bats=1%, Figs=2%, Leaves=3%",
     "2024-01-01", [obsB; obsA]).
Proof. vm_compute. reflexivity. Qed.

Example context_with_weather :
  fst (getContextString HostDate.getTime StorageExamples.noFraction [obsB]
         [Weather.mkWeather "2024-01-01" 12 31; Weather.mkWeather "2024-01-02" 0 30])
  = "2024-01-01: Bats=4%, Figs=5%, Leaves=6% | Weather: 31" ++ degree
      ++ "C, 12mm Rain".
Proof. vm_compute. reflexivity. Qed.

End GeminiProps.

(** ** The two versions of the weather service *)

Module ArchiveProps.
Import Text Weather WeatherExamples.

Section WithHost.

Variable getTime : string -> option Z.
Variable toISODate : Z -> string.
Variable nextLocalDay : Z -> Z.
Variable now : Z.
Variable fetch : Request -> Fetched.

(** X22: on a range that does not start after the cutoff and that ends on
    it or before, the present [fetchWeatherHistory] does what the earlier
    one did: the same single request to the archive endpoint, and the same
    list returned, whatever the network answers. *)
Theorem historical_agrees startDate endDate :
  gtTime (getTime startDate) (Some (cutoffOf now)) = false ->
  leTime (getTime endDate) (Some (cutoffOf now)) = true ->
  (requestsOf getTime toISODate nextLocalDay now fetch startDate endDate,
   fetchWeatherHistory getTime toISODate nextLocalDay now fetch startDate endDate)
  = ArchiveWeather.fetchWeatherHistory fetch startDate endDate.
Proof.
  intros G L.
  unfold ArchiveWeather.fetchWeatherHistory, requestsOf, fetchWeatherHistory, tryFetch.
  rewrite G, L. cbn [fst snd]. f_equal. unfold singleQuery, readBody.
  destruct (fetch (mkRequest Archive startDate endDate)) as [|ok body];
    [reflexivity|].
  destruct (negb ok); reflexivity.
Qed.

End WithHost.

Lemma historical_agrees_witness :
  (requests now echo "2024-03-01" "2024-03-08",
   history now echo "2024-03-01" "2024-03-08")
  = ArchiveWeather.fetchWeatherHistory echo "2024-03-01" "2024-03-08".
Proof.
  apply (historical_agrees HostDate.getTime HostClock.toISODate
           HostClock.nextLocalDay now echo "2024-03-01" "2024-03-08");
    vm_compute; reflexivity.
Defined.

End ArchiveProps.

(** ** The application shell *)

Module AppProps.
Import Text Num Storage Sheet StoreProps SheetExtras GeminiProps App.

(** The state of the component when the start-up effect runs. *)
Definition initial : View := mkView [] [] false.

(** [a] is not after [b] in the order of the code units. *)
Definition notAfter (a b : string) : Prop := String.ltb b a = false.

Lemma finiteTimes_some dates ts :
  finiteTimes dates = Some ts -> dates = map Some ts.
Proof.
  revert ts. induction dates as [|[t|] rest IH]; simpl; intros ts H.
  - now inversion H.
  - destruct (finiteTimes rest) as [ts'|]; [|discriminate].
    inversion H; subst. simpl. now rewrite (IH ts' eq_refl).
  - discriminate.
Qed.

Lemma finiteTimes_none dates : finiteTimes dates = None -> In None dates.
Proof.
  induction dates as [|[t|] rest IH]; simpl; intros H.
  - discriminate.
  - destruct (finiteTimes rest); [discriminate|]. right. now apply IH.
  - now left.
Qed.

Lemma fold_min ts t :
  (fold_left Z.min ts t <= t)%Z /\
  (forall x, In x ts -> (fold_left Z.min ts t <= x)%Z) /\
  In (fold_left Z.min ts t) (t :: ts).
Proof.
  revert t. induction ts as [|a ts IH]; intros t; simpl.
  - repeat split; [lia | contradiction | now left].
  - destruct (IH (Z.min t a)) as (L & A & I). repeat split.
    + lia.
    + intros x [<- | Hx]; [lia | now apply A].
    + destruct I as [I | I]; [|now right; right].
      rewrite <- I. destruct (Z.min_spec t a) as [[_ ->] | [_ ->]]; auto.
Qed.

Lemma fold_max ts t :
  (t <= fold_left Z.max ts t)%Z /\
  (forall x, In x ts -> (x <= fold_left Z.max ts t)%Z) /\
  In (fold_left Z.max ts t) (t :: ts).
Proof.
  revert t. induction ts as [|a ts IH]; intros t; simpl.
  - repeat split; [lia | contradiction | now left].
  - destruct (IH (Z.max t a)) as (L & A & I). repeat split.
    + lia.
    + intros x [<- | Hx]; [lia | now apply A].
    + destruct I as [I | I]; [|now right; right].
      rewrite <- I. destruct (Z.max_spec t a) as [[_ ->] | [_ ->]]; auto.
Qed.

(** The extremes of the timestamps of some observations. *)
Lemma extremes getTime (l : list Observation) :
  match mathMin (map (fun d => getTime (date d)) l),
        mathMax (map (fun d => getTime (date d)) l) with
  | Some lo, Some hi =>
      (lo <= hi)%Z /\
      (exists o, In o l /\ getTime (date o) = Some lo) /\
      (exists o, In o l /\ getTime (date o) = Some hi) /\
      forall o, In o l ->
        exists t, getTime (date o) = Some t /\ (lo <= t <= hi)%Z
  | None, None => l = [] \/ exists o, In o l /\ getTime (date o) = None
  | _, _ => False
  end.
Proof.
  unfold mathMin, mathMax.
  destruct (finiteTimes (map (fun d => getTime (date d)) l)) as [[|t ts]|] eqn:F.
  - left. apply finiteTimes_some in F. now destruct l.
  - apply finiteTimes_some in F.
    destruct (fold_min ts t) as (L1 & A1 & I1).
    destruct (fold_max ts t) as (L2 & A2 & I2).
    assert (Back : forall x, In x (t :: ts) ->
                     exists o, In o l /\ getTime (date o) = Some x).
    { intros x Hx. apply (in_map Some) in Hx. rewrite <- F in Hx.
      apply in_map_iff in Hx as (o & E & Ho). now exists o. }
    assert (Forth : forall o, In o l ->
                      exists x, getTime (date o) = Some x /\ In x (t :: ts)).
    { intros o Ho.
      assert (H : In (getTime (date o)) (map Some (t :: ts))).
      { rewrite <- F. now apply (in_map (fun d => getTime (date d))). }
      apply in_map_iff in H as (x & E & Hx). now exists x. }
    repeat split; auto; try lia.
    intros o Ho. destruct (Forth o Ho) as (x & E & Hx). exists x.
    split; [exact E|].
    destruct Hx as [<- | Hx]; [lia|].
    specialize (A1 x Hx). specialize (A2 x Hx). lia.
  - right. apply finiteTimes_none in F.
    apply in_map_iff in F as (o & E & Ho). now exists o.
Qed.

Lemma setAdd_in years x y : In y (setAdd years x) <-> In y years \/ y = x.
Proof.
  unfold setAdd. destruct (existsb (String.eqb x) years) eqn:E.
  - split; [now left|]. intros [H | ->]; [exact H|].
    apply existsb_exists in E as (z & Hz & Ez).
    apply String.eqb_eq in Ez. now subst.
  - rewrite in_app_iff. simpl. intuition.
Qed.

Lemma setAdd_nodup years x : NoDup years -> NoDup (setAdd years x).
Proof.
  intros N. unfold setAdd. destruct (existsb (String.eqb x) years) eqn:E; [exact N|].
  apply NoDup_app; [exact N | repeat constructor; intros [] |].
  intros y Hy [<- | []].
  assert (T : existsb (String.eqb x) years = true).
  { apply existsb_exists. exists x. split; [exact Hy | apply String.eqb_refl]. }
  congruence.
Qed.

Lemma fold_setAdd l years :
  NoDup years ->
  NoDup (fold_left setAdd l years) /\
  forall y, In y (fold_left setAdd l years) <-> In y years \/ In y l.
Proof.
  revert years. induction l as [|x l IH]; intros years N; simpl.
  - split; [exact N|]. intuition.
  - destruct (IH (setAdd years x) (setAdd_nodup _ _ N)) as [N' I'].
    split; [exact N'|]. intros y. rewrite I', setAdd_in. intuition.
Qed.

Lemma ltb_lt a b :
  String.ltb a b = true <-> OrderedTypeEx.String_as_OT.lt a b.
Proof.
  unfold String.ltb. rewrite <- OrderedTypeEx.String_as_OT.cmp_lt.
  unfold OrderedTypeEx.String_as_OT.cmp.
  destruct (String.compare a b); split; congruence.
Qed.

Lemma ltb_asym a b : String.ltb a b = true -> String.ltb b a = false.
Proof.
  unfold String.ltb. rewrite (String.compare_antisym a b).
  destruct (String.compare b a); simpl; congruence.
Qed.

Lemma notAfter_strict a b : notAfter a b -> a <> b -> String.ltb a b = true.
Proof.
  unfold notAfter, String.ltb. intros H N.
  rewrite (String.compare_antisym a b).
  destruct (String.compare b a) eqn:C; simpl; try congruence.
  apply String.compare_eq_iff in C. congruence.
Qed.

Lemma notAfter_trans a b c : notAfter a b -> notAfter b c -> notAfter a c.
Proof.
  unfold notAfter. intros H1 H2.
  destruct (String.ltb c a) eqn:C; [|reflexivity]. exfalso.
  destruct (string_dec a b) as [<- | N]; [congruence|].
  pose proof (notAfter_strict a b H1 N) as L.
  apply ltb_lt in C, L.
  pose proof (OrderedTypeEx.String_as_OT.lt_trans _ _ _ C L) as T.
  apply ltb_lt in T. congruence.
Qed.

Lemma insertString_perm x l : Permutation (insertString x l) (x :: l).
Proof.
  induction l as [|y t IH]; simpl; [reflexivity|].
  destruct (String.ltb y x); [|reflexivity].
  rewrite IH. apply perm_swap.
Qed.

Lemma sortStrings_perm l : Permutation (sortStrings l) l.
Proof.
  induction l as [|x t IH]; simpl; [reflexivity|].
  rewrite insertString_perm. now constructor.
Qed.

Lemma insertString_sorted x l :
  StronglySorted notAfter l -> StronglySorted notAfter (insertString x l).
Proof.
  induction 1 as [|y t S IH F]; simpl; [repeat constructor|].
  destruct (String.ltb y x) eqn:C.
  - constructor; [exact IH|].
    eapply Permutation_Forall; [symmetry; apply insertString_perm|].
    constructor; [|exact F]. now apply ltb_asym.
  - constructor; [now constructor|].
    constructor; [exact C|].
    revert F. apply Forall_impl. intros z Hz.
    now apply (notAfter_trans x y z).
Qed.

Lemma sortStrings_sorted l : StronglySorted notAfter (sortStrings l).
Proof.
  induction l as [|x t IH]; simpl; [constructor|].
  now apply insertString_sorted.
Qed.

Lemma sorted_snoc {A : Type} (R : A -> A -> Prop) (l : list A) (a : A) :
  StronglySorted R l -> Forall (fun x => R x a) l ->
  StronglySorted R (l ++ [a]).
Proof.
  induction 1 as [|x t S IH F]; intros H; simpl.
  - repeat constructor.
  - inversion H; subst. constructor; [now apply IH|].
    apply Forall_app. split; [exact F|]. now constructor.
Qed.

Lemma sorted_rev {A : Type} (R : A -> A -> Prop) (l : list A) :
  StronglySorted R l -> StronglySorted (fun a b => R b a) (rev l).
Proof.
  induction 1 as [|x t S IH F]; simpl; [constructor|].
  apply sorted_snoc; [exact IH|].
  apply Forall_rev. exact F.
Qed.

Lemma sorted_strict l :
  StronglySorted notAfter l -> NoDup l ->
  StronglySorted (fun a b => String.ltb a b = true) l.
Proof.
  induction 1 as [|x t S IH F]; intros N; [constructor|].
  inversion N as [|? ? Hx Nt]; subst. constructor; [now apply IH|].
  rewrite Forall_forall in *. intros y Hy.
  apply notAfter_strict; [now apply F|]. intros ->. contradiction.
Qed.

Lemma weatherOf_year chartYear weather d :
  prefix chartYear d = true ->
  Gemini.weatherOf
    (filter (fun w => prefix chartYear (Weather.date w)) weather) d
  = Gemini.weatherOf weather d.
Proof.
  intros P. induction weather as [|w t IH]; [reflexivity|].
  cbn [filter Gemini.weatherOf].
  destruct (prefix chartYear (Weather.date w)) eqn:Pw.
  - cbn [Gemini.weatherOf]. now rewrite IH.
  - rewrite IH. destruct (Gemini.weatherOf t d); [reflexivity|].
    destruct (String.eqb (Weather.date w) d) eqn:E; [|reflexivity].
    apply String.eqb_eq in E. congruence.
Qed.

Section WithHost.

Variable getTime : string -> option Z.
Variable rand : nat -> string.
Variable toISODate : Z -> string.
Variable nextLocalDay : Z -> Z.
Variable now : Z.
Variable currentYear : string.
Variable fetchSheet : string -> SheetFetched.
Variable fetchWeather : Weather.Request -> Weather.Fetched.

Local Abbreviation initData :=
  (initData getTime rand toISODate nextLocalDay now fetchSheet fetchWeather).
Local Abbreviation getObservations := (getObservations getTime).
Local Abbreviation fetchWeatherHistory :=
  (Weather.fetchWeatherHistory getTime toISODate nextLocalDay now fetchWeather).

(** The first half of [initData]: what is shown, the slot and the
    requests, before the weather is looked up. *)
Lemma initData_store st :
  let '(view, st', requests, range) := initData st initial in
  isLoading view = false /\
  ((getObservations st <> [] /\
    requests = [] /\ st' = st /\ data view = getObservations st) \/
   (getObservations st = [] /\ List.length requests <= 1 /\
    ((data view = [] /\ st' = st) \/
     (data view <> [] /\ st' = Some (data view) /\ List.length requests = 1)))) /\
  match mathMin (map (fun d => getTime (date d)) (data view)),
        mathMax (map (fun d => getTime (date d)) (data view)) with
  | Some lo, Some hi =>
      range = Some (toISODate lo, toISODate hi) /\
      weatherHistory view = fetchWeatherHistory (toISODate lo) (toISODate hi)
  | _, _ => range = None /\ weatherHistory view = []
  end.
Proof.
  unfold App.initData.
  destruct (getObservations st) as [|x stored] eqn:G.
  - cbn [List.length Nat.ltb Nat.leb].
    pose proof (fetchGoogleSheet_cases getTime rand fetchSheet DEFAULT_SHEET_URL st) as C.
    destruct (fetchGoogleSheet getTime rand fetchSheet DEFAULT_SHEET_URL st)
      as [[requests outcome] st1].
    destruct C as [L C]. destruct outcome as [obs | message].
    + destruct C as (L1 & Ne & ->).
      destruct obs as [|o obs]; [congruence|].
      cbn [List.length Nat.ltb Nat.leb].
      set (dates := map (fun d => getTime (date d)) (o :: obs)).
      destruct (mathMin dates) as [lo|] eqn:Emin;
        destruct (mathMax dates) as [hi|] eqn:Emax;
        cbn [data isLoading weatherHistory setWeatherHistory setIsLoading setData initial];
        fold dates; rewrite ?Emin, ?Emax;
        (split; [reflexivity|]); (split; [|now split]);
        right; (split; [reflexivity|]); (split; [exact L|]);
        right; repeat split; auto; discriminate.
    + destruct C as [_ ->].
      cbn [List.length Nat.ltb Nat.leb data isLoading weatherHistory
           setIsLoading initial map].
      split; [reflexivity|]. split; [|now split].
      right. split; [reflexivity|]. split; [exact L|]. now left.
  - cbn [List.length Nat.ltb Nat.leb].
    set (dates := map (fun d => getTime (date d)) (x :: stored)).
    destruct (mathMin dates) as [lo|] eqn:Emin;
      destruct (mathMax dates) as [hi|] eqn:Emax;
      cbn [data isLoading weatherHistory setWeatherHistory setData initial];
      fold dates; rewrite ?Emin, ?Emax;
      (split; [reflexivity|]); (split; [|now split]);
      left; repeat split; auto; discriminate.
Qed.

(** X23: at start-up a store that holds observations is shown as it is,
    without a request to the sheet host and without a write; an empty store
    leads to at most one request, after which either nothing is shown and
    the slot is what it was, or the observations of the sheet are shown and
    are the content of the slot. *)
Theorem init_store st :
  let '(view, st', requests, _) := initData st initial in
  isLoading view = false /\
  ((getObservations st <> [] /\
    requests = [] /\ st' = st /\ data view = getObservations st) \/
   (getObservations st = [] /\ List.length requests <= 1 /\
    ((data view = [] /\ st' = st) \/
     (data view <> [] /\ st' = Some (data view) /\ List.length requests = 1)))).
Proof.
  pose proof (initData_store st) as H.
  destruct (initData st initial) as [[[view st'] requests] range].
  destruct H as (A & B & _). now split.
Qed.

(** X24: at start-up the weather is asked for the range from the earliest
    to the latest date of the observations shown, as the host reads them;
    when there is no observation, or one with a date that the host cannot
    read, [fetchWeatherHistory] is not called and no weather is shown. *)
Theorem init_weather st :
  let '(view, _, _, range) := initData st initial in
  match range with
  | Some (minDate, maxDate) =>
      weatherHistory view = fetchWeatherHistory minDate maxDate /\
      exists lo hi,
        minDate = toISODate lo /\ maxDate = toISODate hi /\ (lo <= hi)%Z /\
        (exists o, In o (data view) /\ getTime (date o) = Some lo) /\
        (exists o, In o (data view) /\ getTime (date o) = Some hi) /\
        forall o, In o (data view) ->
          exists t, getTime (date o) = Some t /\ (lo <= t <= hi)%Z
  | None =>
      weatherHistory view = [] /\
      (data view = [] \/
       exists o, In o (data view) /\ getTime (date o) = None)
  end.
Proof.
  pose proof (initData_store st) as H.
  destruct (initData st initial) as [[[view st'] requests] range].
  destruct H as (_ & _ & W).
  pose proof (extremes getTime (data view)) as X.
  destruct (mathMin (map (fun d => getTime (date d)) (data view))) as [lo|];
    destruct (mathMax (map (fun d => getTime (date d)) (data view))) as [hi|];
    destruct W as [-> Hw]; try contradiction.
  - split; [exact Hw|]. exists lo, hi. tauto.
  - now split.
Qed.

(** X25: the years offered by the dashboard are the current year and the
    text in front of the first hyphen of the date of each observation, each
    once, in descending order of their code units. *)
Theorem availableYears_spec data :
  let years := availableYears currentYear data in
  StronglySorted (fun a b => String.ltb b a = true) years /\
  NoDup years /\
  forall y, In y years <->
    y = currentYear \/ exists d, In d data /\ yearOf d = y.
Proof.
  cbv zeta. unfold availableYears.
  destruct (fold_setAdd (map yearOf data) [] (NoDup_nil _)) as [N I].
  set (years := setAdd (fold_left setAdd (map yearOf data) []) currentYear).
  assert (Ny : NoDup years) by now apply setAdd_nodup.
  assert (Ns : NoDup (sortStrings years)).
  { eapply Permutation_NoDup; [symmetry; apply sortStrings_perm|exact Ny]. }
  split; [|split].
  - apply sorted_rev. apply sorted_strict; [apply sortStrings_sorted|exact Ns].
  - apply NoDup_rev. exact Ns.
  - intros y. rewrite <- in_rev.
    assert (M : In y (sortStrings years) <-> In y years).
    { split; apply Permutation_in;
        [apply sortStrings_perm | symmetry; apply sortStrings_perm]. }
    rewrite M. unfold years. rewrite setAdd_in, I, in_map_iff. simpl.
    split.
    + intros [[[] | (d & E & Hd)] | ->]; [right; now exists d | now left].
    + intros [-> | (d & Hd & E)]; [now right | left; right; now exists d].
Qed.

(** X26: the points of the chart are the observations whose date starts
    with the selected year, oldest first when the host can read their
    dates; each carries the timestamp of its date and the rain and
    temperature of the last weather record of that date in the whole weather
    history, or no temperature and 0 for the rain when there is none. *)
Theorem chart_points chartYear data weatherHistory :
  let points := chartData getTime chartYear data weatherHistory in
  Permutation (map observation points)
    (filter (fun d => prefix chartYear (date d)) data) /\
  (Forall (hasTime getTime) data ->
   StronglySorted (olderFirst getTime) (map observation points)) /\
  Forall (fun p =>
    prefix chartYear (date (observation p)) = true /\
    dateNum p = getTime (date (observation p)) /\
    match Gemini.weatherOf weatherHistory (date (observation p)) with
    | Some w => rain p = Weather.rain w /\ temp p = Some (Weather.tempMax w)
    | None => rain p = 0%Q /\ temp p = None
    end) points.
Proof.
  cbv zeta. unfold chartData.
  set (inYear := fun d : Observation => prefix chartYear (date d)).
  rewrite map_map. cbn [observation]. rewrite map_id.
  pose proof (sortAsc_perm getTime (filter inYear data)) as P.
  split; [exact P|]. split.
  - intros V. apply sortAsc_sorted.
    rewrite Forall_forall in *. intros o Ho. apply V.
    now apply filter_In in Ho.
  - apply Forall_map. rewrite Forall_forall. intros d Hd.
    apply (Permutation_in _ P) in Hd. apply filter_In in Hd as [_ Y].
    unfold inYear in Y. cbn [observation dateNum rain temp].
    rewrite (weatherOf_year _ _ _ Y).
    split; [exact Y|]. split; [reflexivity|].
    destruct (Gemini.weatherOf weatherHistory (date d)); now split.
Qed.

End WithHost.

Example years_of_store :
  availableYears "2026"
    [obsA; mkObservation "c" "2023-10-01" (Fin 0) (Fin 0) (Fin 0); obsB]
  = ["2026"; "2024"; "2023"].
Proof. reflexivity. Qed.

End AppProps.

(** ** The import panel *)

Module SyncProps.
Import Text Num Storage Sheet SheetExtras DataSync.

Section WithHost.

Variable getTime : string -> option Z.
Variable rand : nat -> string.
Variable fetch : string -> SheetFetched.

Local Abbreviation importFromCSV := (importFromCSV getTime rand).
Local Abbreviation fetchGoogleSheet := (fetchGoogleSheet getTime rand fetch).


(** X28: [handleUrlImport] does nothing when there is no URL; otherwise
    it either reports success, hands the observations of the sheet (at
    least one) to its caller, which are then the content of the slot, and
    clears the URL, or it reports an error, with the slot untouched and the
    message of the failure of [fetchGoogleSheet].  The branch for a sheet
    that resolves without rows is never taken. *)
Theorem url_import_outcomes urlOverride panel st :
  let url := urlToUse urlOverride panel in
  let '(panel', update, st', requests) :=
    handleUrlImport getTime rand fetch urlOverride panel st in
  (trim url = "" /\
   panel' = panel /\ update = None /\ st' = st /\ requests = []) \/
  (importStatus panel' = Success /\ sheetUrl panel' = "" /\
   exists newData,
     newData <> [] /\ update = Some newData /\ st' = Some newData /\
     fetchGoogleSheet url st = (requests, Resolved newData, st')) \/
  (importStatus panel' = Error /\ sheetUrl panel' = sheetUrl panel /\
   update = None /\ st' = st /\ errorMessage panel' <> "" /\
   fetchGoogleSheet url st = (requests, Failed (errorMessage panel'), st)).
Proof.
  cbv zeta. unfold handleUrlImport.
  destruct (String.eqb (trim (urlToUse urlOverride panel)) "") eqn:B.
  { left. apply String.eqb_eq in B. auto. }
  pose proof (fetchGoogleSheet_cases getTime rand fetch
                (urlToUse urlOverride panel) st) as C.
  destruct (fetchGoogleSheet (urlToUse urlOverride panel) st)
    as [[requests outcome] st1].
  destruct C as [_ C]. destruct outcome as [obs | message].
  - destruct C as (_ & Ne & ->).
    destruct obs as [|x l]; [congruence|]. right. left.
    cbn [List.length Nat.ltb Nat.leb importStatus sheetUrl].
    repeat split. exists (x :: l). repeat split; auto.
  - right. right. destruct C as [Ne ->]. cbn. auto 10.
Qed.

End WithHost.

End SyncProps.
